(** * minivtun: start-up of the tunnel (src/minivtun.c)

    A shallow embedding of [parse_virtual_route], [tun_alloc] and [main] of
    minivtun.c, and of the packet cipher described by the specification.

    The C code talks to three things it does not define itself:
    - the C library ([inet_pton], [sscanf], [strtoul]): interface [Libc];
    - the operating system ([open], [ioctl], [strerror]): record [world];
    - the rest of the program ([vt_route_add], [gen_encrypt_key],
      [gen_decrypt_key], [gen_string_md5sum], [run_server], [run_client]) and
      the output streams: every call is recorded as an [event], in order. *)

From Stdlib Require Import ZArith List Bool Lia.
From Stdlib Require Import Strings.Ascii Strings.String Numbers.DecimalString.
From Stdlib Require Import NArith.
From Stdlib Require DecimalFacts DecimalPos DecimalN.
Import ListNotations.

Local Open Scope string_scope.
Local Open Scope Z_scope.

(** ** C strings

    A [string] is the contents of a NUL-terminated C string (the characters
    before the terminator). *)

Definition nl : string := String (ascii_of_nat 10) EmptyString.

(** [strchr s c]: offset of the first occurrence of [c], [None] for NULL. *)
Fixpoint strchr (s : string) (c : ascii) : option nat :=
  match s with
  | EmptyString => None
  | String a s' =>
      if Ascii.eqb a c then Some O
      else match strchr s' c with
           | Some n => Some (S n)
           | None => None
           end
  end.

(** The first [n] characters of [s]: what [strncpy (d, s, n); d[n] = 0]
    leaves in [d]. *)
Fixpoint strtake (n : nat) (s : string) : string :=
  match n, s with
  | S n', String a s' => String a (strtake n' s')
  | _, _ => EmptyString
  end.

(** The string that starts [n] characters into [s]. *)
Fixpoint strdrop (n : nat) (s : string) : string :=
  match n, s with
  | S n', String _ s' => strdrop n' s'
  | _, _ => s
  end.

(** printf's %u and %d. *)
Definition fmt_u (n : Z) : string := NilZero.string_of_uint (N.to_uint (Z.to_N n)).
Definition fmt_d (n : Z) : string := NilZero.string_of_int (Z.to_int n).

(** Conversion to [unsigned] (32 bits). *)
Definition to_unsigned (n : Z) : Z := n mod 2 ^ 32.

(** ** The C library *)

Class Libc : Type := {
  (** [inet_pton (AF_INET, s, &a)]: [Some a] when it returns 1; the address is
      read as the number a.b.c.d = a*2^24 + b*2^16 + c*2^8 + d. *)
  inet_pton4 : string -> option Z;
  (** [inet_pton (AF_INET6, s, &a)]: [Some a] when it returns 1. *)
  inet_pton6 : string -> option Z;
  (** [sscanf (s, "%u", &x)]: [Some x] when it returns 1. *)
  sscanf_u : string -> option Z;
  (** [sscanf (s, "%d", &x)]: [Some x] when it returns 1. *)
  sscanf_d : string -> option Z;
  (** [strtoul (s, NULL, 10)]. *)
  strtoul10 : string -> Z;
  (** A dotted quad has at most 15 characters (INET_ADDRSTRLEN is 16). *)
  inet_pton4_length :
    forall s a, inet_pton4 s = Some a -> (String.length s <= 15)%nat
}.

(** ** The operating system *)

Record world : Type := {
  (** [open (path, O_RDWR)]: a descriptor, or a negative number. *)
  sys_open : string -> Z;
  (** [ioctl (fd, TUNSETIFF, &ifr)] on [ifr.ifr_name]: the result and the name
      the kernel leaves in [ifr.ifr_name]. *)
  sys_tunsetiff : Z -> string -> Z * string;
  (** [strerror (errno)] after a failed [tun_alloc]. *)
  sys_strerror : string
}.

(** ** Observable actions *)

Inductive event : Type :=
| EStdout (s : string)                         (* printf *)
| EStderr (s : string)                         (* fprintf (stderr, ...) *)
| EClose (fd : Z)                              (* close *)
| ESystem (cmd : string)                       (* system *)
| ERouteAdd (network prefix gateway : Z)       (* vt_route_add *)
| EGenEncryptKey (passwd : string)             (* gen_encrypt_key (&g_encrypt_key, ..) *)
| EGenDecryptKey (passwd : string)             (* gen_decrypt_key (&g_decrypt_key, ..) *)
| EGenMd5sum (passwd : string)                 (* gen_string_md5sum (g_crypto_passwd_md5sum, ..) *)
| ERunServer (tunfd : Z) (loc_addr_pair : string)
| ERunClient (tunfd : Z) (peer_addr_pair : string).

Definition is_role (e : event) : bool :=
  match e with
  | ERunServer _ _ | ERunClient _ _ => true
  | _ => false
  end.

Definition is_keygen (e : event) : bool :=
  match e with
  | EGenEncryptKey _ | EGenDecryptKey _ | EGenMd5sum _ => true
  | _ => false
  end.

Definition is_route_add (e : event) : bool :=
  match e with
  | ERouteAdd _ _ _ => true
  | _ => false
  end.

Definition is_stderr (e : event) : bool :=
  match e with
  | EStderr _ => true
  | _ => false
  end.

(** ** Global variables (minivtun.c, lines 26-38)

    A [char *] that may be NULL is an [option string].  The key schedules
    [g_encrypt_key], [g_decrypt_key] and [g_crypto_passwd_md5sum] are written
    only by the [gen_*] functions, whose calls are events. *)

Record globals : Type := {
  g_keepalive_timeo : Z;
  g_reconnect_timeo : Z;
  g_pid_file : option string;
  g_crypto_passwd : option string;
  g_local_tun_in : Z;
  g_local_tun_in6 : Z;
  g_devname : string;
  g_tun_mtu : Z;
  g_in_background : bool
}.

Definition initial_globals : globals := {|
  g_keepalive_timeo := 13;
  g_reconnect_timeo := 60;
  g_pid_file := None;
  g_crypto_passwd := Some EmptyString;
  g_local_tun_in := 0;
  g_local_tun_in6 := 0;
  g_devname := EmptyString;
  g_tun_mtu := 1416;
  g_in_background := false
|}.

Definition set_keepalive_timeo (v : Z) (g : globals) : globals :=
  {| g_keepalive_timeo := v; g_reconnect_timeo := g_reconnect_timeo g;
     g_pid_file := g_pid_file g; g_crypto_passwd := g_crypto_passwd g;
     g_local_tun_in := g_local_tun_in g; g_local_tun_in6 := g_local_tun_in6 g;
     g_devname := g_devname g; g_tun_mtu := g_tun_mtu g;
     g_in_background := g_in_background g |}.

Definition set_pid_file (v : option string) (g : globals) : globals :=
  {| g_keepalive_timeo := g_keepalive_timeo g; g_reconnect_timeo := g_reconnect_timeo g;
     g_pid_file := v; g_crypto_passwd := g_crypto_passwd g;
     g_local_tun_in := g_local_tun_in g; g_local_tun_in6 := g_local_tun_in6 g;
     g_devname := g_devname g; g_tun_mtu := g_tun_mtu g;
     g_in_background := g_in_background g |}.

Definition set_crypto_passwd (v : option string) (g : globals) : globals :=
  {| g_keepalive_timeo := g_keepalive_timeo g; g_reconnect_timeo := g_reconnect_timeo g;
     g_pid_file := g_pid_file g; g_crypto_passwd := v;
     g_local_tun_in := g_local_tun_in g; g_local_tun_in6 := g_local_tun_in6 g;
     g_devname := g_devname g; g_tun_mtu := g_tun_mtu g;
     g_in_background := g_in_background g |}.

Definition set_local_tun_in (v : Z) (g : globals) : globals :=
  {| g_keepalive_timeo := g_keepalive_timeo g; g_reconnect_timeo := g_reconnect_timeo g;
     g_pid_file := g_pid_file g; g_crypto_passwd := g_crypto_passwd g;
     g_local_tun_in := v; g_local_tun_in6 := g_local_tun_in6 g;
     g_devname := g_devname g; g_tun_mtu := g_tun_mtu g;
     g_in_background := g_in_background g |}.

Definition set_local_tun_in6 (v : Z) (g : globals) : globals :=
  {| g_keepalive_timeo := g_keepalive_timeo g; g_reconnect_timeo := g_reconnect_timeo g;
     g_pid_file := g_pid_file g; g_crypto_passwd := g_crypto_passwd g;
     g_local_tun_in := g_local_tun_in g; g_local_tun_in6 := v;
     g_devname := g_devname g; g_tun_mtu := g_tun_mtu g;
     g_in_background := g_in_background g |}.

Definition set_devname (v : string) (g : globals) : globals :=
  {| g_keepalive_timeo := g_keepalive_timeo g; g_reconnect_timeo := g_reconnect_timeo g;
     g_pid_file := g_pid_file g; g_crypto_passwd := g_crypto_passwd g;
     g_local_tun_in := g_local_tun_in g; g_local_tun_in6 := g_local_tun_in6 g;
     g_devname := v; g_tun_mtu := g_tun_mtu g;
     g_in_background := g_in_background g |}.

Definition set_tun_mtu (v : Z) (g : globals) : globals :=
  {| g_keepalive_timeo := g_keepalive_timeo g; g_reconnect_timeo := g_reconnect_timeo g;
     g_pid_file := g_pid_file g; g_crypto_passwd := g_crypto_passwd g;
     g_local_tun_in := g_local_tun_in g; g_local_tun_in6 := g_local_tun_in6 g;
     g_devname := g_devname g; g_tun_mtu := v;
     g_in_background := g_in_background g |}.

Definition set_in_background (v : bool) (g : globals) : globals :=
  {| g_keepalive_timeo := g_keepalive_timeo g; g_reconnect_timeo := g_reconnect_timeo g;
     g_pid_file := g_pid_file g; g_crypto_passwd := g_crypto_passwd g;
     g_local_tun_in := g_local_tun_in g; g_local_tun_in6 := g_local_tun_in6 g;
     g_devname := g_devname g; g_tun_mtu := g_tun_mtu g;
     g_in_background := v |}.

(** ** The monad of the start-up code

    A computation reads and writes the globals, appends to the list of events,
    and either yields a value, leaves the process through [exit], or has no
    behaviour defined by C (a write past the end of a stack buffer). *)

Inductive result (A : Type) : Type :=
| Normal (a : A)
| Exit (status : Z)
| Undefined.
Arguments Normal {A} a.
Arguments Exit {A} status.
Arguments Undefined {A}.

Definition M (A : Type) : Type := globals -> list event * globals * result A.

Definition ret {A} (a : A) : M A := fun g => ([], g, Normal a).

Definition bind {A B} (m : M A) (f : A -> M B) : M B :=
  fun g =>
    match m g with
    | (t1, g1, Normal a) =>
        match f a g1 with
        | (t2, g2, r) => ((t1 ++ t2)%list, g2, r)
        end
    | (t1, g1, Exit c) => (t1, g1, Exit c)
    | (t1, g1, Undefined) => (t1, g1, Undefined)
    end.

Definition emit (e : event) : M unit := fun g => ([e], g, Normal tt).
Definition emits (t : list event) : M unit := fun g => (t, g, Normal tt).
Definition exit {A} (status : Z) : M A := fun g => ([], g, Exit status).
Definition undefined {A} : M A := fun g => ([], g, Undefined).
Definition get : M globals := fun g => ([], g, Normal g).
Definition modify (f : globals -> globals) : M unit := fun g => ([], f g, Normal tt).

Notation "x <- m ;; k" := (bind m (fun x => k))
  (at level 61, m at next level, right associativity).
Notation "m ;;; k" := (bind m (fun _ => k))
  (at level 61, right associativity).

Definition trace_of {A} (x : list event * globals * result A) : list event := fst (fst x).
Definition globals_of {A} (x : list event * globals * result A) : globals := snd (fst x).
Definition result_of {A} (x : list event * globals * result A) : result A := snd x.

(** What a computation leaves alone: a global, or a kind of event. *)
Definition keeps {A B} (f : globals -> B) (m : M A) : Prop :=
  forall g, f (globals_of (m g)) = f g.

Definition silent {A} (P : event -> bool) (m : M A) : Prop :=
  forall g, existsb P (trace_of (m g)) = false.

Definition fprintf_stderr (s : string) : M unit := emit (EStderr s).
Definition system (cmd : string) : M unit := emit (ESystem cmd).
Definition vt_route_add (network prefix gateway : Z) : M unit :=
  emit (ERouteAdd network prefix gateway).

(** ** tun_alloc (lines 80-106)

    [tun_alloc w dev] gives the events, the returned descriptor (or a negative
    number) and the contents of [dev] afterwards. *)

Definition IFNAMSIZ : nat := 16.

Definition tun_alloc (w : world) (dev : string) : list event * Z * string :=
  let fd0 := sys_open w "/dev/net/tun" in
  let fd := if fd0 <? 0 then sys_open w "/dev/tun" else fd0 in
  if fd <? 0 then ([], -1, dev)
  else
    (* memset (&ifr, 0, ..); if ( *dev) strncpy (ifr.ifr_name, dev, IFNAMSIZ) *)
    let ifr_name := strtake IFNAMSIZ dev in
    let '(err, ifr_name') := sys_tunsetiff w fd ifr_name in
    if err <? 0 then ([EClose fd], err, dev)
    else
      (* strcpy (dev, ifr.ifr_name): the kernel terminates the name inside
         the IFNAMSIZ bytes of ifr_name *)
      ([], fd, strtake (IFNAMSIZ - 1) ifr_name').

(** ** Command line

    [getopt_long] is the C library's; [main] sees the sequence of its results:
    the option character and [optarg].  With the option table of lines 40-55
    and the option string of line 147 the character is one of
    l r a A m t n p e v N d h, or ? for anything [getopt_long] refuses (it
    then writes its own complaint to stderr, which is not recorded here).
    For N, d, h and ? the C code does not read [optarg]. *)

Record getopt_hit : Type := { opt : ascii; optarg : string }.

(** The pointers [main] sets while it reads the options (lines 141-143). *)
Record locals : Type := {
  tun_ip_config : option string;
  tun_ip6_config : option string;
  loc_addr_pair : option string;
  peer_addr_pair : option string
}.

Definition initial_locals : locals :=
  {| tun_ip_config := None; tun_ip6_config := None;
     loc_addr_pair := None; peer_addr_pair := None |}.

(** print_help (lines 57-78) *)
Definition help_lines (argv0 : string) (g : globals) : list string :=
  [ "Mini virtual tunneller in non-standard protocol." ++ nl;
    "Usage:" ++ nl;
    "  " ++ argv0 ++ " [options]" ++ nl;
    "Options:" ++ nl;
    "  -l, --local <ip:port>               IP:port for server to listen" ++ nl;
    "  -r, --remote <ip:port>              IP:port of server to connect" ++ nl;
    "  -a, --ipv4-addr <tun_lip/tun_rip>   pointopoint IPv4 pair of the virtual interface" ++ nl;
    "                  <tun_lip/pfx_len>   IPv4 address/prefix length pair" ++ nl;
    "  -A, --ipv6-addr <tun_ip6/pfx_len>   IPv6 address/prefix length pair" ++ nl;
    "  -m, --mtu <mtu>                     set MTU size, default: "
      ++ fmt_u (g_tun_mtu g) ++ "." ++ nl;
    "  -t, --keepalive <keepalive_timeo>   interval of keep-alive packets, default: "
      ++ fmt_u (g_keepalive_timeo g) ++ nl;
    "  -n, --ifname <ifname>               virtual interface name" ++ nl;
    "  -p, --pidfile <pid_file>            PID file of the daemon" ++ nl;
    "  -e, --encryption-key <encrypt_key>  shared password for data encryption" ++ nl;
    "  -v, --route <network/prefix=gateway>" ++ nl;
    "                                      route a network to a client address, can be multiple" ++ nl;
    "  -N, --no-encryption                 turn off encryption for tunnelling data" ++ nl;
    "  -d, --daemon                        run as daemon process" ++ nl;
    "  -h, --help                          print this help" ++ nl ].

Definition print_help (argv0 : string) : M unit :=
  g <- get ;; emits (map EStdout (help_lines argv0 g)).

Definition route_diag (arg : string) : string :=
  "*** Not a valid route expression '" ++ arg ++ "'." ++ nl.

(** The diagnostics of [main]. *)
Definition open_tun_diag (w : world) : string :=
  "*** open_tun() failed: " ++ sys_strerror w ++ "." ++ nl.

Definition ipv4_diag_pair (cfg : string) : string :=
  "*** Invalid IPv4 address pair: " ++ cfg ++ "." ++ nl.
Definition ipv4_diag_local (s_lip : string) : string :=
  "*** Invalid local IPv4 address: " ++ s_lip ++ "." ++ nl.
Definition ipv4_diag_netmask (s_rip : string) : string :=
  "*** Not a legal netmask or prefix length: " ++ s_rip ++ "." ++ nl.

Definition ipv6_diag_pair (cfg : string) : string :=
  "*** Invalid IPv6 address pair: " ++ cfg ++ "." ++ nl.
Definition ipv6_diag_local (s_lip : string) : string :=
  "*** Invalid local IPv6 address: " ++ s_lip ++ "." ++ nl.
Definition ipv6_diag_prefix (s_pfx : string) : string :=
  "*** Not a legal prefix length: " ++ s_pfx ++ "." ++ nl.

Definition no_address_diag : string :=
  "*** No valid local or peer address specified." ++ nl.

(** The three key derivations of lines 277-279. *)
Definition keygen_events (passwd : string) : list event :=
  [EGenEncryptKey passwd; EGenDecryptKey passwd; EGenMd5sum passwd].

Section Program.
Context {L : Libc}.

(** ** parse_virtual_route (lines 108-137) *)

Definition parse_virtual_route (arg : string) : M unit :=
  (* strncpy (expr, arg, sizeof (expr)); expr[sizeof (expr) - 1] = 0,
     with char expr[80] *)
  let expr := strtake 79 arg in
  match strchr expr "/" with
  | None => fprintf_stderr (route_diag arg) ;;; exit 1
  | Some i =>
      let net := strtake i expr in
      let pfx := strdrop (S i) expr in
      match strchr pfx "=" with
      | None => fprintf_stderr (route_diag arg) ;;; exit 1
      | Some j =>
          let gw := strdrop (S j) pfx in
          let pfx := strtake j pfx in
          match inet_pton4 net, inet_pton4 gw, sscanf_u pfx with
          | Some network, Some gateway, Some prefix =>
              vt_route_add network prefix gateway
          | _, _, _ => fprintf_stderr (route_diag arg) ;;; exit 1
          end
      end
  end.

(** ** main: the option loop (lines 147-195) *)

Definition handle_option (argv0 : string) (h : getopt_hit) (l : locals) : M locals :=
  let c := opt h in
  if Ascii.eqb c "l" then
    ret {| tun_ip_config := tun_ip_config l; tun_ip6_config := tun_ip6_config l;
           loc_addr_pair := Some (optarg h); peer_addr_pair := peer_addr_pair l |}
  else if Ascii.eqb c "r" then
    ret {| tun_ip_config := tun_ip_config l; tun_ip6_config := tun_ip6_config l;
           loc_addr_pair := loc_addr_pair l; peer_addr_pair := Some (optarg h) |}
  else if Ascii.eqb c "a" then
    ret {| tun_ip_config := Some (optarg h); tun_ip6_config := tun_ip6_config l;
           loc_addr_pair := loc_addr_pair l; peer_addr_pair := peer_addr_pair l |}
  else if Ascii.eqb c "A" then
    ret {| tun_ip_config := tun_ip_config l; tun_ip6_config := Some (optarg h);
           loc_addr_pair := loc_addr_pair l; peer_addr_pair := peer_addr_pair l |}
  else if Ascii.eqb c "m" then
    modify (set_tun_mtu (to_unsigned (strtoul10 (optarg h)))) ;;; ret l
  else if Ascii.eqb c "t" then
    modify (set_keepalive_timeo (to_unsigned (strtoul10 (optarg h)))) ;;; ret l
  else if Ascii.eqb c "n" then
    (* strncpy (g_devname, optarg, sizeof (g_devname) - 1), char g_devname[40] *)
    modify (set_devname (strtake 39 (optarg h))) ;;; ret l
  else if Ascii.eqb c "p" then
    modify (set_pid_file (Some (optarg h))) ;;; ret l
  else if Ascii.eqb c "e" then
    modify (set_crypto_passwd (Some (optarg h))) ;;; ret l
  else if Ascii.eqb c "v" then
    parse_virtual_route (optarg h) ;;; ret l
  else if Ascii.eqb c "N" then
    modify (set_crypto_passwd None) ;;; ret l
  else if Ascii.eqb c "d" then
    modify (set_in_background true) ;;; ret l
  else if Ascii.eqb c "h" then
    print_help argv0 ;;; exit 0
  else if Ascii.eqb c "?" then
    exit 1
  else ret l.

(** The [while] loop: one turn per result of [getopt_long], until it
    returns -1. *)
Fixpoint options_loop (argv0 : string) (opts : list getopt_hit) (l : locals)
  : M locals :=
  match opts with
  | [] => ret l
  | h :: rest => l' <- handle_option argv0 h l ;; options_loop argv0 rest l'
  end.

(** ** main: the tunnel device (lines 197-202) *)

Definition open_tun (w : world) : M Z :=
  g <- get ;;
  (if (String.length (g_devname g) =? 0)%nat
   then modify (set_devname "mv%d") else ret tt) ;;;
  g <- get ;;
  match tun_alloc w (g_devname g) with
  | (t, tunfd, dev) =>
      emits t ;;;
      modify (set_devname dev) ;;;
      if tunfd <? 0 then
        fprintf_stderr (open_tun_diag w) ;;;
        exit 1
      else ret tunfd
  end.

(** ** main: the IPv4 address of the interface (lines 204-240)

    The commands are written to [char cmd[100]].  After [tun_alloc] the
    device name has at most 15 characters, [s_lip] and [s_rip] at most 19
    (49 and 19 for IPv6), so the longest command has 82 characters and
    [sprintf] stays inside the buffer. *)

(** [mask = ~((1 << (32 - na)) - 1)] as a uint32_t, for [na] from 1 to 30;
    the arithmetic of [int] wraps around, which the reduction modulo 2^32
    accounts for. *)
Definition netmask (na : Z) : Z :=
  (Z.lnot (Z.shiftl 1 (32 - na) - 1)) mod 2 ^ 32.

Definition fmt_netmask (mask : Z) : string :=
  fmt_u (Z.shiftr mask 24) ++ "." ++ fmt_u (Z.land (Z.shiftr mask 16) 255) ++ "."
    ++ fmt_u (Z.land (Z.shiftr mask 8) 255) ++ "." ++ fmt_u (Z.land mask 255).

Definition configure_ipv4 (tun_ip_config : option string) : M unit :=
  match tun_ip_config with
  | None => ret tt
  | Some cfg =>
      match strchr cfg "/" with
      | None =>
          fprintf_stderr (ipv4_diag_pair cfg) ;;;
          exit 1
      | Some n =>
          (* strncpy (s_lip, cfg, n); s_lip[n] = 0, with char s_lip[20] *)
          if (20 <=? n)%nat then undefined
          else
            let s_lip := strtake n cfg in
            (* strncpy (s_rip, sp, sizeof (s_rip)); s_rip[sizeof (s_rip) - 1] = 0,
               with char s_rip[20] *)
            let s_rip := strtake 19 (strdrop (S n) cfg) in
            match inet_pton4 s_lip with
            | None =>
                fprintf_stderr (ipv4_diag_local s_lip) ;;;
                exit 1
            | Some vaddr =>
                modify (set_local_tun_in vaddr) ;;;
                g <- get ;;
                match inet_pton4 s_rip with
                | Some vaddr =>
                    vt_route_add 0 0 vaddr ;;;
                    system ("ifconfig " ++ g_devname g ++ " " ++ s_lip
                              ++ " pointopoint " ++ s_rip)
                | None =>
                    match sscanf_d s_rip with
                    | Some na =>
                        if (0 <? na) && (na <? 31) then
                          system ("ifconfig " ++ g_devname g ++ " " ++ s_lip
                                    ++ " netmask " ++ fmt_netmask (netmask na))
                        else
                          fprintf_stderr (ipv4_diag_netmask s_rip) ;;;
                          exit 1
                    | None =>
                        fprintf_stderr (ipv4_diag_netmask s_rip) ;;;
                        exit 1
                    end
                end
            end
      end
  end.

(** ** main: the IPv6 address of the interface (lines 242-270) *)

Definition configure_ipv6 (tun_ip6_config : option string) : M unit :=
  match tun_ip6_config with
  | None => ret tt
  | Some cfg =>
      match strchr cfg "/" with
      | None =>
          fprintf_stderr (ipv6_diag_pair cfg) ;;;
          exit 1
      | Some n =>
          (* strncpy (s_lip, cfg, n); s_lip[n] = 0, with char s_lip[50] *)
          if (50 <=? n)%nat then undefined
          else
            let s_lip := strtake n cfg in
            (* char s_pfx[20] *)
            let s_pfx := strtake 19 (strdrop (S n) cfg) in
            match inet_pton6 s_lip with
            | None =>
                fprintf_stderr (ipv6_diag_local s_lip) ;;;
                exit 1
            | Some vaddr =>
                modify (set_local_tun_in6 vaddr) ;;;
                g <- get ;;
                match sscanf_d s_pfx with
                | Some pfx_len =>
                    if (0 <? pfx_len) && (pfx_len <=? 128) then
                      system ("ifconfig " ++ g_devname g ++ " add " ++ s_lip
                                ++ "/" ++ fmt_d pfx_len)
                    else
                      fprintf_stderr (ipv6_diag_prefix s_pfx) ;;;
                      exit 1
                | None =>
                    fprintf_stderr (ipv6_diag_prefix s_pfx) ;;;
                    exit 1
                end
            end
      end
  end.

(** ** main: MTU and link up (lines 272-274) *)

Definition bring_up : M unit :=
  g <- get ;;
  system ("ifconfig " ++ g_devname g ++ " mtu " ++ fmt_u (g_tun_mtu g)
            ++ "; ifconfig " ++ g_devname g ++ " up").

(** ** main: the keys (lines 276-282) *)

Definition no_encryption_warning : string :=
  "*** WARNING: Transmission will not be encrypted." ++ nl.

Definition setup_crypto : M unit :=
  g <- get ;;
  match g_crypto_passwd g with
  | Some passwd =>
      emit (EGenEncryptKey passwd) ;;;
      emit (EGenDecryptKey passwd) ;;;
      emit (EGenMd5sum passwd)
  | None => fprintf_stderr no_encryption_warning
  end.

(** ** main: the role (lines 284-291) *)

Definition run_role (tunfd : Z) (l : locals) : M unit :=
  match loc_addr_pair l with
  | Some a => emit (ERunServer tunfd a)
  | None =>
      match peer_addr_pair l with
      | Some a => emit (ERunClient tunfd a)
      | None =>
          fprintf_stderr no_address_diag ;;;
          exit 1
      end
  end.

(** ** main (lines 139-294) *)

(** Everything before the role is chosen (lines 147-282): the descriptor of
    the tunnel device and the pointers set from the options. *)
Definition startup (w : world) (argv0 : string) (opts : list getopt_hit)
  : M (Z * locals) :=
  l <- options_loop argv0 opts initial_locals ;;
  tunfd <- open_tun w ;;
  configure_ipv4 (tun_ip_config l) ;;;
  configure_ipv6 (tun_ip6_config l) ;;;
  bring_up ;;;
  setup_crypto ;;;
  ret (tunfd, l).

Definition main (w : world) (argv0 : string) (opts : list getopt_hit) : M Z :=
  s <- startup w argv0 opts ;;
  run_role (fst s) (snd s) ;;;
  ret 0.

(** The process: [main] started with the globals as initialised. *)
Definition run (w : world) (argv0 : string) (opts : list getopt_hit)
  : list event * globals * result Z :=
  main w argv0 opts initial_globals.

End Program.

(** ** A reference C library

    The conversions as the GNU C library performs them on a machine with
    64-bit [long]; the program model is run with it on concrete command
    lines. *)

Module RefLibc.

Definition is_digit (c : ascii) : bool :=
  let n := nat_of_ascii c in ((48 <=? n) && (n <=? 57))%nat.

Definition digit_value (c : ascii) : nat := (nat_of_ascii c - 48)%nat.

(** isspace in the C locale *)
Definition is_space (c : ascii) : bool :=
  let n := nat_of_ascii c in ((n =? 32) || ((9 <=? n) && (n <=? 13)))%nat.

Definition hex_digit_value (c : ascii) : option Z :=
  let n := nat_of_ascii c in
  if ((48 <=? n) && (n <=? 57))%nat then Some (Z.of_nat n - 48)
  else if ((97 <=? n) && (n <=? 102))%nat then Some (Z.of_nat n - 87)
  else if ((65 <=? n) && (n <=? 70))%nat then Some (Z.of_nat n - 55)
  else None.

(** inet_pton4: [cur] is the octet being read ([None] before its first
    digit), [k] the number of octets already closed by a dot, [acc] their
    value. *)
Fixpoint pton4_loop (s : string) (cur : option nat) (k : nat) (acc : Z) : option Z :=
  match s with
  | EmptyString =>
      match cur with
      | Some v => if (k =? 3)%nat then Some (acc * 256 + Z.of_nat v) else None
      | None => None
      end
  | String c s' =>
      if is_digit c then
        match cur with
        | None => pton4_loop s' (Some (digit_value c)) k acc
        | Some v =>
            if (v =? 0)%nat then None
            else
              let v' := (v * 10 + digit_value c)%nat in
              if (255 <? v')%nat then None else pton4_loop s' (Some v') k acc
        end
      else if Ascii.eqb c "." then
        match cur with
        | Some v =>
            if (k <? 3)%nat then pton4_loop s' None (S k) (acc * 256 + Z.of_nat v)
            else None
        | None => None
        end
      else None
  end.

Definition pton4 (s : string) : option Z := pton4_loop s None 0 0.

(** inet_pton6: [groups] are the 16-bit groups stored so far, [colonp] the
    number of groups stored when the double colon was met, [seen] and [val]
    the hexadecimal digits of the current group, [tok] the text from the start
    of the current group. *)
Fixpoint pton6_loop (s tok : string) (groups : list Z) (colonp : option nat)
    (seen : nat) (val : Z) : option (list Z * option nat) :=
  match s with
  | EmptyString =>
      if (0 <? seen)%nat then
        if (8 <=? List.length groups)%nat then None
        else Some ((groups ++ [val])%list, colonp)
      else Some (groups, colonp)
  | String c s' =>
      match hex_digit_value c with
      | Some d =>
          if (seen =? 4)%nat then None
          else pton6_loop s' tok groups colonp (S seen) (val * 16 + d)
      | None =>
          if Ascii.eqb c ":" then
            if (seen =? 0)%nat then
              match colonp with
              | Some _ => None
              | None => pton6_loop s' s' groups (Some (List.length groups)) 0 0
              end
            else if (String.length s' =? 0)%nat then None
            else if (8 <=? List.length groups)%nat then None
            else pton6_loop s' s' (groups ++ [val])%list colonp 0 0
          else if Ascii.eqb c "." then
            if (List.length groups + 2 <=? 8)%nat then
              match pton4 tok with
              | Some a => Some ((groups ++ [a / 65536; a mod 65536])%list, colonp)
              | None => None
              end
            else None
          else None
      end
  end.

Definition pton6 (s : string) : option Z :=
  let body :=
    match s with
    | EmptyString => None
    | String c s' =>
        if Ascii.eqb c ":" then
          match s' with
          | String c' _ => if Ascii.eqb c' ":" then Some s' else None
          | EmptyString => None
          end
        else Some s
    end in
  match body with
  | None => None
  | Some s0 =>
      match pton6_loop s0 s0 [] None 0 0 with
      | None => None
      | Some (groups, colonp) =>
          let n := List.length groups in
          let full :=
            match colonp with
            | Some k =>
                if (n =? 8)%nat then None
                else Some (firstn k groups ++ repeat 0 (8 - n) ++ skipn k groups)%list
            | None => if (n =? 8)%nat then Some groups else None
            end in
          match full with
          | Some gs => Some (fold_left (fun a x => a * 65536 + x) gs 0)
          | None => None
          end
      end
  end.

(** The digits at the head of [s]: their number and value. *)
Fixpoint digits (s : string) (n : nat) (v : Z) : nat * Z :=
  match s with
  | String c s' =>
      if is_digit c then digits s' (S n) (v * 10 + Z.of_nat (digit_value c))
      else (n, v)
  | EmptyString => (n, v)
  end.

Fixpoint skip_space (s : string) : string :=
  match s with
  | String c s' => if is_space c then skip_space s' else s
  | EmptyString => s
  end.

(** Sign and magnitude of the integer at the head of [s], after white space;
    [None] when there is no digit. *)
Definition scan_number (s : string) : option (bool * Z) :=
  let s1 := skip_space s in
  let '(neg, s2) :=
    match s1 with
    | String c s' =>
        if Ascii.eqb c "-" then (true, s')
        else if Ascii.eqb c "+" then (false, s')
        else (false, s1)
    | EmptyString => (false, s1)
    end in
  match digits s2 0 0 with
  | (O, _) => None
  | (_, v) => Some (neg, v)
  end.

(** strtoul's value as an unsigned long *)
Definition ulong_of (neg : bool) (v : Z) : Z :=
  if 2 ^ 64 - 1 <? v then 2 ^ 64 - 1
  else if neg then (- v) mod 2 ^ 64 else v.

(** strtol's value as a long *)
Definition long_of (neg : bool) (v : Z) : Z :=
  if neg then (if 2 ^ 63 <? v then - 2 ^ 63 else - v)
  else (if 2 ^ 63 - 1 <? v then 2 ^ 63 - 1 else v).

Definition scan_u (s : string) : option Z :=
  match scan_number s with
  | Some (neg, v) => Some (ulong_of neg v mod 2 ^ 32)
  | None => None
  end.

Definition scan_d (s : string) : option Z :=
  match scan_number s with
  | Some (neg, v) => Some ((long_of neg v + 2 ^ 31) mod 2 ^ 32 - 2 ^ 31)
  | None => None
  end.

Definition strtoul (s : string) : Z :=
  match scan_number s with
  | Some (neg, v) => ulong_of neg v
  | None => 0
  end.

(** Number of characters an octet of value [v] has taken. *)
Definition octet_width (cur : option nat) : nat :=
  match cur with
  | None => 0
  | Some v => if (v <? 10)%nat then 1 else if (v <? 100)%nat then 2 else 3
  end.

Definition libc : Libc.
Proof.
  refine {| inet_pton4 := pton4; inet_pton6 := pton6;
            sscanf_u := scan_u; sscanf_d := scan_d; strtoul10 := strtoul;
            inet_pton4_length := _ |}.
  assert (Hloop : forall s cur k acc a,
             pton4_loop s cur k acc = Some a ->
             (String.length s + 4 * k + octet_width cur <= 15)%nat).
  { induction s as [|c s IH]; intros cur k acc a H; simpl in H.
    - destruct cur as [v|]; [|discriminate].
      destruct (Nat.eqb_spec k 3); [|discriminate].
      subst k. simpl. destruct (v <? 10)%nat; [lia|]. destruct (v <? 100)%nat; lia.
    - destruct (is_digit c) eqn:Hd.
      + assert (Hv : (digit_value c <= 9)%nat).
        { unfold is_digit in Hd. unfold digit_value.
          apply andb_true_iff in Hd. destruct Hd as [_ Hd].
          apply Nat.leb_le in Hd. lia. }
        destruct cur as [v|].
        * destruct (Nat.eqb_spec v 0); [discriminate|].
          destruct (Nat.ltb_spec 255 (v * 10 + digit_value c)); [discriminate|].
          apply IH in H. simpl in *.
          destruct (Nat.ltb_spec (v * 10 + digit_value c) 10);
            destruct (Nat.ltb_spec (v * 10 + digit_value c) 100);
            destruct (Nat.ltb_spec v 10); destruct (Nat.ltb_spec v 100); lia.
        * apply IH in H. simpl in *.
          destruct (Nat.ltb_spec (digit_value c) 10);
            destruct (Nat.ltb_spec (digit_value c) 100); lia.
      + destruct (Ascii.eqb c "."); [|discriminate].
        destruct cur as [v|]; [|discriminate].
        destruct (Nat.ltb_spec k 3); [|discriminate].
        apply IH in H. simpl in *.
        destruct (v <? 10)%nat; [lia|]. destruct (v <? 100)%nat; lia. }
  intros s a H. unfold pton4 in H. apply Hloop in H. simpl in H. lia.
Defined.

End RefLibc.

Definition test_world : world := {|
  sys_open := fun path => if String.eqb path "/dev/net/tun" then 3 else -1;
  sys_tunsetiff := fun _ name => (0, if String.eqb name "mv%d" then "mv0" else name);
  sys_strerror := "No such file or directory"
|}.


(** ** The packet cipher (specification, sections 3, 4.1 and 8)

    The cipher is in crypto.c of the repository, which is not among the
    sources at hand; it is taken from the specification.  Bytes are numbers,
    a packet is a list of bytes. *)

Module CryptoSpec.

(** Modelled from the spec: the symmetric block cipher of crypto.c and its key
    expansion, "the passphrase is expanded deterministically into fixed-length
    encrypt and decrypt subkeys" for a cipher working on "fixed-size blocks";
    the decrypt subkey of a passphrase undoes the encrypt subkey of the same
    passphrase. *)
Class BlockCipher : Type := {
  block_size : nat;
  key : Type;
  encrypt_block : key -> list Z -> list Z;
  decrypt_block : key -> list Z -> list Z;
  expand_encrypt_key : string -> key;
  expand_decrypt_key : string -> key;
  passphrase_digest : string -> list Z;
  block_size_pos : (0 < block_size)%nat;
  encrypt_block_length :
    forall k b, List.length (encrypt_block k b) = List.length b;
  decrypt_encrypt_block :
    forall passphrase b,
      List.length b = block_size ->
      decrypt_block (expand_decrypt_key passphrase)
        (encrypt_block (expand_encrypt_key passphrase) b) = b
}.

Section Cipher.
Context {C : BlockCipher}.

(** Modelled from the spec: the CryptoContext of crypto.c, "holds encryption
    subkey, decryption subkey, and an integrity-check subkey (keyed digest of
    the passphrase)"; an empty or disabled passphrase gives the identity
    transform. *)
Inductive CryptoContext : Type :=
| Unencrypted
| Keyed (encrypt_subkey decrypt_subkey : key) (check_subkey : list Z).

(** Modelled from the spec: derive of crypto.c, [derive (passphrase) ->
    CryptoContext]; [None] is the disabled passphrase. *)
Definition derive (passphrase : option string) : CryptoContext :=
  match passphrase with
  | None => Unencrypted
  | Some p =>
      if (String.length p =? 0)%nat then Unencrypted
      else Keyed (expand_encrypt_key p) (expand_decrypt_key p) (passphrase_digest p)
  end.

Definition valid_context (ctx : CryptoContext) : Prop :=
  exists passphrase, ctx = derive passphrase.

Definition is_byte (b : Z) : Prop := 0 <= b < 256.

(** An initialization vector is one block of bytes. *)
Definition valid_iv (iv : list Z) : Prop :=
  List.length iv = block_size /\ Forall is_byte iv.

Definition is_block (b : list Z) : Prop := List.length b = block_size.

Fixpoint xor_block (a b : list Z) : list Z :=
  match a, b with
  | x :: a', y :: b' => Z.lxor x y :: xor_block a' b'
  | _, _ => []
  end.

(** Modelled from the spec: the padding of crypto.c, "plaintext is padded to a
    block boundary using a reversible, length-recoverable padding scheme":
    between 1 and [block_size] bytes are added, each holding their number. *)
Definition pad (p : list Z) : list Z :=
  let n := (block_size - List.length p mod block_size)%nat in
  (p ++ repeat (Z.of_nat n) n)%list.

Definition unpad (c : list Z) : option (list Z) :=
  let n := Z.to_nat (last c 0) in
  let len := List.length c in
  if ((0 <? n) && (n <=? block_size) && (n <=? len))%nat
     && forallb (Z.eqb (Z.of_nat n)) (skipn (len - n) c)
  then Some (firstn (len - n) c)
  else None.

(** The first [k] blocks of [l]. *)
Fixpoint chunks (k : nat) (l : list Z) : list (list Z) :=
  match k with
  | O => []
  | S k' => firstn block_size l :: chunks k' (skipn block_size l)
  end.

Definition blocks (l : list Z) : list (list Z) :=
  chunks (List.length l / block_size) l.

(** Modelled from the spec: the block mode of crypto.c, "payload is encrypted
    in fixed-size blocks" with an initialization vector "generated per packet":
    each block is combined with the previous cipher block, the first one with
    the vector. *)
Fixpoint chain_encrypt (k : key) (prev : list Z) (bs : list (list Z))
  : list (list Z) :=
  match bs with
  | [] => []
  | b :: bs' =>
      let c := encrypt_block k (xor_block b prev) in
      c :: chain_encrypt k c bs'
  end.

Fixpoint chain_decrypt (k : key) (prev : list Z) (cs : list (list Z))
  : list (list Z) :=
  match cs with
  | [] => []
  | c :: cs' => xor_block (decrypt_block k c) prev :: chain_decrypt k c cs'
  end.

(** Modelled from the spec: encrypt of crypto.c,
    [encrypt (context, plaintext, iv) -> ciphertext]. *)
Definition encrypt (ctx : CryptoContext) (plaintext iv : list Z) : list Z :=
  match ctx with
  | Unencrypted => plaintext
  | Keyed ek _ _ => List.concat (chain_encrypt ek iv (blocks (pad plaintext)))
  end.

(** Modelled from the spec: decrypt of crypto.c,
    [decrypt (context, ciphertext, iv) -> plaintext | FAIL (IntegrityError)];
    [None] is the failure. *)
Definition decrypt (ctx : CryptoContext) (ciphertext iv : list Z)
  : option (list Z) :=
  match ctx with
  | Unencrypted => Some ciphertext
  | Keyed _ dk _ =>
      if (List.length ciphertext mod block_size =? 0)%nat
      then unpad (List.concat (chain_decrypt dk iv (blocks ciphertext)))
      else None
  end.

End Cipher.

(** A toy cipher on 16-byte blocks: every byte is combined with the length of
    the passphrase. *)
Definition toy_key (p : string) : Z := Z.of_nat (String.length p).

Definition toy_cipher : BlockCipher.
Proof.
  refine {| block_size := 16; key := Z;
            encrypt_block := fun k b => map (Z.lxor k) b;
            decrypt_block := fun k b => map (Z.lxor k) b;
            expand_encrypt_key := toy_key; expand_decrypt_key := toy_key;
            passphrase_digest := fun p => [toy_key p];
            block_size_pos := Nat.lt_0_succ 15;
            encrypt_block_length := _; decrypt_encrypt_block := _ |}.
  - intros k b. apply length_map.
  - intros p b _. rewrite map_map. rewrite <- (map_id b) at 2.
    apply map_ext. intros x.
    rewrite <- Z.lxor_assoc, Z.lxor_nilpotent. apply Z.lxor_0_l.
Defined.

End CryptoSpec.

(** ** What a command line asks for *)

Definition has_option (c : ascii) (opts : list getopt_hit) : bool :=
  existsb (fun h => Ascii.eqb (opt h) c) opts.

(** The argument of the last option [c] on the command line. *)
Fixpoint last_arg (c : ascii) (opts : list getopt_hit) : option string :=
  match opts with
  | [] => None
  | h :: rest =>
      match last_arg c rest with
      | Some a => Some a
      | None => if Ascii.eqb (opt h) c then Some (optarg h) else None
      end
  end.

(** The passphrase after the options: the last of --encryption-key and
    --no-encryption decides; [None] is the NULL pointer. *)
Definition passwd_step (p : option string) (h : getopt_hit) : option string :=
  if Ascii.eqb (opt h) "e" then Some (optarg h)
  else if Ascii.eqb (opt h) "N" then None
  else p.

Definition configured_passwd (opts : list getopt_hit) : option string :=
  fold_left passwd_step opts (Some EmptyString).

Definition or_else (a b : option string) : option string :=
  match a with
  | Some x => Some x
  | None => b
  end.

Section Validity.
Context {L : Libc}.

(** The options that only store something. *)
Definition stores (c : ascii) : bool :=
  negb (Ascii.eqb c "v" || Ascii.eqb c "h" || Ascii.eqb c "?").

Definition step_locals (h : getopt_hit) (l : locals) : locals :=
  {| tun_ip_config := if Ascii.eqb (opt h) "a" then Some (optarg h) else tun_ip_config l;
     tun_ip6_config := if Ascii.eqb (opt h) "A" then Some (optarg h) else tun_ip6_config l;
     loc_addr_pair := if Ascii.eqb (opt h) "l" then Some (optarg h) else loc_addr_pair l;
     peer_addr_pair := if Ascii.eqb (opt h) "r" then Some (optarg h) else peer_addr_pair l |}.

Definition step_globals (h : getopt_hit) (g : globals) : globals :=
  {| g_keepalive_timeo :=
       if Ascii.eqb (opt h) "t" then to_unsigned (strtoul10 (optarg h))
       else g_keepalive_timeo g;
     g_reconnect_timeo := g_reconnect_timeo g;
     g_pid_file := if Ascii.eqb (opt h) "p" then Some (optarg h) else g_pid_file g;
     g_crypto_passwd := passwd_step (g_crypto_passwd g) h;
     g_local_tun_in := g_local_tun_in g;
     g_local_tun_in6 := g_local_tun_in6 g;
     g_devname := if Ascii.eqb (opt h) "n" then strtake 39 (optarg h) else g_devname g;
     g_tun_mtu :=
       if Ascii.eqb (opt h) "m" then to_unsigned (strtoul10 (optarg h))
       else g_tun_mtu g;
     g_in_background := if Ascii.eqb (opt h) "d" then true else g_in_background g |}.


(** The network, prefix and gateway that [parse_virtual_route] reads from an
    argument: from its first 79 characters, cut at the first slash and at the
    first equals sign after it. *)
Definition route_expr (arg : string) : option (Z * Z * Z) :=
  let expr := strtake 79 arg in
  match strchr expr "/" with
  | None => None
  | Some i =>
      let rest := strdrop (S i) expr in
      match strchr rest "=" with
      | None => None
      | Some j =>
          match inet_pton4 (strtake i expr), inet_pton4 (strdrop (S j) rest),
                sscanf_u (strtake j rest) with
          | Some network, Some gateway, Some prefix => Some (network, prefix, gateway)
          | _, _, _ => None
          end
      end
  end.

(** An --ipv4-addr argument [main] accepts: a slash, a local address before
    it, and after it (first 19 characters) an address or a number from 1 to
    30. *)
Definition ipv4_config_ok (cfg : string) : bool :=
  match strchr cfg "/" with
  | None => false
  | Some n =>
      match inet_pton4 (strtake n cfg) with
      | None => false
      | Some _ =>
          let s_rip := strtake 19 (strdrop (S n) cfg) in
          match inet_pton4 s_rip, sscanf_d s_rip with
          | Some _, _ => true
          | None, Some na => (0 <? na) && (na <? 31)
          | None, None => false
          end
      end
  end.

(** An --ipv6-addr argument [main] accepts. *)
Definition ipv6_config_ok (cfg : string) : bool :=
  match strchr cfg "/" with
  | None => false
  | Some n =>
      match inet_pton6 (strtake n cfg), sscanf_d (strtake 19 (strdrop (S n) cfg)) with
      | Some _, Some pfx_len => (0 <? pfx_len) && (pfx_len <=? 128)
      | _, _ => false
      end
  end.

(** The part before the slash fits the buffer it is copied to (with its
    terminator). *)
Definition local_part_fits (size : nat) (cfg : option string) : bool :=
  match cfg with
  | None => true
  | Some c =>
      match strchr c "/" with
      | Some n => (n <? size)%nat
      | None => true
      end
  end.

Definition option_ok (ok : string -> bool) (cfg : option string) : bool :=
  match cfg with
  | None => true
  | Some c => ok c
  end.

(** A --route option whose argument is refused. *)
Definition bad_route (h : getopt_hit) : bool :=
  Ascii.eqb (opt h) "v" &&
  match route_expr (optarg h) with Some _ => false | None => true end.

(** Some address or route given on the command line is refused: a --route
    argument, the last --ipv4-addr argument or the last --ipv6-addr
    argument. *)
Definition config_error (opts : list getopt_hit) : bool :=
  existsb bad_route opts
  || negb (option_ok ipv4_config_ok (last_arg "a" opts))
  || negb (option_ok ipv6_config_ok (last_arg "A" opts)).

End Validity.

(** ** Sample command lines

    The model is run with the reference C library in a world where
    /dev/net/tun opens as descriptor 3 and the kernel names the device mv0. *)

Module Samples.
Import RefLibc.

Definition hit (c : ascii) (a : string) : getopt_hit := {| opt := c; optarg := a |}.

Fixpoint zeros (n : nat) : string :=
  match n with
  | O => EmptyString
  | S n' => String "0" (zeros n')
  end.

Definition exec (opts : list getopt_hit) : list event * globals * result Z :=
  @run libc test_world "minivtun" opts.

Definition is_client (e : event) : bool :=
  match e with
  | ERunClient _ _ => true
  | _ => false
  end.

(** minivtun -l 0.0.0.0:1414 -a 10.7.0.1/24 *)
Definition server_opts : list getopt_hit :=
  [hit "l" "0.0.0.0:1414"; hit "a" "10.7.0.1/24"].

(** An argument of 88 characters in which network, prefix and gateway are
    well formed: the prefix is written with 71 digits. *)
Definition long_prefix : string := zeros 70 ++ "8".
Definition long_route : string := "1.2.3.4/" ++ long_prefix ++ "=10.0.0.1".

(** An argument of 80 characters whose gateway, 10.0.0.1x, is no address;
    its first 79 characters end with the gateway 10.0.0.1. *)
Definition cut_route : string := "1.2.3.4/" ++ zeros 61 ++ "8=10.0.0.1" ++ "x".

(** minivtun -a 10.7.0.1/31 -l 0.0.0.0:1414 *)
Definition prefix_31_opts : list getopt_hit :=
  [hit "a" "10.7.0.1/31"; hit "l" "0.0.0.0:1414"].

(** minivtun -a nonsense -a 10.7.0.1/24 -l 0.0.0.0:1414 *)
Definition override_opts : list getopt_hit :=
  [hit "a" "nonsense"; hit "a" "10.7.0.1/24"; hit "l" "0.0.0.0:1414"].

(** minivtun -r 192.0.2.1:1414 -a 10.7.0.2/10.7.0.1 -N *)
Definition client_plain_opts : list getopt_hit :=
  [hit "r" "192.0.2.1:1414"; hit "a" "10.7.0.2/10.7.0.1"; hit "N" EmptyString].

Definition client_plain_startup : list event * globals * result (Z * locals) :=
  Eval vm_compute in @startup libc test_world "minivtun" client_plain_opts initial_globals.

(** minivtun -l 0.0.0.0:1414 -r 192.0.2.1:1414 *)
Definition both_opts : list getopt_hit :=
  [hit "l" "0.0.0.0:1414"; hit "r" "192.0.2.1:1414"].

Definition both_startup : list event * globals * result (Z * locals) :=
  Eval vm_compute in @startup libc test_world "minivtun" both_opts initial_globals.

(** minivtun -e secret -l 0.0.0.0:1414 -v 172.16.0.0/24=10.0.0.2 *)
Definition secret_opts : list getopt_hit :=
  [hit "e" "secret"; hit "l" "0.0.0.0:1414"; hit "v" "172.16.0.0/24=10.0.0.2"].

Definition secret_startup : list event * globals * result (Z * locals) :=
  Eval vm_compute in @startup libc test_world "minivtun" secret_opts initial_globals.

(** minivtun -v 172.16.0.0/24=10.7.0.9 -a 10.7.0.2/10.7.0.1 -r 192.0.2.1:1414 *)
Definition pair_opts : list getopt_hit :=
  [hit "v" "172.16.0.0/24=10.7.0.9"; hit "a" "10.7.0.2/10.7.0.1"; hit "r" "192.0.2.1:1414"].

Definition pair_startup : list event * globals * result (Z * locals) :=
  Eval vm_compute in @startup libc test_world "minivtun" pair_opts initial_globals.

(** An IPv4 header of 20 bytes and an initialization vector of 16. *)
Definition sample_packet : list Z :=
  [69; 0; 0; 20; 0; 1; 0; 0; 64; 1; 255; 0; 10; 7; 0; 1; 10; 7; 0; 2].
Definition sample_iv : list Z :=
  [1; 2; 3; 4; 5; 6; 7; 8; 9; 10; 11; 12; 13; 14; 15; 255].

End Samples.

(** ** The rest of the start-up

    What the options, the device and the shell commands come to, for the
    statements about [tun_alloc], the option loop and the commands. *)

Definition is_system (e : event) : bool :=
  match e with
  | ESystem _ => true
  | _ => false
  end.

(** The descriptor [tun_alloc] works on: that of /dev/net/tun, of /dev/tun
    when the former does not open (lines 85-88). *)
Definition opened_descriptor (w : world) : Z :=
  if sys_open w "/dev/net/tun" <? 0 then sys_open w "/dev/tun"
  else sys_open w "/dev/net/tun".

(** The name [main] passes to [tun_alloc]: that of the last --ifname, cut to
    39 characters, or mv%d when there is none or it is empty. *)
Definition requested_devname (opts : list getopt_hit) : string :=
  match last_arg "n" opts with
  | Some a => if (String.length a =? 0)%nat then "mv%d" else strtake 39 a
  | None => "mv%d"
  end.

(** --daemon and --pidfile *)
Definition daemon_option (h : getopt_hit) : bool :=
  Ascii.eqb (opt h) "d" || Ascii.eqb (opt h) "p".

(** Two states of the globals that differ at most in [g_pid_file] and
    [g_in_background]. *)
Definition same_but_daemon (g g' : globals) : Prop :=
  g_keepalive_timeo g = g_keepalive_timeo g' /\
  g_reconnect_timeo g = g_reconnect_timeo g' /\
  g_crypto_passwd g = g_crypto_passwd g' /\
  g_local_tun_in g = g_local_tun_in g' /\
  g_local_tun_in6 g = g_local_tun_in6 g' /\
  g_devname g = g_devname g' /\
  g_tun_mtu g = g_tun_mtu g'.

Section Reading.
Context {L : Libc}.

(** The calls of [vt_route_add] for the --route options, in the order of the
    command line. *)
Definition route_events (opts : list getopt_hit) : list event :=
  flat_map
    (fun h =>
       if Ascii.eqb (opt h) "v" then
         match route_expr (optarg h) with
         | Some (network, prefix, gateway) => [ERouteAdd network prefix gateway]
         | None => []
         end
       else [])
    opts.

(** The MTU and the keepalive interval after the options. *)
Definition configured_mtu (opts : list getopt_hit) : Z :=
  match last_arg "m" opts with
  | Some a => to_unsigned (strtoul10 a)
  | None => 1416
  end.

Definition configured_keepalive (opts : list getopt_hit) : Z :=
  match last_arg "t" opts with
  | Some a => to_unsigned (strtoul10 a)
  | None => 13
  end.

(** The four shell commands of [main] for a device [dev]: beside the device
    name, which is not checked, they hold of what the user gave addresses
    that inet_pton accepts and numbers that [main] prints itself. *)
Inductive ifconfig_command (dev : string) : string -> Prop :=
| cmd_pointopoint (s_lip s_rip : string) (a b : Z) :
    inet_pton4 s_lip = Some a ->
    inet_pton4 s_rip = Some b ->
    ifconfig_command dev
      ("ifconfig " ++ dev ++ " " ++ s_lip ++ " pointopoint " ++ s_rip)
| cmd_netmask (s_lip : string) (a na : Z) :
    inet_pton4 s_lip = Some a ->
    1 <= na <= 30 ->
    ifconfig_command dev
      ("ifconfig " ++ dev ++ " " ++ s_lip ++ " netmask " ++ fmt_netmask (netmask na))
| cmd_ipv6 (s_lip : string) (a pfx_len : Z) :
    inet_pton6 s_lip = Some a ->
    (String.length s_lip < 50)%nat ->
    1 <= pfx_len <= 128 ->
    ifconfig_command dev
      ("ifconfig " ++ dev ++ " add " ++ s_lip ++ "/" ++ fmt_d pfx_len)
| cmd_up (mtu : Z) :
    0 <= mtu < 2 ^ 32 ->
    ifconfig_command dev
      ("ifconfig " ++ dev ++ " mtu " ++ fmt_u mtu ++ "; ifconfig " ++ dev ++ " up").

End Reading.

(** The tunnel device can be set up under the name [name]: one of the two
    device files opens and the TUNSETIFF ioctl succeeds (lines 85-103). *)
Definition tun_available (w : world) (name : string) : bool :=
  (0 <=? opened_descriptor w) &&
  (0 <=? fst (sys_tunsetiff w (opened_descriptor w) (strtake 16 name))).

(** What [tun_alloc] closes when it fails. *)
Definition tun_closed (w : world) : list event :=
  if opened_descriptor w <? 0 then [] else [EClose (opened_descriptor w)].

(** Two outcomes with the same events and the same result, whose globals
    differ at most in [g_pid_file] and [g_in_background]. *)
Definition agree {A} (x y : list event * globals * result A) : Prop :=
  trace_of x = trace_of y /\
  result_of x = result_of y /\
  same_but_daemon (globals_of x) (globals_of y).

(** Command lines and a host for the statements about the rest of the
    start-up. *)
Module MoreSamples.
Import RefLibc Samples.

(** A host on which neither device file opens. *)
Definition no_tun_world : world := {|
  sys_open := fun _ => -1;
  sys_tunsetiff := fun _ name => (0, name);
  sys_strerror := "No such file or directory"
|}.

(** minivtun -m 1400 -t 7 -v 172.16.0.0/24=10.0.0.2 *)
Definition tuned_opts : list getopt_hit :=
  [hit "m" "1400"; hit "t" "7"; hit "v" "172.16.0.0/24=10.0.0.2"].

Definition tuned_loop : list event * globals * result locals :=
  Eval vm_compute in @options_loop libc "minivtun" tuned_opts initial_locals initial_globals.

(** minivtun -v 172.16.0.0/24=10.0.0.2 -m 1400 -v 192.168.0.0/16=10.7.0.2 -l 0.0.0.0:1414 *)
Definition two_routes_opts : list getopt_hit :=
  [hit "v" "172.16.0.0/24=10.0.0.2"; hit "m" "1400"; hit "v" "192.168.0.0/16=10.7.0.2";
   hit "l" "0.0.0.0:1414"].

Definition two_routes_loop : list event * globals * result locals :=
  Eval vm_compute in
    @options_loop libc "minivtun" two_routes_opts initial_locals initial_globals.

(** minivtun -n tun7 -a 10.7.0.1/24 -A fd00::1/64 -m 1400 -l 0.0.0.0:1414 *)
Definition dual_opts : list getopt_hit :=
  [hit "n" "tun7"; hit "a" "10.7.0.1/24"; hit "A" "fd00::1/64"; hit "m" "1400";
   hit "l" "0.0.0.0:1414"].

Definition dual_startup : list event * globals * result (Z * locals) :=
  Eval vm_compute in @startup libc test_world "minivtun" dual_opts initial_globals.

(** minivtun -v 172.16.0.0/24=10.0.0.2 -a 12345678901234567890/24: 20
    characters before the slash *)
Definition long_local_opts : list getopt_hit :=
  [hit "v" "172.16.0.0/24=10.0.0.2"; hit "a" "12345678901234567890/24"].

Definition long_local_loop : list event * globals * result locals :=
  Eval vm_compute in
    @options_loop libc "minivtun" long_local_opts initial_locals initial_globals.

(** fd00::1 as a number of 128 bits *)
Definition fd00_1 : Z := 253 * 2 ^ 120 + 1.

End MoreSamples.

(** * Properties *)

(** ** Strings *)

Lemma strtake_all (s : string) :
  forall n, (String.length s <= n)%nat -> strtake n s = s.
Proof.
  induction s as [|a s IH]; intros [|n] H; simpl in *; try reflexivity; try lia.
  f_equal. apply IH. lia.
Qed.

Lemma strtake_length (s : string) :
  forall n, (String.length (strtake n s) <= n)%nat.
Proof.
  induction s as [|a s IH]; intros [|n]; simpl; try lia.
  specialize (IH n). lia.
Qed.

Lemma strtake_full_length (s : string) :
  forall n, (n <= String.length s)%nat -> String.length (strtake n s) = n.
Proof.
  induction s as [|a s IH]; intros [|n] H; simpl in *; try reflexivity; try lia.
  f_equal. apply IH. lia.
Qed.

Lemma strchr_append (a b : string) (c : ascii) :
  strchr a c = None -> strchr (a ++ String c b) c = Some (String.length a).
Proof.
  induction a as [|x a IH]; simpl; intros H.
  - now rewrite Ascii.eqb_refl.
  - destruct (Ascii.eqb x c); [discriminate|].
    destruct (strchr a c); [discriminate|]. now rewrite IH.
Qed.

Lemma strtake_append (a b : string) : strtake (String.length a) (a ++ b) = a.
Proof.
  induction a as [|x a IH]; simpl.
  - now destruct b.
  - now rewrite IH.
Qed.

Lemma strdrop_append (a b : string) (c : ascii) :
  strdrop (S (String.length a)) (a ++ String c b) = b.
Proof.
  induction a as [|x a IH]; simpl.
  - now destruct b.
  - exact IH.
Qed.

(** ** The start-up code *)

Section Startup.
Context {L : Libc}.

(** [parse_virtual_route] adds the route it reads, or complains and leaves. *)
Lemma parse_virtual_route_eq (arg : string) (g : globals) :
  parse_virtual_route arg g =
  match route_expr arg with
  | Some (network, prefix, gateway) =>
      ([ERouteAdd network prefix gateway], g, Normal tt)
  | None => ([EStderr (route_diag arg)], g, Exit 1)
  end.
Proof.
  unfold parse_virtual_route, route_expr.
  destruct (strchr (strtake 79 arg) "/") as [i|]; [|reflexivity].
  destruct (strchr (strdrop (S i) (strtake 79 arg)) "=") as [j|]; [|reflexivity].
  destruct (inet_pton4 (strtake i (strtake 79 arg))); [|reflexivity].
  destruct (inet_pton4 (strdrop (S j) (strdrop (S i) (strtake 79 arg)))); [|reflexivity].
  destruct (sscanf_u (strtake j (strdrop (S i) (strtake 79 arg)))); reflexivity.
Qed.

Lemma handle_option_eq (argv0 : string) (h : getopt_hit) (l : locals) (g : globals) :
  handle_option argv0 h l g =
  if Ascii.eqb (opt h) "v" then
    match route_expr (optarg h) with
    | Some (network, prefix, gateway) =>
        ([ERouteAdd network prefix gateway], g, Normal l)
    | None => ([EStderr (route_diag (optarg h))], g, Exit 1)
    end
  else if Ascii.eqb (opt h) "h" then (map EStdout (help_lines argv0 g), g, Exit 0)
  else if Ascii.eqb (opt h) "?" then ([], g, Exit 1)
  else ([], step_globals h g, Normal (step_locals h l)).
Proof.
  destruct h as [c a]. destruct l as [c4 c6 la pa]. destruct g.
  unfold handle_option, step_globals, step_locals, passwd_step. cbn [opt optarg].
  repeat match goal with
         | |- context [Ascii.eqb c ?x] =>
             destruct (Ascii.eqb_spec c x);
             [subst c; cbn; try rewrite app_nil_r; try reflexivity|]
         end.
  - unfold bind. rewrite parse_virtual_route_eq.
    destruct (route_expr a) as [[[nw p] gw]|]; reflexivity.
  - reflexivity.
Qed.

Lemma options_loop_cons (argv0 : string) (h : getopt_hit) (rest : list getopt_hit)
    (l : locals) (g : globals) :
  options_loop argv0 (h :: rest) l g =
  if Ascii.eqb (opt h) "v" then
    match route_expr (optarg h) with
    | Some (network, prefix, gateway) =>
        (ERouteAdd network prefix gateway :: trace_of (options_loop argv0 rest l g),
         globals_of (options_loop argv0 rest l g),
         result_of (options_loop argv0 rest l g))
    | None => ([EStderr (route_diag (optarg h))], g, Exit 1)
    end
  else if Ascii.eqb (opt h) "h" then (map EStdout (help_lines argv0 g), g, Exit 0)
  else if Ascii.eqb (opt h) "?" then ([], g, Exit 1)
  else options_loop argv0 rest (step_locals h l) (step_globals h g).
Proof.
  cbn [options_loop]. unfold bind. rewrite handle_option_eq.
  destruct (Ascii.eqb (opt h) "v").
  - destruct (route_expr (optarg h)) as [[[nw p] gw]|]; [|reflexivity].
    now destruct (options_loop argv0 rest l g) as [[t2 g2] r].
  - destruct (Ascii.eqb (opt h) "h"); [reflexivity|].
    destruct (Ascii.eqb (opt h) "?"); [reflexivity|].
    now destruct (options_loop argv0 rest (step_locals h l) (step_globals h g))
      as [[t2 g2] r].
Qed.

(** The option loop never runs into undefined behaviour. *)
Lemma options_loop_defined (argv0 : string) (opts : list getopt_hit) :
  forall l g, result_of (options_loop argv0 opts l g) <> Undefined.
Proof.
  induction opts as [|h rest IH]; intros l g.
  - discriminate.
  - rewrite options_loop_cons.
    destruct (Ascii.eqb (opt h) "v").
    + destruct (route_expr (optarg h)) as [[[nw p] gw]|]; [apply IH | discriminate].
    + destruct (Ascii.eqb (opt h) "h"); [discriminate|].
      destruct (Ascii.eqb (opt h) "?"); [discriminate|]. apply IH.
Qed.

(** It starts no role and derives no key. *)
Lemma options_loop_events (argv0 : string) (opts : list getopt_hit) :
  forall l g,
    existsb is_role (trace_of (options_loop argv0 opts l g)) = false /\
    existsb is_keygen (trace_of (options_loop argv0 opts l g)) = false.
Proof.
  induction opts as [|h rest IH]; intros l g.
  - now split.
  - rewrite options_loop_cons.
    destruct (Ascii.eqb (opt h) "v").
    + destruct (route_expr (optarg h)) as [[[nw p] gw]|]; [apply IH | now split].
    + destruct (Ascii.eqb (opt h) "h").
      { cbn [trace_of fst]. generalize (help_lines argv0 g).
        intros ls. induction ls; now split. }
      destruct (Ascii.eqb (opt h) "?"); [now split|]. apply IH.
Qed.

(** When it leaves the process, and neither --help nor an unknown option was
    given, a refused route is the reason. *)
Lemma options_loop_exit (argv0 : string) (opts : list getopt_hit) :
  forall l g c,
    result_of (options_loop argv0 opts l g) = Exit c ->
    has_option "h" opts = false ->
    has_option "?" opts = false ->
    c = 1 /\
    exists t msg, trace_of (options_loop argv0 opts l g) = (t ++ [EStderr msg])%list.
Proof.
  induction opts as [|h rest IH]; intros l g c.
  - discriminate.
  - rewrite options_loop_cons. cbn [has_option existsb].
    destruct (Ascii.eqb (opt h) "v") eqn:Ev.
    + destruct (route_expr (optarg h)) as [[[nw p] gw]|].
      * cbn [result_of trace_of fst snd]. intros H Hh Hq.
        apply orb_false_iff in Hh. apply orb_false_iff in Hq.
        destruct (IH l g c H (proj2 Hh) (proj2 Hq)) as [Hc [t [msg Ht]]].
        split; [exact Hc|]. exists (ERouteAdd nw p gw :: t), msg.
        cbn [app]. f_equal. exact Ht.
      * cbn. intros H _ _. injection H as <-. split; [reflexivity|].
        now exists [], (route_diag (optarg h)).
    + destruct (Ascii.eqb (opt h) "h"); [discriminate|].
      destruct (Ascii.eqb (opt h) "?"); [discriminate|].
      cbn [orb]. apply IH.
Qed.

(** When it completes, every route was accepted, and the locals and globals
    are those of the options taken one by one. *)
Lemma options_loop_normal (argv0 : string) (opts : list getopt_hit) :
  forall l g l',
    result_of (options_loop argv0 opts l g) = Normal l' ->
    existsb bad_route opts = false /\
    existsb is_stderr (trace_of (options_loop argv0 opts l g)) = false /\
    l' = fold_left (fun l h => if stores (opt h) then step_locals h l else l) opts l /\
    globals_of (options_loop argv0 opts l g) =
      fold_left (fun g h => if stores (opt h) then step_globals h g else g) opts g.
Proof.
  induction opts as [|h rest IH]; intros l g l'.
  - cbn. intros H. injection H as <-. now repeat split.
  - rewrite options_loop_cons. cbn [existsb fold_left]. unfold bad_route at 1.
    assert (Hs : stores (opt h) =
                 negb (Ascii.eqb (opt h) "v" || Ascii.eqb (opt h) "h" || Ascii.eqb (opt h) "?"))
      by reflexivity.
    rewrite Hs. clear Hs.
    destruct (Ascii.eqb (opt h) "v") eqn:Ev.
    + destruct (route_expr (optarg h)) as [[[nw p] gw]|]; [|discriminate].
      cbn. apply IH.
    + destruct (Ascii.eqb (opt h) "h"); [discriminate|].
      destruct (Ascii.eqb (opt h) "?"); [discriminate|].
      cbn. apply IH.
Qed.

Lemma stores_false_passwd (h : getopt_hit) (p : option string) :
  stores (opt h) = false -> passwd_step p h = p.
Proof.
  unfold stores, passwd_step. intros H. apply negb_false_iff in H.
  destruct (Ascii.eqb_spec (opt h) "v") as [E|]; [now rewrite E|].
  destruct (Ascii.eqb_spec (opt h) "h") as [E|]; [now rewrite E|].
  destruct (Ascii.eqb_spec (opt h) "?") as [E|]; [now rewrite E|discriminate].
Qed.

Lemma stores_false_neq (h : getopt_hit) (c : ascii) :
  stores c = true -> stores (opt h) = false -> Ascii.eqb (opt h) c = false.
Proof.
  unfold stores. intros Hc H. apply negb_false_iff in H.
  destruct (Ascii.eqb_spec (opt h) c) as [E|]; [|reflexivity].
  rewrite <- E, H in Hc. discriminate.
Qed.

(** The pointers after the options: the last argument of each option. *)
Lemma locals_after_options (opts : list getopt_hit) :
  forall l,
    let l' := fold_left (fun l h => if stores (opt h) then step_locals h l else l) opts l in
    tun_ip_config l' = or_else (last_arg "a" opts) (tun_ip_config l) /\
    tun_ip6_config l' = or_else (last_arg "A" opts) (tun_ip6_config l) /\
    loc_addr_pair l' = or_else (last_arg "l" opts) (loc_addr_pair l) /\
    peer_addr_pair l' = or_else (last_arg "r" opts) (peer_addr_pair l).
Proof.
  induction opts as [|h rest IH]; intros l; cbn [fold_left last_arg].
  - now repeat split.
  - cbv zeta in IH.
    destruct (stores (opt h)) eqn:Hs.
    + destruct (IH (step_locals h l)) as (H1 & H2 & H3 & H4). cbv zeta.
      rewrite H1, H2, H3, H4. cbn [step_locals tun_ip_config tun_ip6_config
                                     loc_addr_pair peer_addr_pair].
      repeat split;
        match goal with
        | |- context [last_arg ?c rest] => destruct (last_arg c rest); [reflexivity|]
        end;
        match goal with
        | |- context [Ascii.eqb (opt h) ?c] => now destruct (Ascii.eqb (opt h) c)
        end.
    + destruct (IH l) as (H1 & H2 & H3 & H4). cbv zeta.
      rewrite H1, H2, H3, H4.
      rewrite (stores_false_neq h "a"), (stores_false_neq h "A"),
        (stores_false_neq h "l"), (stores_false_neq h "r") by (reflexivity || exact Hs).
      repeat split;
        match goal with
        | |- context [last_arg ?c rest] => now destruct (last_arg c rest)
        end.
Qed.

(** The passphrase after the options. *)
Lemma passwd_after_options (opts : list getopt_hit) :
  forall g,
    g_crypto_passwd
      (fold_left (fun g h => if stores (opt h) then step_globals h g else g) opts g)
    = fold_left passwd_step opts (g_crypto_passwd g).
Proof.
  induction opts as [|h rest IH]; intros g; cbn [fold_left].
  - reflexivity.
  - rewrite IH. f_equal.
    destruct (stores (opt h)) eqn:Hs; [reflexivity|].
    symmetry. now apply stores_false_passwd.
Qed.

(** A global that no given option sets is left alone by the option loop,
    however the loop ends. *)
Lemma options_loop_keeps {B} (f : globals -> B) (P : getopt_hit -> bool)
    (argv0 : string) (opts : list getopt_hit) :
  (forall h g, P h = true -> f (step_globals h g) = f g) ->
  forallb P opts = true ->
  forall l g, f (globals_of (options_loop argv0 opts l g)) = f g.
Proof.
  intros Hf. induction opts as [|h rest IH]; intros Hall l g.
  - reflexivity.
  - cbn [forallb] in Hall. apply andb_true_iff in Hall. destruct Hall as [Hh Hall].
    rewrite options_loop_cons.
    destruct (Ascii.eqb (opt h) "v").
    + destruct (route_expr (optarg h)) as [[[nw p] gw]|]; [|reflexivity].
      now apply IH.
    + destruct (Ascii.eqb (opt h) "h"); [reflexivity|].
      destruct (Ascii.eqb (opt h) "?"); [reflexivity|].
      rewrite IH by exact Hall. now apply Hf.
Qed.

(** *** Frames *)

Lemma keeps_bind {A B C} (f : globals -> C) (m : M A) (k : A -> M B) :
  keeps f m -> (forall a, keeps f (k a)) -> keeps f (bind m k).
Proof.
  intros Hm Hk g. unfold bind. specialize (Hm g).
  destruct (m g) as [[t1 g1] [a|c|]]; try exact Hm.
  specialize (Hk a g1). destruct (k a g1) as [[t2 g2] r].
  cbn in *. congruence.
Qed.

Lemma silent_bind {A B} (P : event -> bool) (m : M A) (k : A -> M B) :
  silent P m -> (forall a, silent P (k a)) -> silent P (bind m k).
Proof.
  intros Hm Hk g. unfold bind. specialize (Hm g).
  destruct (m g) as [[t1 g1] [a|c|]]; try exact Hm.
  specialize (Hk a g1). destruct (k a g1) as [[t2 g2] r].
  cbn in *. rewrite existsb_app, Hm, Hk. reflexivity.
Qed.

Lemma keeps_ret {A B} (f : globals -> B) (a : A) : keeps f (ret a).
Proof. intros g. reflexivity. Qed.

Lemma keeps_emit {B} (f : globals -> B) (e : event) : keeps f (emit e).
Proof. intros g. reflexivity. Qed.

Lemma keeps_emits {B} (f : globals -> B) (t : list event) : keeps f (emits t).
Proof. intros g. reflexivity. Qed.

Lemma keeps_exit {A B} (f : globals -> B) (c : Z) : keeps f (@exit A c).
Proof. intros g. reflexivity. Qed.

Lemma keeps_undefined {A B} (f : globals -> B) : keeps f (@undefined A).
Proof. intros g. reflexivity. Qed.

Lemma keeps_get {B} (f : globals -> B) : keeps f get.
Proof. intros g. reflexivity. Qed.

Lemma keeps_modify {B} (f : globals -> B) (h : globals -> globals) :
  (forall g, f (h g) = f g) -> keeps f (modify h).
Proof. intros H g. apply H. Qed.

Lemma silent_ret {A} (P : event -> bool) (a : A) : silent P (ret a).
Proof. intros g. reflexivity. Qed.

Lemma silent_emit (P : event -> bool) (e : event) : P e = false -> silent P (emit e).
Proof. intros H g. cbn. now rewrite H. Qed.

Lemma silent_emits (P : event -> bool) (t : list event) :
  existsb P t = false -> silent P (emits t).
Proof. intros H g. exact H. Qed.

Lemma silent_exit {A} (P : event -> bool) (c : Z) : silent P (@exit A c).
Proof. intros g. reflexivity. Qed.

Lemma silent_undefined {A} (P : event -> bool) : silent P (@undefined A).
Proof. intros g. reflexivity. Qed.

Lemma silent_get (P : event -> bool) : silent P get.
Proof. intros g. reflexivity. Qed.

Lemma silent_modify (P : event -> bool) (h : globals -> globals) : silent P (modify h).
Proof. intros g. reflexivity. Qed.

Create HintDb frame.
#[local] Hint Resolve keeps_ret keeps_emit keeps_emits keeps_exit keeps_undefined
  keeps_get silent_ret silent_exit silent_undefined silent_get silent_modify : frame.

Ltac frame_step :=
  first
    [ apply keeps_bind | apply silent_bind
    | apply keeps_modify; intros; reflexivity
    | apply silent_emit; reflexivity
    | match goal with
      | |- keeps _ (match ?x with _ => _ end) => destruct x
      | |- silent _ (match ?x with _ => _ end) => destruct x
      end
    | progress intros
    | solve [auto with frame] ].

Ltac frame := repeat frame_step.

Lemma tun_alloc_events (w : world) (dev : string) :
  forall e, In e (fst (fst (tun_alloc w dev))) -> exists fd, e = EClose fd.
Proof.
  unfold tun_alloc. intros e.
  destruct (_ <? 0); [intros []|].
  destruct (sys_tunsetiff w _ _) as [err name].
  destruct (err <? 0); cbn; [|intros []].
  intros [<-|[]]. eauto.
Qed.

Lemma existsb_false_in (P : event -> bool) (t : list event) :
  (forall e, In e t -> P e = false) -> existsb P t = false.
Proof.
  induction t as [|e t IH]; intros H; [reflexivity|].
  cbn. rewrite (H e (or_introl eq_refl)). apply IH.
  intros e' He'. apply H. now right.
Qed.

Lemma tun_alloc_silent (P : event -> bool) (w : world) (dev : string) :
  (forall fd, P (EClose fd) = false) ->
  existsb P (fst (fst (tun_alloc w dev))) = false.
Proof.
  intros HP. apply existsb_false_in. intros e He.
  destruct (tun_alloc_events w dev e He) as [fd ->]. apply HP.
Qed.

Section Frames.
Variable B : Type.
Variable f : globals -> B.
Hypothesis f_devname : forall v g, f (set_devname v g) = f g.
Hypothesis f_tun_in : forall v g, f (set_local_tun_in v g) = f g.
Hypothesis f_tun_in6 : forall v g, f (set_local_tun_in6 v g) = f g.

Lemma open_tun_keeps (w : world) : keeps f (open_tun w).
Proof.
  unfold open_tun, fprintf_stderr.
  repeat first [ apply keeps_modify; intros; apply f_devname | frame_step ].
Qed.

Lemma configure_ipv4_keeps (cfg : option string) : keeps f (configure_ipv4 cfg).
Proof.
  unfold configure_ipv4, fprintf_stderr, system, vt_route_add.
  repeat first [ apply keeps_modify; intros; apply f_tun_in | frame_step ].
Qed.

Lemma configure_ipv6_keeps (cfg : option string) : keeps f (configure_ipv6 cfg).
Proof.
  unfold configure_ipv6, fprintf_stderr, system.
  repeat first [ apply keeps_modify; intros; apply f_tun_in6 | frame_step ].
Qed.

Lemma bring_up_keeps : keeps f bring_up.
Proof. unfold bring_up, system. frame. Qed.

Lemma setup_crypto_keeps : keeps f setup_crypto.
Proof. unfold setup_crypto, fprintf_stderr. frame. Qed.

Lemma run_role_keeps (fd : Z) (l : locals) : keeps f (run_role fd l).
Proof. unfold run_role, fprintf_stderr. frame. Qed.

End Frames.

(** *** The stages of [main], one by one *)

Lemma bind_inv_normal {A B} (m : M A) (f : A -> M B) g t g' b :
  bind m f g = (t, g', Normal b) ->
  exists t1 g1 a t2,
    m g = (t1, g1, Normal a) /\ f a g1 = (t2, g', Normal b) /\ t = (t1 ++ t2)%list.
Proof.
  unfold bind. destruct (m g) as [[t1 g1] [a|c|]]; try discriminate.
  destruct (f a g1) as [[t2 g2] r] eqn:Ef. intros H. injection H as <- <- ->.
  now exists t1, g1, a, t2.
Qed.

Lemma tun_alloc_success (w : world) (dev : string) t fd dev' :
  tun_alloc w dev = (t, fd, dev') -> (fd <? 0) = false -> t = [].
Proof.
  unfold tun_alloc.
  destruct (_ <? 0) eqn:E0.
  - intros H. injection H as <- <- <-. discriminate.
  - destruct (sys_tunsetiff w _ _) as [err name].
    destruct (err <? 0) eqn:E1; intros H; injection H as <- <- <-.
    + congruence.
    + reflexivity.
Qed.

Lemma open_tun_eq (w : world) (g : globals) :
  open_tun w g =
  let g0 := if (String.length (g_devname g) =? 0)%nat then set_devname "mv%d" g else g in
  match tun_alloc w (g_devname g0) with
  | (t, fd, dev) =>
      if fd <? 0 then ((t ++ [EStderr (open_tun_diag w)])%list, set_devname dev g0, Exit 1)
      else (t, set_devname dev g0, Normal fd)
  end.
Proof.
  unfold open_tun. unfold bind at 1. cbn [get].
  destruct (String.length (g_devname g) =? 0)%nat; unfold bind at 1; cbn [modify ret];
    unfold bind at 1; cbn [get app]; cbv zeta;
    match goal with
    | |- context [tun_alloc ?w ?d] => destruct (tun_alloc w d) as [[ta fd] dev]
    end;
    unfold bind at 1; cbn [emits]; unfold bind at 1; cbn [modify];
    destruct (fd <? 0); cbn; rewrite ?app_nil_r; reflexivity.
Qed.

Lemma open_tun_normal (w : world) g t g' fd :
  open_tun w g = (t, g', Normal fd) -> t = [].
Proof.
  rewrite open_tun_eq. cbv zeta.
  destruct (tun_alloc w _) as [[ta fd'] dev] eqn:Ea.
  destruct (fd' <? 0) eqn:Ef; [discriminate|].
  intros H. injection H as <- _ _. eapply tun_alloc_success; eauto.
Qed.

Lemma open_tun_exit (w : world) g t g' c :
  open_tun w g = (t, g', Exit c) ->
  c = 1 /\ exists t' msg, t = (t' ++ [EStderr msg])%list.
Proof.
  rewrite open_tun_eq. cbv zeta.
  destruct (tun_alloc w _) as [[ta fd'] dev] eqn:Ea.
  destruct (fd' <? 0) eqn:Ef; [|discriminate].
  intros H. injection H as <- _ <-. split; [reflexivity|]. eauto.
Qed.

Lemma open_tun_defined (w : world) g : result_of (open_tun w g) <> Undefined.
Proof.
  rewrite open_tun_eq. cbv zeta.
  destruct (tun_alloc w _) as [[ta fd'] dev] eqn:Ea.
  destruct (fd' <? 0); discriminate.
Qed.

Lemma open_tun_silent (P : event -> bool) (w : world) :
  (forall fd, P (EClose fd) = false) -> (forall s, P (EStderr s) = false) ->
  silent P (open_tun w).
Proof.
  intros HP HQ. unfold open_tun, fprintf_stderr.
  apply silent_bind; [frame|]. intros g.
  apply silent_bind; [frame|]. intros _.
  apply silent_bind; [frame|]. intros g1.
  pose proof (tun_alloc_silent P w (g_devname g1) HP) as Ht.
  destruct (tun_alloc w (g_devname g1)) as [[ta fd] dev]. cbn in Ht.
  apply silent_bind; [now apply silent_emits|]. intros _.
  apply silent_bind; [frame|]. intros _.
  destruct (fd <? 0); [|frame].
  apply silent_bind; [apply silent_emit, HQ | frame].
Qed.

Lemma configure_ipv4_eq (cfg : string) (g : globals) :
  configure_ipv4 (Some cfg) g =
  match strchr cfg "/" with
  | None => ([EStderr (ipv4_diag_pair cfg)], g, Exit 1)
  | Some n =>
      if (20 <=? n)%nat then ([], g, Undefined)
      else
        let s_lip := strtake n cfg in
        let s_rip := strtake 19 (strdrop (S n) cfg) in
        match inet_pton4 s_lip with
        | None => ([EStderr (ipv4_diag_local s_lip)], g, Exit 1)
        | Some vaddr =>
            let g1 := set_local_tun_in vaddr g in
            match inet_pton4 s_rip, sscanf_d s_rip with
            | Some gw, _ =>
                ([ERouteAdd 0 0 gw;
                  ESystem ("ifconfig " ++ g_devname g ++ " " ++ s_lip
                             ++ " pointopoint " ++ s_rip)], g1, Normal tt)
            | None, Some na =>
                if (0 <? na) && (na <? 31) then
                  ([ESystem ("ifconfig " ++ g_devname g ++ " " ++ s_lip
                               ++ " netmask " ++ fmt_netmask (netmask na))],
                   g1, Normal tt)
                else ([EStderr (ipv4_diag_netmask s_rip)], g1, Exit 1)
            | None, None => ([EStderr (ipv4_diag_netmask s_rip)], g1, Exit 1)
            end
        end
  end.
Proof.
  unfold configure_ipv4.
  destruct (strchr cfg "/") as [n|]; [|reflexivity].
  destruct (20 <=? n)%nat; [reflexivity|]. cbv zeta.
  destruct (inet_pton4 (strtake n cfg)) as [a|]; [|reflexivity].
  unfold bind at 1. cbn [modify].
  unfold bind at 1. cbn [get].
  destruct (inet_pton4 (strtake 19 (strdrop (S n) cfg))) as [gw|]; [reflexivity|].
  destruct (sscanf_d (strtake 19 (strdrop (S n) cfg))) as [na|]; [|reflexivity].
  destruct ((0 <? na) && (na <? 31)); reflexivity.
Qed.

Lemma configure_ipv6_eq (cfg : string) (g : globals) :
  configure_ipv6 (Some cfg) g =
  match strchr cfg "/" with
  | None => ([EStderr (ipv6_diag_pair cfg)], g, Exit 1)
  | Some n =>
      if (50 <=? n)%nat then ([], g, Undefined)
      else
        let s_lip := strtake n cfg in
        let s_pfx := strtake 19 (strdrop (S n) cfg) in
        match inet_pton6 s_lip with
        | None => ([EStderr (ipv6_diag_local s_lip)], g, Exit 1)
        | Some vaddr =>
            let g1 := set_local_tun_in6 vaddr g in
            match sscanf_d s_pfx with
            | Some pfx_len =>
                if (0 <? pfx_len) && (pfx_len <=? 128) then
                  ([ESystem ("ifconfig " ++ g_devname g ++ " add " ++ s_lip
                               ++ "/" ++ fmt_d pfx_len)], g1, Normal tt)
                else ([EStderr (ipv6_diag_prefix s_pfx)], g1, Exit 1)
            | None => ([EStderr (ipv6_diag_prefix s_pfx)], g1, Exit 1)
            end
        end
  end.
Proof.
  unfold configure_ipv6.
  destruct (strchr cfg "/") as [n|]; [|reflexivity].
  destruct (50 <=? n)%nat; [reflexivity|]. cbv zeta.
  destruct (inet_pton6 (strtake n cfg)) as [a|]; [|reflexivity].
  unfold bind at 1. cbn [modify].
  unfold bind at 1. cbn [get].
  destruct (sscanf_d (strtake 19 (strdrop (S n) cfg))) as [na|]; [|reflexivity].
  destruct ((0 <? na) && (na <=? 128)); reflexivity.
Qed.

Lemma bring_up_eq (g : globals) :
  bring_up g =
  ([ESystem ("ifconfig " ++ g_devname g ++ " mtu " ++ fmt_u (g_tun_mtu g)
               ++ "; ifconfig " ++ g_devname g ++ " up")], g, Normal tt).
Proof. reflexivity. Qed.

Lemma setup_crypto_eq (g : globals) :
  setup_crypto g =
  match g_crypto_passwd g with
  | Some passwd => (keygen_events passwd, g, Normal tt)
  | None => ([EStderr no_encryption_warning], g, Normal tt)
  end.
Proof.
  unfold setup_crypto. unfold bind at 1. cbn [get].
  now destruct (g_crypto_passwd g).
Qed.

Lemma run_role_eq (fd : Z) (l : locals) (g : globals) :
  run_role fd l g =
  match loc_addr_pair l, peer_addr_pair l with
  | Some a, _ => ([ERunServer fd a], g, Normal tt)
  | None, Some a => ([ERunClient fd a], g, Normal tt)
  | None, None => ([EStderr no_address_diag], g, Exit 1)
  end.
Proof.
  unfold run_role. destruct (loc_addr_pair l); [reflexivity|].
  now destruct (peer_addr_pair l).
Qed.

(** What a stage that completes has printed and checked. *)
Lemma configure_ipv4_normal (cfg : option string) g t g' u :
  configure_ipv4 cfg g = (t, g', Normal u) ->
  option_ok ipv4_config_ok cfg = true /\
  existsb is_stderr t = false /\ existsb is_role t = false /\
  existsb is_keygen t = false.
Proof.
  destruct cfg as [c|].
  - rewrite configure_ipv4_eq. unfold option_ok, ipv4_config_ok.
    destruct (strchr c "/") as [n|]; [|discriminate].
    destruct (20 <=? n)%nat; [discriminate|]. cbv zeta.
    destruct (inet_pton4 (strtake n c)); [|discriminate].
    destruct (inet_pton4 (strtake 19 (strdrop (S n) c))).
    + intros H. injection H as <- _ _. now repeat split.
    + destruct (sscanf_d (strtake 19 (strdrop (S n) c))) as [na|]; [|discriminate].
      destruct ((0 <? na) && (na <? 31)); [|discriminate].
      intros H. injection H as <- _ _. now repeat split.
  - intros H. injection H as <- _ _. now repeat split.
Qed.

Lemma configure_ipv6_normal (cfg : option string) g t g' u :
  configure_ipv6 cfg g = (t, g', Normal u) ->
  option_ok ipv6_config_ok cfg = true /\
  existsb is_stderr t = false /\ existsb is_role t = false /\
  existsb is_keygen t = false.
Proof.
  destruct cfg as [c|].
  - rewrite configure_ipv6_eq. unfold option_ok, ipv6_config_ok.
    destruct (strchr c "/") as [n|]; [|discriminate].
    destruct (50 <=? n)%nat; [discriminate|]. cbv zeta.
    destruct (inet_pton6 (strtake n c)); [|discriminate].
    destruct (sscanf_d (strtake 19 (strdrop (S n) c))) as [na|]; [|discriminate].
    destruct ((0 <? na) && (na <=? 128)); [|discriminate].
    intros H. injection H as <- _ _. now repeat split.
  - intros H. injection H as <- _ _. now repeat split.
Qed.

(** A refused address ends the process with status 1 and one diagnostic;
    undefined behaviour needs a local part that overflows its buffer. *)
Lemma configure_ipv4_exit (cfg : option string) g t g' c :
  configure_ipv4 cfg g = (t, g', Exit c) -> c = 1 /\ exists msg, t = [EStderr msg].
Proof.
  destruct cfg as [s|]; [|discriminate].
  rewrite configure_ipv4_eq.
  destruct (strchr s "/") as [n|].
  - destruct (20 <=? n)%nat; [discriminate|]. cbv zeta.
    destruct (inet_pton4 (strtake n s)).
    + destruct (inet_pton4 (strtake 19 (strdrop (S n) s))); [discriminate|].
      destruct (sscanf_d (strtake 19 (strdrop (S n) s))) as [na|].
      * destruct ((0 <? na) && (na <? 31)); [discriminate|].
        intros H. injection H as <- _ <-. eauto.
      * intros H. injection H as <- _ <-. eauto.
    + intros H. injection H as <- _ <-. eauto.
  - intros H. injection H as <- _ <-. eauto.
Qed.

Lemma configure_ipv4_undefined (cfg : option string) g t g' :
  configure_ipv4 cfg g = (t, g', Undefined) -> local_part_fits 20 cfg = false.
Proof.
  destruct cfg as [s|]; [|discriminate].
  rewrite configure_ipv4_eq. unfold local_part_fits.
  destruct (strchr s "/") as [n|]; [|discriminate].
  destruct (Nat.leb_spec 20 n).
  - intros _. apply Nat.ltb_ge. lia.
  - cbv zeta. destruct (inet_pton4 (strtake n s)); [|discriminate].
    destruct (inet_pton4 (strtake 19 (strdrop (S n) s))); [discriminate|].
    destruct (sscanf_d (strtake 19 (strdrop (S n) s))) as [na|]; [|discriminate].
    destruct ((0 <? na) && (na <? 31)); discriminate.
Qed.

Lemma configure_ipv6_exit (cfg : option string) g t g' c :
  configure_ipv6 cfg g = (t, g', Exit c) -> c = 1 /\ exists msg, t = [EStderr msg].
Proof.
  destruct cfg as [s|]; [|discriminate].
  rewrite configure_ipv6_eq.
  destruct (strchr s "/") as [n|].
  - destruct (50 <=? n)%nat; [discriminate|]. cbv zeta.
    destruct (inet_pton6 (strtake n s)).
    + destruct (sscanf_d (strtake 19 (strdrop (S n) s))) as [na|].
      * destruct ((0 <? na) && (na <=? 128)); [discriminate|].
        intros H. injection H as <- _ <-. eauto.
      * intros H. injection H as <- _ <-. eauto.
    + intros H. injection H as <- _ <-. eauto.
  - intros H. injection H as <- _ <-. eauto.
Qed.

Lemma configure_ipv6_undefined (cfg : option string) g t g' :
  configure_ipv6 cfg g = (t, g', Undefined) -> local_part_fits 50 cfg = false.
Proof.
  destruct cfg as [s|]; [|discriminate].
  rewrite configure_ipv6_eq. unfold local_part_fits.
  destruct (strchr s "/") as [n|]; [|discriminate].
  destruct (Nat.leb_spec 50 n).
  - intros _. apply Nat.ltb_ge. lia.
  - cbv zeta. destruct (inet_pton6 (strtake n s)); [|discriminate].
    destruct (sscanf_d (strtake 19 (strdrop (S n) s))) as [na|]; [|discriminate].
    destruct ((0 <? na) && (na <=? 128)); discriminate.
Qed.

Lemma configure_ipv4_silent (P : event -> bool) (cfg : option string) :
  (forall s, P (EStderr s) = false) -> (forall s, P (ESystem s) = false) ->
  (forall a b c, P (ERouteAdd a b c) = false) ->
  silent P (configure_ipv4 cfg).
Proof.
  intros H1 H2 H3.
  unfold configure_ipv4, fprintf_stderr, system, vt_route_add.
  repeat first [ apply silent_emit; auto | frame_step ].
Qed.

Lemma configure_ipv6_silent (P : event -> bool) (cfg : option string) :
  (forall s, P (EStderr s) = false) -> (forall s, P (ESystem s) = false) ->
  silent P (configure_ipv6 cfg).
Proof.
  intros H1 H2.
  unfold configure_ipv6, fprintf_stderr, system.
  repeat first [ apply silent_emit; auto | frame_step ].
Qed.

(** *** [main] as a whole *)

Lemma run_eq (w : world) (argv0 : string) (opts : list getopt_hit) :
  run w argv0 opts =
  match startup w argv0 opts initial_globals with
  | (t, g, Normal (fd, l)) =>
      match loc_addr_pair l, peer_addr_pair l with
      | Some a, _ => ((t ++ [ERunServer fd a])%list, g, Normal 0)
      | None, Some a => ((t ++ [ERunClient fd a])%list, g, Normal 0)
      | None, None => ((t ++ [EStderr no_address_diag])%list, g, Exit 1)
      end
  | (t, g, Exit c) => (t, g, Exit c)
  | (t, g, Undefined) => (t, g, Undefined)
  end.
Proof.
  unfold run, main. unfold bind at 1.
  destruct (startup w argv0 opts initial_globals) as [[t g] [[fd l]|c|]];
    try reflexivity.
  unfold bind. cbn [fst snd]. rewrite run_role_eq.
  destruct (loc_addr_pair l); [reflexivity|].
  destruct (peer_addr_pair l); reflexivity.
Qed.

(** A start-up that completes went through every stage. *)
Lemma startup_inv (w : world) (argv0 : string) (opts : list getopt_hit) g0 t g fd l :
  startup w argv0 opts g0 = (t, g, Normal (fd, l)) ->
  exists t1 g1 g2 t3 g3 t4,
    options_loop argv0 opts initial_locals g0 = (t1, g1, Normal l) /\
    open_tun w g1 = ([], g2, Normal fd) /\
    configure_ipv4 (tun_ip_config l) g2 = (t3, g3, Normal tt) /\
    configure_ipv6 (tun_ip6_config l) g3 = (t4, g, Normal tt) /\
    t = (t1 ++ t3 ++ t4 ++ trace_of (bring_up g) ++ trace_of (setup_crypto g))%list.
Proof.
  unfold startup. intros H.
  apply bind_inv_normal in H. destruct H as (t1 & g1 & l0 & r1 & H1 & H & ->).
  apply bind_inv_normal in H. destruct H as (t2 & g2 & fd0 & r2 & H2 & H & ->).
  apply bind_inv_normal in H. destruct H as (t3 & g3 & [] & r3 & H3 & H & ->).
  apply bind_inv_normal in H. destruct H as (t4 & g4 & [] & r4 & H4 & H & ->).
  apply bind_inv_normal in H. destruct H as (t5 & g5 & [] & r5 & H5 & H & ->).
  apply bind_inv_normal in H. destruct H as (t6 & g6 & [] & r6 & H6 & H & ->).
  injection H as <- <- <- <-.
  rewrite bring_up_eq in H5. injection H5 as <- <-.
  assert (g6 = g4) as ->.
  { rewrite setup_crypto_eq in H6. destruct (g_crypto_passwd g4); now injection H6. }
  pose proof (open_tun_normal _ _ _ _ _ H2) as ->.
  exists t1, g1, g2, t3, g3, t4.
  rewrite H6, bring_up_eq. cbn [trace_of fst app].
  rewrite app_nil_r. now repeat split.
Qed.

(** What a completed start-up has done: nothing on stderr before the keys are
    set up, no key and no role before that either; the pointers are those of
    the last options, the passphrase is the configured one, and every address
    and route on the command line was accepted. *)
Lemma startup_normal (w : world) (argv0 : string) (opts : list getopt_hit) t g fd l :
  startup w argv0 opts initial_globals = (t, g, Normal (fd, l)) ->
  (exists pre,
      t = (pre ++ trace_of (setup_crypto g))%list /\
      existsb is_stderr pre = false /\ existsb is_keygen pre = false /\
      existsb is_role pre = false) /\
  g_crypto_passwd g = configured_passwd opts /\
  loc_addr_pair l = last_arg "l" opts /\
  peer_addr_pair l = last_arg "r" opts /\
  tun_ip_config l = last_arg "a" opts /\
  tun_ip6_config l = last_arg "A" opts /\
  config_error opts = false.
Proof.
  intros H. apply startup_inv in H.
  destruct H as (t1 & g1 & g2 & t3 & g3 & t4 & H1 & H2 & H3 & H4 & ->).
  pose proof (options_loop_normal argv0 opts initial_locals initial_globals l) as Ho.
  rewrite H1 in Ho. destruct (Ho eq_refl) as (Hbad & Herr1 & Hl & Hg1). clear Ho.
  cbn [trace_of globals_of fst snd] in Herr1, Hg1.
  pose proof (options_loop_events argv0 opts initial_locals initial_globals) as He.
  rewrite H1 in He. cbn [trace_of fst] in He. destruct He as [Hr1 Hk1].
  destruct (configure_ipv4_normal _ _ _ _ _ H3) as (Hok4 & Herr3 & Hr3 & Hk3).
  destruct (configure_ipv6_normal _ _ _ _ _ H4) as (Hok6 & Herr4 & Hr4 & Hk4).
  destruct (locals_after_options opts initial_locals) as (L1 & L2 & L3 & L4).
  rewrite <- Hl in L1, L2, L3, L4. cbn in L1, L2, L3, L4.
  assert (or_else_none : forall o, or_else o None = o) by (now intros [x|]).
  rewrite or_else_none in L1, L2, L3, L4.
  split; [|repeat split; try assumption].
  - exists (t1 ++ t3 ++ t4 ++ trace_of (bring_up g))%list.
    rewrite <- !app_assoc. split; [reflexivity|].
    rewrite !existsb_app, Herr1, Herr3, Herr4, Hr1, Hr3, Hr4, Hk1, Hk3, Hk4.
    now repeat split.
  - transitivity (g_crypto_passwd g1).
    + pose proof (configure_ipv6_keeps _ g_crypto_passwd (fun _ _ => eq_refl)
                    (tun_ip6_config l) g3) as K4.
      pose proof (configure_ipv4_keeps _ g_crypto_passwd (fun _ _ => eq_refl)
                    (tun_ip_config l) g2) as K3.
      pose proof (open_tun_keeps _ g_crypto_passwd (fun _ _ => eq_refl) w g1) as K2.
      rewrite H4 in K4. rewrite H3 in K3. rewrite H2 in K2.
      cbn [globals_of fst snd] in K2, K3, K4. congruence.
    + rewrite Hg1. apply passwd_after_options.
  - unfold config_error. now rewrite <- L1, <- L2, Hok4, Hok6, Hbad.
Qed.

Lemma bind_inv_exit {A B} (m : M A) (f : A -> M B) g t g' c :
  bind m f g = (t, g', Exit c) ->
  m g = (t, g', Exit c) \/
  exists t1 g1 a t2,
    m g = (t1, g1, Normal a) /\ f a g1 = (t2, g', Exit c) /\ t = (t1 ++ t2)%list.
Proof.
  unfold bind. destruct (m g) as [[t1 g1] [a|c'|]]; try discriminate.
  - destruct (f a g1) as [[t2 g2] r] eqn:Ef. intros H. injection H as <- <- ->.
    right. now exists t1, g1, a, t2.
  - intros H. injection H as <- <- <-. now left.
Qed.

Lemma bind_inv_undefined {A B} (m : M A) (f : A -> M B) g t g' :
  bind m f g = (t, g', Undefined) ->
  m g = (t, g', Undefined) \/
  exists t1 g1 a t2,
    m g = (t1, g1, Normal a) /\ f a g1 = (t2, g', Undefined) /\ t = (t1 ++ t2)%list.
Proof.
  unfold bind. destruct (m g) as [[t1 g1] [a|c'|]]; try discriminate.
  - destruct (f a g1) as [[t2 g2] r] eqn:Ef. intros H. injection H as <- <- ->.
    right. now exists t1, g1, a, t2.
  - intros H. injection H as <- <-. now left.
Qed.

Lemma options_loop_locals (argv0 : string) (opts : list getopt_hit) g t g' l :
  options_loop argv0 opts initial_locals g = (t, g', Normal l) ->
  tun_ip_config l = last_arg "a" opts /\ tun_ip6_config l = last_arg "A" opts /\
  loc_addr_pair l = last_arg "l" opts /\ peer_addr_pair l = last_arg "r" opts.
Proof.
  intros H.
  pose proof (options_loop_normal argv0 opts initial_locals g l) as Ho.
  rewrite H in Ho. destruct (Ho eq_refl) as (_ & _ & Hl & _).
  destruct (locals_after_options opts initial_locals) as (L1 & L2 & L3 & L4).
  rewrite <- Hl in L1, L2, L3, L4. cbn in L1, L2, L3, L4.
  assert (or_else_none : forall o, or_else o None = o) by (now intros [x|]).
  now rewrite or_else_none in L1, L2, L3, L4.
Qed.

Lemma app_stderr_last (t1 t2 : list event) :
  (exists t' msg, t2 = (t' ++ [EStderr msg])%list) ->
  exists t' msg, (t1 ++ t2)%list = (t' ++ [EStderr msg])%list.
Proof.
  intros (t' & msg & ->). exists (t1 ++ t')%list, msg. now rewrite app_assoc.
Qed.

(** A start-up that leaves the process, with neither --help nor an unknown
    option on the command line, leaves with status 1 after a diagnostic. *)
Lemma startup_exit (w : world) (argv0 : string) (opts : list getopt_hit) g0 t g c :
  startup w argv0 opts g0 = (t, g, Exit c) ->
  has_option "h" opts = false -> has_option "?" opts = false ->
  c = 1 /\ exists t' msg, t = (t' ++ [EStderr msg])%list.
Proof.
  unfold startup. intros H Hh Hq.
  apply bind_inv_exit in H. destruct H as [H|(t1 & g1 & l & r1 & H1 & H & ->)].
  { pose proof (options_loop_exit argv0 opts initial_locals g0 c) as He.
    rewrite H in He. apply He; auto. }
  apply bind_inv_exit in H. destruct H as [H|(t2 & g2 & fd & r2 & H2 & H & ->)].
  { destruct (open_tun_exit _ _ _ _ _ H) as [-> Ht]. split; [reflexivity|].
    now apply app_stderr_last. }
  apply bind_inv_exit in H. destruct H as [H|(t3 & g3 & [] & r3 & H3 & H & ->)].
  { destruct (configure_ipv4_exit _ _ _ _ _ H) as [-> [msg ->]].
    split; [reflexivity|]. apply app_stderr_last, app_stderr_last. now exists [], msg. }
  apply bind_inv_exit in H. destruct H as [H|(t4 & g4 & [] & r4 & H4 & H & ->)].
  { destruct (configure_ipv6_exit _ _ _ _ _ H) as [-> [msg ->]].
    split; [reflexivity|]. do 3 apply app_stderr_last. now exists [], msg. }
  apply bind_inv_exit in H. destruct H as [H|(t5 & g5 & [] & r5 & H5 & H & ->)].
  { rewrite bring_up_eq in H. discriminate. }
  apply bind_inv_exit in H. destruct H as [H|(t6 & g6 & [] & r6 & H6 & H & ->)].
  { rewrite setup_crypto_eq in H. destruct (g_crypto_passwd g5); discriminate. }
  discriminate.
Qed.

(** Undefined behaviour in the start-up needs an address whose local part
    overflows its buffer. *)
Lemma startup_undefined (w : world) (argv0 : string) (opts : list getopt_hit) g0 t g :
  startup w argv0 opts g0 = (t, g, Undefined) ->
  local_part_fits 20 (last_arg "a" opts) = false \/
  local_part_fits 50 (last_arg "A" opts) = false.
Proof.
  unfold startup. intros H.
  apply bind_inv_undefined in H. destruct H as [H|(t1 & g1 & l & r1 & H1 & H & ->)].
  { pose proof (options_loop_defined argv0 opts initial_locals g0) as Hd.
    rewrite H in Hd. now contradiction Hd. }
  destruct (options_loop_locals _ _ _ _ _ _ H1) as (L1 & L2 & _ & _).
  apply bind_inv_undefined in H. destruct H as [H|(t2 & g2 & fd & r2 & H2 & H & ->)].
  { pose proof (open_tun_defined w g1) as Hd. rewrite H in Hd. now contradiction Hd. }
  apply bind_inv_undefined in H. destruct H as [H|(t3 & g3 & [] & r3 & H3 & H & ->)].
  { left. rewrite <- L1. eapply configure_ipv4_undefined; eauto. }
  apply bind_inv_undefined in H. destruct H as [H|(t4 & g4 & [] & r4 & H4 & H & ->)].
  { right. rewrite <- L2. eapply configure_ipv6_undefined; eauto. }
  apply bind_inv_undefined in H. destruct H as [H|(t5 & g5 & [] & r5 & H5 & H & ->)].
  { rewrite bring_up_eq in H. discriminate. }
  apply bind_inv_undefined in H. destruct H as [H|(t6 & g6 & [] & r6 & H6 & H & ->)].
  { rewrite setup_crypto_eq in H. destruct (g_crypto_passwd g5); discriminate. }
  discriminate.
Qed.

(** The start-up starts no role. *)
Lemma startup_silent_role (w : world) (argv0 : string) (opts : list getopt_hit) :
  silent is_role (startup w argv0 opts).
Proof.
  unfold startup.
  apply silent_bind; [intros g; apply options_loop_events|]. intros l.
  apply silent_bind; [now apply open_tun_silent|]. intros fd.
  apply silent_bind; [now apply configure_ipv4_silent|]. intros _.
  apply silent_bind; [now apply configure_ipv6_silent|]. intros _.
  apply silent_bind; [intros g; reflexivity|]. intros _.
  apply silent_bind; [|frame].
  intros g. rewrite setup_crypto_eq. now destruct (g_crypto_passwd g).
Qed.

(** A global that no given option sets, and that is none of the device name
    and the two local addresses, keeps its value through [main]. *)
Lemma main_keeps {B} (f : globals -> B) (P : getopt_hit -> bool)
    (w : world) (argv0 : string) (opts : list getopt_hit) :
  (forall h g, P h = true -> f (step_globals h g) = f g) ->
  forallb P opts = true ->
  (forall v g, f (set_devname v g) = f g) ->
  (forall v g, f (set_local_tun_in v g) = f g) ->
  (forall v g, f (set_local_tun_in6 v g) = f g) ->
  keeps f (main w argv0 opts).
Proof.
  intros Hstep Hall Hd H4 H6. unfold main, startup.
  apply keeps_bind; [|intros s; apply keeps_bind; [now apply run_role_keeps | frame]].
  apply keeps_bind; [intros g; now apply (options_loop_keeps f P)|]. intros l.
  apply keeps_bind; [now apply open_tun_keeps|]. intros fd.
  apply keeps_bind; [now apply configure_ipv4_keeps|]. intros _.
  apply keeps_bind; [now apply configure_ipv6_keeps|]. intros _.
  apply keeps_bind; [now apply bring_up_keeps|]. intros _.
  apply keeps_bind; [now apply setup_crypto_keeps | frame].
Qed.

Lemma has_option_forallb (c : ascii) (opts : list getopt_hit) :
  has_option c opts = false ->
  forallb (fun h => negb (Ascii.eqb (opt h) c)) opts = true.
Proof.
  unfold has_option. induction opts as [|h rest IH]; cbn; [reflexivity|].
  intros H. apply orb_false_iff in H. destruct H as [-> H]. now rewrite IH.
Qed.

(** ** The statements of the specification *)

(** C3.  When no option overrides them, the keepalive interval is 13, the
    reconnect timeout is 60 and the tunnel MTU is 1416: without --keepalive
    and --mtu on the command line the three globals hold these values when
    [main] is done, however it ends. *)
Theorem default_tunables (w : world) (argv0 : string) (opts : list getopt_hit) :
  has_option "t" opts = false ->
  has_option "m" opts = false ->
  g_keepalive_timeo (globals_of (run w argv0 opts)) = 13 /\
  g_reconnect_timeo (globals_of (run w argv0 opts)) = 60 /\
  g_tun_mtu (globals_of (run w argv0 opts)) = 1416.
Proof.
  intros Ht Hm. unfold run. repeat split.
  - apply (main_keeps g_keepalive_timeo (fun h => negb (Ascii.eqb (opt h) "t")));
      try reflexivity; [|now apply has_option_forallb].
    intros h g Hh. apply negb_true_iff in Hh. cbn. now rewrite Hh.
  - apply (main_keeps g_reconnect_timeo (fun _ => true)); try reflexivity.
    now apply forallb_forall.
  - apply (main_keeps g_tun_mtu (fun h => negb (Ascii.eqb (opt h) "m")));
      try reflexivity; [|now apply has_option_forallb].
    intros h g Hh. apply negb_true_iff in Hh. cbn. now rewrite Hh.
Qed.

Lemma route_expr_split (net pfx gw : string) :
  strchr net "/" = None -> strchr pfx "=" = None ->
  (String.length (net ++ "/" ++ pfx ++ "=" ++ gw) <= 79)%nat ->
  route_expr (net ++ "/" ++ pfx ++ "=" ++ gw) =
  match inet_pton4 net, inet_pton4 gw, sscanf_u pfx with
  | Some network, Some gateway, Some prefix => Some (network, prefix, gateway)
  | _, _, _ => None
  end.
Proof.
  intros Hn Hp Hlen. unfold route_expr.
  rewrite (strtake_all _ 79 Hlen).
  change (net ++ "/" ++ pfx ++ "=" ++ gw) with (net ++ String "/" (pfx ++ String "=" gw)).
  rewrite (strchr_append net _ "/" Hn).
  rewrite strdrop_append, strtake_append.
  rewrite (strchr_append pfx _ "=" Hp).
  now rewrite strdrop_append, strtake_append.
Qed.

(** C4, amended.  For every --route argument network/prefix=gateway of at most
    79 characters (network up to the first slash, prefix up to the first
    equals sign after it) in which network and gateway are accepted by
    inet_pton and the prefix by sscanf's %u, [parse_virtual_route] calls
    [vt_route_add] exactly once, with the three values read, and does nothing
    else. *)
Theorem route_added_once (net pfx gw : string) (network prefix gateway : Z)
    (g : globals) :
  strchr net "/" = None ->
  strchr pfx "=" = None ->
  inet_pton4 net = Some network ->
  inet_pton4 gw = Some gateway ->
  sscanf_u pfx = Some prefix ->
  (String.length (net ++ "/" ++ pfx ++ "=" ++ gw) <= 79)%nat ->
  parse_virtual_route (net ++ "/" ++ pfx ++ "=" ++ gw) g =
    ([ERouteAdd network prefix gateway], g, Normal tt).
Proof.
  intros Hn Hp H1 H2 H3 Hlen.
  rewrite parse_virtual_route_eq, route_expr_split by assumption.
  now rewrite H1, H2, H3.
Qed.

Lemma route_expr_prefix (a b : string) :
  strtake 79 a = strtake 79 b -> route_expr a = route_expr b.
Proof. intros H. unfold route_expr. now rewrite H. Qed.

Lemma route_expr_copy (a net pfx gw : string) :
  strtake 79 a = net ++ "/" ++ pfx ++ "=" ++ gw ->
  strchr net "/" = None -> strchr pfx "=" = None ->
  route_expr a =
  match inet_pton4 net, inet_pton4 gw, sscanf_u pfx with
  | Some network, Some gateway, Some prefix => Some (network, prefix, gateway)
  | _, _, _ => None
  end.
Proof.
  intros Ha Hn Hp. unfold route_expr. rewrite Ha.
  change (net ++ "/" ++ pfx ++ "=" ++ gw) with (net ++ String "/" (pfx ++ String "=" gw)).
  rewrite (strchr_append net _ "/" Hn).
  rewrite strdrop_append, strtake_append.
  rewrite (strchr_append pfx _ "=" Hp).
  now rewrite strdrop_append, strtake_append.
Qed.

Lemma route_expr_no_equals (a net rest : string) :
  strtake 79 a = net ++ "/" ++ rest ->
  strchr net "/" = None -> strchr rest "=" = None ->
  route_expr a = None.
Proof.
  intros Ha Hn Hr. unfold route_expr. rewrite Ha.
  change (net ++ "/" ++ rest) with (net ++ String "/" rest).
  rewrite (strchr_append net _ "/" Hn).
  now rewrite strdrop_append, Hr.
Qed.

(** C10.  [parse_virtual_route] parses the copy of the first 79 characters of
    its argument, and nothing else of it.  Whatever follows the 79th
    character: when the copy has no slash, or no equals sign after its first
    slash, the argument is refused; when the copy is net/pfx=gw (cut at the
    first slash and the first equals sign after it), [vt_route_add] is called
    with what inet_pton reads from net and gw and sscanf's %u from pfx, and
    the argument is refused when one of the three is not read.  So two
    arguments with the same first 79 characters are both accepted or both
    refused, and [vt_route_add] gets the same values; an accepted argument
    gives exactly the same outcome, with nothing on stderr, so what follows
    the 79th character is dropped without notice. *)
Theorem route_reads_79_characters (a b : string) (g : globals) :
  strtake 79 a = strtake 79 b ->
  (strchr (strtake 79 a) "/" = None ->
   parse_virtual_route a g = ([EStderr (route_diag a)], g, Exit 1)) /\
  (forall net rest,
      strtake 79 a = net ++ "/" ++ rest ->
      strchr net "/" = None -> strchr rest "=" = None ->
      parse_virtual_route a g = ([EStderr (route_diag a)], g, Exit 1)) /\
  (forall net pfx gw,
      strtake 79 a = net ++ "/" ++ pfx ++ "=" ++ gw ->
      strchr net "/" = None -> strchr pfx "=" = None ->
      parse_virtual_route a g =
        match inet_pton4 net, inet_pton4 gw, sscanf_u pfx with
        | Some network, Some gateway, Some prefix =>
            ([ERouteAdd network prefix gateway], g, Normal tt)
        | _, _, _ => ([EStderr (route_diag a)], g, Exit 1)
        end) /\
  result_of (parse_virtual_route a g) = result_of (parse_virtual_route b g) /\
  filter is_route_add (trace_of (parse_virtual_route a g)) =
    filter is_route_add (trace_of (parse_virtual_route b g)) /\
  (result_of (parse_virtual_route a g) = Normal tt ->
   parse_virtual_route a g = parse_virtual_route b g /\
   existsb is_stderr (trace_of (parse_virtual_route a g)) = false).
Proof.
  intros H. split; [|split; [|split]].
  - intros Hs. rewrite parse_virtual_route_eq. unfold route_expr. now rewrite Hs.
  - intros net rest Ha Hn Hr. rewrite parse_virtual_route_eq.
    now rewrite (route_expr_no_equals a net rest Ha Hn Hr).
  - intros net pfx gw Ha Hn Hp. rewrite parse_virtual_route_eq.
    rewrite (route_expr_copy a net pfx gw Ha Hn Hp).
    destruct (inet_pton4 net); [|reflexivity].
    destruct (inet_pton4 gw); [|reflexivity].
    destruct (sscanf_u pfx); reflexivity.
  - rewrite !parse_virtual_route_eq, (route_expr_prefix a b H).
    destruct (route_expr b) as [[[nw p] gw]|]; cbn.
    + now repeat split.
    + repeat split; discriminate.
Qed.

(** C5, amended.  Once the start-up is through, [main] runs the server role
    when a listen address was given (whether or not a peer address was given
    too), the client role when a peer address and no listen address was
    given, and with neither it prints a diagnostic and leaves with status 1;
    no role is started before that, and at most one is started. *)
Theorem role_dispatch (w : world) (argv0 : string) (opts : list getopt_hit)
    t g fd l :
  startup w argv0 opts initial_globals = (t, g, Normal (fd, l)) ->
  existsb is_role t = false /\
  run w argv0 opts =
    match last_arg "l" opts, last_arg "r" opts with
    | Some a, _ => ((t ++ [ERunServer fd a])%list, g, Normal 0)
    | None, Some a => ((t ++ [ERunClient fd a])%list, g, Normal 0)
    | None, None => ((t ++ [EStderr no_address_diag])%list, g, Exit 1)
    end.
Proof.
  intros H. split.
  - pose proof (startup_silent_role w argv0 opts initial_globals) as Hs.
    now rewrite H in Hs.
  - rewrite run_eq, H.
    destruct (startup_normal _ _ _ _ _ _ _ H) as (_ & _ & -> & -> & _).
    reflexivity.
Qed.

(** C6.  When a passphrase is configured and the start-up is through, the
    encryption key, the decryption key and the digest of the passphrase have
    each been derived exactly once, from that passphrase, as the last three
    actions before the role is chosen; [main] does nothing after the role. *)
Theorem keys_derived_once (w : world) (argv0 : string) (opts : list getopt_hit)
    (passwd : string) t g s :
  configured_passwd opts = Some passwd ->
  startup w argv0 opts initial_globals = (t, g, Normal s) ->
  exists pre e,
    trace_of (run w argv0 opts) =
      (pre ++ [EGenEncryptKey passwd; EGenDecryptKey passwd; EGenMd5sum passwd; e])%list /\
    existsb is_keygen pre = false /\
    existsb is_role pre = false /\
    is_keygen e = false /\
    (is_role e = true \/ e = EStderr no_address_diag).
Proof.
  intros Hp H. destruct s as [fd l].
  destruct (startup_normal _ _ _ _ _ _ _ H) as ((pre & -> & _ & Hk & Hr) & Hg & _).
  rewrite setup_crypto_eq, Hg, Hp in H. cbn [trace_of fst] in H.
  rewrite run_eq, H.
  exists pre.
  destruct (loc_addr_pair l) as [a|]; [|destruct (peer_addr_pair l) as [a|]];
    eexists; cbn [trace_of fst]; rewrite <- app_assoc;
    (split; [reflexivity|]); repeat split; auto.
Qed.

(** C2, amended.  Once the start-up is through: when encryption is disabled
    (--no-encryption is the last of the passphrase options, the pointer is
    NULL) the warning has been printed on stderr exactly once, as the last
    action before the role is chosen; when a passphrase is configured, the
    empty one included, the warning is not printed. *)
Theorem warning_when_disabled (w : world) (argv0 : string) (opts : list getopt_hit)
    t g s :
  startup w argv0 opts initial_globals = (t, g, Normal s) ->
  match configured_passwd opts with
  | None =>
      exists pre e,
        trace_of (run w argv0 opts) =
          (pre ++ [EStderr no_encryption_warning; e])%list /\
        existsb is_stderr pre = false /\ existsb is_role pre = false
  | Some _ => ~ In (EStderr no_encryption_warning) (trace_of (run w argv0 opts))
  end.
Proof.
  intros H. destruct s as [fd l].
  destruct (startup_normal _ _ _ _ _ _ _ H) as ((pre & -> & He & _ & Hr) & Hg & _).
  rewrite setup_crypto_eq, Hg in H. rewrite run_eq, H.
  destruct (configured_passwd opts) as [p|]; cbn [trace_of fst].
  - assert (Hpre : ~ In (EStderr no_encryption_warning) pre).
    { intros Hin. assert (existsb is_stderr pre = true); [|congruence].
      apply existsb_exists. now exists (EStderr no_encryption_warning). }
    destruct (loc_addr_pair l) as [a|]; [|destruct (peer_addr_pair l) as [a|]];
      cbn [trace_of fst]; rewrite !in_app_iff; cbn;
      intros [[?|?]|?]; try contradiction;
      repeat match goal with H : _ \/ _ |- _ => destruct H end;
      try discriminate; contradiction.
  - exists pre.
    destruct (loc_addr_pair l) as [a|]; [|destruct (peer_addr_pair l) as [a|]];
      eexists; cbn [trace_of fst]; rewrite <- app_assoc;
      (split; [reflexivity|]); auto.
Qed.

Lemma options_loop_normal_routes (argv0 : string) (opts : list getopt_hit) :
  forall l g l',
    result_of (options_loop argv0 opts l g) = Normal l' ->
    forallb is_route_add (trace_of (options_loop argv0 opts l g)) = true.
Proof.
  induction opts as [|h rest IH]; intros l g l'.
  - reflexivity.
  - rewrite options_loop_cons.
    destruct (Ascii.eqb (opt h) "v").
    + destruct (route_expr (optarg h)) as [[[nw p] gw]|]; [|discriminate].
      cbn. apply IH.
    + destruct (Ascii.eqb (opt h) "h"); [discriminate|].
      destruct (Ascii.eqb (opt h) "?"); [discriminate|]. apply IH.
Qed.

Lemma run_trace_normal (w : world) (argv0 : string) (opts : list getopt_hit) t g s :
  startup w argv0 opts initial_globals = (t, g, Normal s) ->
  exists e, trace_of (run w argv0 opts) = (t ++ [e])%list.
Proof.
  intros H. rewrite run_eq, H. destruct s as [fd l].
  destruct (loc_addr_pair l); [|destruct (peer_addr_pair l)]; eexists; reflexivity.
Qed.

(** What is not an address once cut to 19 characters was not one before. *)
Lemma inet_pton4_take19 (s : string) :
  inet_pton4 (strtake 19 s) = inet_pton4 s.
Proof.
  destruct (Nat.le_gt_cases (String.length s) 19) as [H|H].
  - now rewrite strtake_all.
  - destruct (inet_pton4 (strtake 19 s)) as [a|] eqn:E1.
    + apply inet_pton4_length in E1. rewrite strtake_full_length in E1; lia.
    + destruct (inet_pton4 s) as [a|] eqn:E2; [|reflexivity].
      apply inet_pton4_length in E2. lia.
Qed.

Lemma configure_ipv4_split (local rest : string) (vaddr : Z) (g : globals) :
  strchr local "/" = None ->
  inet_pton4 local = Some vaddr ->
  configure_ipv4 (Some (local ++ "/" ++ rest)) g =
  let s_rip := strtake 19 rest in
  let g1 := set_local_tun_in vaddr g in
  match inet_pton4 rest, sscanf_d s_rip with
  | Some gw, _ =>
      ([ERouteAdd 0 0 gw;
        ESystem ("ifconfig " ++ g_devname g ++ " " ++ local
                   ++ " pointopoint " ++ s_rip)], g1, Normal tt)
  | None, Some na =>
      if (0 <? na) && (na <? 31) then
        ([ESystem ("ifconfig " ++ g_devname g ++ " " ++ local
                     ++ " netmask " ++ fmt_netmask (netmask na))], g1, Normal tt)
      else ([EStderr (ipv4_diag_netmask s_rip)], g1, Exit 1)
  | None, None => ([EStderr (ipv4_diag_netmask s_rip)], g1, Exit 1)
  end.
Proof.
  intros Hl Ha. rewrite configure_ipv4_eq.
  change (local ++ "/" ++ rest) with (local ++ String "/" rest).
  rewrite (strchr_append local rest "/" Hl), strdrop_append, strtake_append.
  pose proof (inet_pton4_length _ _ Ha) as Hlen.
  destruct (Nat.leb_spec 20 (String.length local)); [lia|].
  cbv zeta. now rewrite Ha, inet_pton4_take19.
Qed.

(** C9.  When the last --ipv4-addr argument is local/remote with remote an
    IPv4 address: the IPv4 block of [main], once local is accepted, calls
    [vt_route_add (0.0.0.0, 0, remote)] and then configures the
    point-to-point pair; and a start-up that gets through has made that call
    after the routes of the --route options and before any role is
    started. *)
Theorem default_route_before_role (w : world) (argv0 : string)
    (opts : list getopt_hit) (local remote : string) (gw : Z) :
  last_arg "a" opts = Some (local ++ "/" ++ remote) ->
  strchr local "/" = None ->
  inet_pton4 remote = Some gw ->
  (forall vaddr g,
      inet_pton4 local = Some vaddr ->
      configure_ipv4 (Some (local ++ "/" ++ remote)) g =
        ([ERouteAdd 0 0 gw;
          ESystem ("ifconfig " ++ g_devname g ++ " " ++ local
                     ++ " pointopoint " ++ remote)],
         set_local_tun_in vaddr g, Normal tt)) /\
  (forall t g s,
      startup w argv0 opts initial_globals = (t, g, Normal s) ->
      exists pre cmd post,
        trace_of (run w argv0 opts) =
          (pre ++ ERouteAdd 0 0 gw :: ESystem cmd :: post)%list /\
        forallb is_route_add pre = true /\
        existsb is_role pre = false).
Proof.
  intros Ha Hl Hr. split.
  - intros vaddr g Hv.
    rewrite (configure_ipv4_split local remote vaddr g Hl Hv), Hr. cbv zeta.
    rewrite strtake_all; [reflexivity|].
    apply inet_pton4_length in Hr. lia.
  - intros t g s H.
    destruct (run_trace_normal _ _ _ _ _ _ H) as [e ->].
    destruct s as [fd l].
    destruct (startup_normal _ _ _ _ _ _ _ H) as (_ & _ & _ & _ & Hcfg & _).
    apply startup_inv in H.
    destruct H as (t1 & g1 & g2 & t3 & g3 & t4 & H1 & H2 & H3 & H4 & ->).
    rewrite Hcfg, Ha in H3.
    assert (Hlocal : exists vaddr, inet_pton4 local = Some vaddr).
    { rewrite configure_ipv4_eq in H3.
      change (local ++ "/" ++ remote) with (local ++ String "/" remote) in H3.
      rewrite (strchr_append local remote "/" Hl), strtake_append in H3.
      destruct (20 <=? String.length local)%nat; [discriminate|]. cbv zeta in H3.
      destruct (inet_pton4 local) as [v|]; [eauto | discriminate]. }
    destruct Hlocal as [vaddr Hv].
    rewrite (configure_ipv4_split local remote vaddr g2 Hl Hv), Hr in H3.
    cbv zeta in H3. injection H3 as <- _.
    exists t1. eexists. eexists. split.
    + rewrite <- !app_assoc. cbn [app]. reflexivity.
    + pose proof (options_loop_normal_routes argv0 opts initial_locals initial_globals l)
        as Hroutes.
      pose proof (options_loop_events argv0 opts initial_locals initial_globals)
        as [Hrole _].
      rewrite H1 in Hroutes, Hrole. split; [now apply Hroutes | exact Hrole].
Qed.


(** C8, amended.  For an --ipv4-addr argument local/X with local an address
    and X not one, the number that sscanf's %d reads from the first 19
    characters of X is accepted as a prefix length when it is between 1 and
    30, and the interface gets the netmask of that length; with any other
    number (0, 31 and 32 among them) or none, [main] prints a diagnostic and
    leaves with status 1. *)
Theorem ipv4_prefix_length_range (local X : string) (vaddr : Z) (g : globals) :
  strchr local "/" = None ->
  inet_pton4 local = Some vaddr ->
  inet_pton4 X = None ->
  configure_ipv4 (Some (local ++ "/" ++ X)) g =
    match sscanf_d (strtake 19 X) with
    | Some na =>
        if (1 <=? na) && (na <=? 30) then
          ([ESystem ("ifconfig " ++ g_devname g ++ " " ++ local
                       ++ " netmask " ++ fmt_netmask (netmask na))],
           set_local_tun_in vaddr g, Normal tt)
        else ([EStderr (ipv4_diag_netmask (strtake 19 X))],
              set_local_tun_in vaddr g, Exit 1)
    | None => ([EStderr (ipv4_diag_netmask (strtake 19 X))],
               set_local_tun_in vaddr g, Exit 1)
    end.
Proof.
  intros Hl Ha HX. rewrite (configure_ipv4_split local X vaddr g Hl Ha), HX.
  cbv zeta. destruct (sscanf_d (strtake 19 X)) as [na|]; [|reflexivity].
  replace ((1 <=? na) && (na <=? 30)) with ((0 <? na) && (na <? 31)); [reflexivity|].
  destruct (Z.ltb_spec 0 na); destruct (Z.ltb_spec na 31);
    destruct (Z.leb_spec 1 na); destruct (Z.leb_spec na 30); try reflexivity; lia.
Qed.

(** C1, amended.  When a --route argument is refused (judged on its first 79
    characters), or the last --ipv4-addr argument, or the last --ipv6-addr
    argument (their second part judged on its first 19 characters), no role
    is started and [main] does not return; and when moreover neither --help
    nor an unknown option is given and the local parts of the two address
    arguments fit their buffers (fewer than 20 and 50 characters), [main]
    prints a diagnostic on stderr and leaves with status 1. *)
Theorem config_error_fatal (w : world) (argv0 : string) (opts : list getopt_hit) :
  config_error opts = true ->
  existsb is_role (trace_of (run w argv0 opts)) = false /\
  (forall status, result_of (run w argv0 opts) <> Normal status) /\
  (has_option "h" opts = false ->
   has_option "?" opts = false ->
   local_part_fits 20 (last_arg "a" opts) = true ->
   local_part_fits 50 (last_arg "A" opts) = true ->
   exists t msg g, run w argv0 opts = ((t ++ [EStderr msg])%list, g, Exit 1)).
Proof.
  intros Herr. rewrite run_eq.
  pose proof (startup_silent_role w argv0 opts initial_globals) as Hs.
  destruct (startup w argv0 opts initial_globals) as [[t g] [[fd l]|c|]] eqn:E.
  - destruct (startup_normal _ _ _ _ _ _ _ E) as (_ & _ & _ & _ & _ & _ & Hok).
    congruence.
  - repeat split; [exact Hs | discriminate |].
    intros Hh Hq _ _.
    destruct (startup_exit _ _ _ _ _ _ _ E Hh Hq) as [-> (t' & msg & ->)].
    now exists t', msg, g.
  - repeat split; [exact Hs | discriminate |].
    intros _ _ F4 F6.
    destruct (startup_undefined _ _ _ _ _ _ E); congruence.
Qed.

End Startup.

(** ** More of the start-up code *)

Section Coverage.
Context {L : Libc}.

Ltac leaves :=
  repeat first
    [ apply keeps_bind | apply silent_bind
    | apply keeps_ret | apply keeps_emit | apply keeps_emits | apply keeps_exit
    | apply keeps_undefined | apply keeps_get
    | apply silent_ret | apply silent_exit | apply silent_undefined
    | apply silent_get | apply silent_modify
    | apply keeps_modify; intros; reflexivity
    | apply silent_emit; reflexivity
    | match goal with
      | |- keeps _ (match ?x with _ => _ end) => destruct x
      | |- silent _ (match ?x with _ => _ end) => destruct x
      end
    | progress intros ].

(** *** tun_alloc *)

(** X1.  [tun_alloc] works on the descriptor of /dev/net/tun, or of /dev/tun
    when the former does not open.  When it returns a descriptor (not
    negative) it is that one, nothing was closed and the name it leaves has at
    most 15 characters; when it fails the name is untouched, and the
    descriptor, if one was opened, has been closed. *)
Theorem tun_alloc_outcome (w : world) (dev : string) :
  let r := tun_alloc w dev in
  let t := fst (fst r) in
  let fd := snd (fst r) in
  let dev' := snd r in
  (0 <= fd ->
   fd = opened_descriptor w /\ t = [] /\ (String.length dev' <= 15)%nat /\
   dev' = strtake 15 (snd (sys_tunsetiff w fd (strtake 16 dev)))) /\
  (fd < 0 ->
   dev' = dev /\
   t = if opened_descriptor w <? 0 then [] else [EClose (opened_descriptor w)]).
Proof.
  unfold tun_alloc, opened_descriptor, IFNAMSIZ. cbv zeta.
  set (fd0 := if sys_open w "/dev/net/tun" <? 0 then sys_open w "/dev/tun"
              else sys_open w "/dev/net/tun").
  destruct (Z.ltb_spec fd0 0) as [Hneg|Hpos]; cbn [fst snd].
  - split; [lia | now intros _].
  - destruct (sys_tunsetiff w fd0 (strtake 16 dev)) as [err name] eqn:Eioctl.
    destruct (Z.ltb_spec err 0) as [Herr|Hok]; cbn [fst snd].
    + split; [lia | now intros _].
    + split; [|lia]. intros _.
      repeat split; [apply strtake_length | now rewrite Eioctl].
Qed.

(** *** The option loop *)

Lemma bind_assoc {A B C} (m : M A) (f : A -> M B) (k : B -> M C) g :
  bind (bind m f) k g = bind m (fun a => bind (f a) k) g.
Proof.
  unfold bind. destruct (m g) as [[t1 g1] [a|c|]]; try reflexivity.
  destruct (f a g1) as [[t2 g2] [b|c|]]; try reflexivity.
  destruct (k b g2) as [[t3 g3] r]. now rewrite app_assoc.
Qed.

Lemma bind_ext {A B} (m : M A) (f f' : A -> M B) g :
  (forall a g1, f a g1 = f' a g1) -> bind m f g = bind m f' g.
Proof.
  intros H. unfold bind. destruct (m g) as [[t1 g1] [a|c|]]; try reflexivity.
  now rewrite H.
Qed.

Lemma options_loop_app (argv0 : string) (pre rest : list getopt_hit) :
  forall l g,
    options_loop argv0 (pre ++ rest) l g =
    bind (options_loop argv0 pre l) (fun l' => options_loop argv0 rest l') g.
Proof.
  induction pre as [|h pre IH]; intros l g.
  - change (options_loop argv0 ([] ++ rest) l g) with (options_loop argv0 rest l g).
    change (options_loop argv0 [] l) with (@ret locals l). unfold bind, ret.
    destruct (options_loop argv0 rest l g) as [[t2 g2] r]. reflexivity.
  - change (options_loop argv0 ((h :: pre) ++ rest) l g)
      with (bind (handle_option argv0 h l)
              (fun l' => options_loop argv0 (pre ++ rest) l') g).
    change (options_loop argv0 (h :: pre) l)
      with (bind (handle_option argv0 h l) (fun l' => options_loop argv0 pre l')).
    rewrite bind_assoc. apply bind_ext. intros a g1. apply IH.
Qed.

Lemma run_options_exit (w : world) (argv0 : string) (opts : list getopt_hit) t g c :
  options_loop argv0 opts initial_locals initial_globals = (t, g, Exit c) ->
  run w argv0 opts = (t, g, Exit c).
Proof.
  intros H. unfold run, main, startup.
  unfold bind at 1. unfold bind at 1. now rewrite H.
Qed.

(** The loop on a list of options that ends with one more option. *)
Lemma options_loop_snoc (argv0 : string) (pre post : list getopt_hit)
    (h : getopt_hit) l0 g0 t g l :
  options_loop argv0 pre l0 g0 = (t, g, Normal l) ->
  options_loop argv0 (pre ++ h :: post) l0 g0 =
    ((t ++ trace_of (options_loop argv0 (h :: post) l g))%list,
     globals_of (options_loop argv0 (h :: post) l g),
     result_of (options_loop argv0 (h :: post) l g)).
Proof.
  intros H. rewrite options_loop_app. unfold bind. rewrite H.
  now destruct (options_loop argv0 (h :: post) l g) as [[t2 g2] r].
Qed.

Lemma stdout_not_stderr (ls : list string) :
  existsb is_stderr (map EStdout ls) = false.
Proof. induction ls as [|x ls IH]; [reflexivity | exact IH]. Qed.

(** The globals after the options: the last argument of each option. *)
Lemma globals_after_options (opts : list getopt_hit) :
  forall g,
    let g' := fold_left (fun g h => if stores (opt h) then step_globals h g else g) opts g in
    g_tun_mtu g' =
      match last_arg "m" opts with
      | Some a => to_unsigned (strtoul10 a)
      | None => g_tun_mtu g
      end /\
    g_keepalive_timeo g' =
      match last_arg "t" opts with
      | Some a => to_unsigned (strtoul10 a)
      | None => g_keepalive_timeo g
      end /\
    g_devname g' =
      match last_arg "n" opts with
      | Some a => strtake 39 a
      | None => g_devname g
      end.
Proof.
  induction opts as [|h rest IH]; intros g; cbn [fold_left last_arg].
  - now repeat split.
  - cbv zeta in IH.
    destruct (stores (opt h)) eqn:Hs.
    + destruct (IH (step_globals h g)) as (H1 & H2 & H3). cbv zeta.
      rewrite H1, H2, H3. cbn [step_globals g_tun_mtu g_keepalive_timeo g_devname].
      repeat split;
        match goal with
        | |- context [last_arg ?c rest] => destruct (last_arg c rest); [reflexivity|]
        end;
        match goal with
        | |- context [Ascii.eqb (opt h) ?c] => now destruct (Ascii.eqb (opt h) c)
        end.
    + destruct (IH g) as (H1 & H2 & H3). cbv zeta.
      rewrite H1, H2, H3.
      rewrite (stores_false_neq h "m"), (stores_false_neq h "t"),
        (stores_false_neq h "n") by (reflexivity || exact Hs).
      repeat split;
        match goal with
        | |- context [last_arg ?c rest] => now destruct (last_arg c rest)
        end.
Qed.

Lemma options_loop_globals (argv0 : string) (opts : list getopt_hit) t g l :
  options_loop argv0 opts initial_locals initial_globals = (t, g, Normal l) ->
  g_tun_mtu g = configured_mtu opts /\
  g_keepalive_timeo g = configured_keepalive opts /\
  g_devname g = match last_arg "n" opts with
                | Some a => strtake 39 a
                | None => EmptyString
                end /\
  existsb is_stderr t = false.
Proof.
  intros H.
  pose proof (options_loop_normal argv0 opts initial_locals initial_globals l) as Ho.
  rewrite H in Ho. destruct (Ho eq_refl) as (_ & Herr & _ & Hg).
  cbn [trace_of globals_of fst snd] in Herr, Hg.
  destruct (globals_after_options opts initial_globals) as (H1 & H2 & H3).
  rewrite <- Hg in H1, H2, H3. unfold configured_mtu, configured_keepalive.
  now repeat split.
Qed.

(** X2.  --help, once the options before it are read, prints the help text on
    stdout and ends the process with status 0: the options after it, valid or
    not, are not looked at, the device is not opened, nothing is written to
    stderr; and the defaults it shows for the MTU and the keepalive interval
    are the values of the --mtu and --keepalive options given before it. *)
Theorem help_stops_everything (w : world) (argv0 : string)
    (pre post : list getopt_hit) (a : string) t g l :
  options_loop argv0 pre initial_locals initial_globals = (t, g, Normal l) ->
  run w argv0 (pre ++ {| opt := "h"; optarg := a |} :: post) =
    ((t ++ map EStdout (help_lines argv0 g))%list, g, Exit 0) /\
  existsb is_stderr (t ++ map EStdout (help_lines argv0 g)) = false /\
  g_tun_mtu g = configured_mtu pre /\
  g_keepalive_timeo g = configured_keepalive pre.
Proof.
  intros H.
  destruct (options_loop_globals _ _ _ _ _ H) as (Hm & Hk & _ & Herr).
  repeat split; try assumption.
  - apply run_options_exit.
    rewrite (options_loop_snoc _ _ _ _ _ _ _ _ _ H), options_loop_cons.
    reflexivity.
  - now rewrite existsb_app, Herr, stdout_not_stderr.
Qed.

(** X3.  An option that getopt_long refuses, once the options before it are
    read, ends the process with status 1: [main] itself prints nothing, looks
    at no later option and does not open the device. *)
Theorem unknown_option_exits (w : world) (argv0 : string)
    (pre post : list getopt_hit) (a : string) t g l :
  options_loop argv0 pre initial_locals initial_globals = (t, g, Normal l) ->
  run w argv0 (pre ++ {| opt := "?"; optarg := a |} :: post) = (t, g, Exit 1) /\
  forallb is_route_add t = true.
Proof.
  intros H. split.
  - apply run_options_exit.
    rewrite (options_loop_snoc _ _ _ _ _ _ _ _ _ H), options_loop_cons.
    cbn. now rewrite app_nil_r.
  - pose proof (options_loop_normal_routes argv0 pre initial_locals initial_globals l) as Hr.
    rewrite H in Hr. now apply Hr.
Qed.

Lemma options_loop_route_events (argv0 : string) (opts : list getopt_hit) :
  forall l g l',
    result_of (options_loop argv0 opts l g) = Normal l' ->
    trace_of (options_loop argv0 opts l g) = route_events opts /\
    List.length (route_events opts) =
      List.length (filter (fun h => Ascii.eqb (opt h) "v") opts).
Proof.
  induction opts as [|h rest IH]; intros l g l'.
  - now split.
  - rewrite options_loop_cons. unfold route_events. cbn [flat_map filter].
    destruct (Ascii.eqb (opt h) "v").
    + destruct (route_expr (optarg h)) as [[[nw p] gw]|]; [|discriminate].
      cbn [trace_of result_of fst snd app List.length]. intros H.
      destruct (IH l g l' H) as [H1 H2].
      split; [f_equal; exact H1 | f_equal; exact H2].
    + destruct (Ascii.eqb (opt h) "h"); [discriminate|].
      destruct (Ascii.eqb (opt h) "?"); [discriminate|]. apply IH.
Qed.

Lemma run_trace_prefix (w : world) (argv0 : string) (opts : list getopt_hit) t g l :
  options_loop argv0 opts initial_locals initial_globals = (t, g, Normal l) ->
  exists rest, trace_of (run w argv0 opts) = (t ++ rest)%list.
Proof.
  intros H. unfold run, main, startup.
  rewrite bind_assoc. unfold bind at 1. rewrite H.
  match goal with
  | |- context [let (_, _) := ?x in _] => destruct x as [[t2 g2] r]
  end.
  now exists t2.
Qed.

(** X4.  A --route argument that is refused ends the process on the spot: the
    routes of the options before it have been added, the globals are as those
    options left them, the diagnostic with the whole argument is the last
    thing written, the status is 1, and no later option is looked at. *)
Theorem refused_route_exits (w : world) (argv0 : string)
    (pre post : list getopt_hit) (arg : string) t g l :
  options_loop argv0 pre initial_locals initial_globals = (t, g, Normal l) ->
  route_expr arg = None ->
  run w argv0 (pre ++ {| opt := "v"; optarg := arg |} :: post) =
    ((t ++ [EStderr (route_diag arg)])%list, g, Exit 1) /\
  t = route_events pre.
Proof.
  intros H Hbad. split.
  - apply run_options_exit.
    rewrite (options_loop_snoc _ _ _ _ _ _ _ _ _ H), options_loop_cons.
    cbn [opt optarg Ascii.eqb Bool.eqb]. now rewrite Hbad.
  - pose proof (options_loop_route_events argv0 pre initial_locals initial_globals l) as Hr.
    rewrite H in Hr. now apply Hr.
Qed.

(** X5.  When the option loop gets through, it has called [vt_route_add] once
    for each --route option, in the order of the command line, and done
    nothing else that shows; this is how every run of [main] then starts. *)
Theorem routes_in_order (w : world) (argv0 : string) (opts : list getopt_hit) t g l :
  options_loop argv0 opts initial_locals initial_globals = (t, g, Normal l) ->
  t = route_events opts /\
  List.length t = List.length (filter (fun h => Ascii.eqb (opt h) "v") opts) /\
  exists rest, trace_of (run w argv0 opts) = (route_events opts ++ rest)%list.
Proof.
  intros H.
  pose proof (options_loop_route_events argv0 opts initial_locals initial_globals l) as Hr.
  rewrite H in Hr. destruct (Hr eq_refl) as [H1 H2]. cbn [trace_of fst] in H1.
  subst t. repeat split; [exact H2|].
  exact (run_trace_prefix w _ _ _ _ _ H).
Qed.

(** *** The tunnel device *)

(** [open_tun] in terms of what the system answers. *)
Lemma open_tun_world (w : world) (g : globals) :
  open_tun w g =
  let g0 := if (String.length (g_devname g) =? 0)%nat then set_devname "mv%d" g else g in
  let name := g_devname g0 in
  if tun_available w name then
    ([], set_devname
           (strtake 15 (snd (sys_tunsetiff w (opened_descriptor w) (strtake 16 name)))) g0,
     Normal (opened_descriptor w))
  else
    ((tun_closed w ++ [EStderr (open_tun_diag w)])%list, set_devname name g0, Exit 1).
Proof.
  rewrite open_tun_eq. cbv zeta.
  set (g0 := if (String.length (g_devname g) =? 0)%nat then set_devname "mv%d" g else g).
  unfold tun_alloc, tun_available, tun_closed, opened_descriptor, IFNAMSIZ.
  set (fd0 := if sys_open w "/dev/net/tun" <? 0 then sys_open w "/dev/tun"
              else sys_open w "/dev/net/tun").
  destruct (Z.ltb_spec fd0 0) as [Hneg|Hpos].
  - destruct (Z.leb_spec 0 fd0); [lia|]. reflexivity.
  - destruct (Z.leb_spec 0 fd0); [|lia].
    destruct (sys_tunsetiff w fd0 (strtake 16 (g_devname g0))) as [err name] eqn:Eioctl.
    cbn [fst snd andb].
    destruct (Z.ltb_spec err 0) as [Herr|Hok].
    + destruct (Z.leb_spec 0 err); [lia|].
      destruct (Z.ltb_spec err 0); [reflexivity | lia].
    + destruct (Z.leb_spec 0 err); [|lia].
      destruct (Z.ltb_spec fd0 0); [lia | reflexivity].
Qed.

Lemma strtake_empty (n : nat) (a : string) :
  (String.length (strtake (S n) a) =? 0)%nat = (String.length a =? 0)%nat.
Proof. now destruct a. Qed.

(** The name [main] hands to [tun_alloc]. *)
Lemma devname_for_tun_alloc (argv0 : string) (opts : list getopt_hit) t g l :
  options_loop argv0 opts initial_locals initial_globals = (t, g, Normal l) ->
  g_devname (if (String.length (g_devname g) =? 0)%nat then set_devname "mv%d" g else g)
  = requested_devname opts.
Proof.
  intros H. destruct (options_loop_globals _ _ _ _ _ H) as (_ & _ & Hd & _).
  rewrite Hd. unfold requested_devname.
  destruct (last_arg "n" opts) as [a|]; [|reflexivity].
  rewrite strtake_empty. now destruct (String.length a =? 0)%nat.
Qed.

(** X6.  When the tunnel device cannot be set up (neither device file opens,
    or the ioctl fails) and the options are read, [main] closes the descriptor
    it opened, if any, prints "open_tun() failed" with the system's reason
    and leaves with status 1: no ifconfig command is run, no key is derived
    and no role is started. *)
Theorem device_failure_exits (w : world) (argv0 : string) (opts : list getopt_hit)
    t g l :
  options_loop argv0 opts initial_locals initial_globals = (t, g, Normal l) ->
  tun_available w (requested_devname opts) = false ->
  trace_of (run w argv0 opts) =
    (route_events opts ++ tun_closed w ++ [EStderr (open_tun_diag w)])%list /\
  result_of (run w argv0 opts) = Exit 1 /\
  g_devname (globals_of (run w argv0 opts)) = requested_devname opts.
Proof.
  intros H Hno.
  pose proof (options_loop_route_events argv0 opts initial_locals initial_globals l) as Hr.
  rewrite H in Hr. destruct (Hr eq_refl) as [Ht _]. cbn [trace_of fst] in Ht.
  pose proof (devname_for_tun_alloc _ _ _ _ _ H) as Hname.
  assert (Hrun : run w argv0 opts =
                 ((t ++ tun_closed w ++ [EStderr (open_tun_diag w)])%list,
                  set_devname (requested_devname opts)
                    (if (String.length (g_devname g) =? 0)%nat
                     then set_devname "mv%d" g else g),
                  Exit 1)).
  { unfold run, main, startup. rewrite bind_assoc. unfold bind at 1. rewrite H.
    rewrite bind_assoc. unfold bind at 1. rewrite open_tun_world. cbv zeta.
    now rewrite Hname, Hno. }
  rewrite Hrun. cbn [trace_of result_of globals_of fst snd].
  now rewrite Ht.
Qed.

(** X7.  A start-up that gets through has set up the tunnel device: the
    descriptor is the one of /dev/net/tun, or of /dev/tun when the former
    does not open, and is not negative; the device name from then on is the
    one the kernel answered to the first 16 characters of the requested name
    (that of the last --ifname, mv%d by default), cut to 15 characters; and
    what follows in [main] is the role, with this descriptor, or the
    diagnostic of the missing address. *)
Theorem device_of_startup (w : world) (argv0 : string) (opts : list getopt_hit)
    t g fd l :
  startup w argv0 opts initial_globals = (t, g, Normal (fd, l)) ->
  tun_available w (requested_devname opts) = true /\
  fd = opened_descriptor w /\ 0 <= fd /\
  g_devname g =
    strtake 15 (snd (sys_tunsetiff w fd (strtake 16 (requested_devname opts)))) /\
  (String.length (g_devname g) <= 15)%nat /\
  exists e,
    trace_of (run w argv0 opts) = (t ++ [e])%list /\
    (e = EStderr no_address_diag \/
     exists a, e = ERunServer fd a \/ e = ERunClient fd a).
Proof.
  intros H.
  assert (Hrun : exists e,
             trace_of (run w argv0 opts) = (t ++ [e])%list /\
             (e = EStderr no_address_diag \/
              exists a, e = ERunServer fd a \/ e = ERunClient fd a)).
  { rewrite run_eq, H.
    destruct (loc_addr_pair l) as [a|]; [|destruct (peer_addr_pair l) as [a|]];
      eexists; (split; [reflexivity|]); eauto. }
  apply startup_inv in H.
  destruct H as (t1 & g1 & g2 & t3 & g3 & t4 & H1 & H2 & H3 & H4 & ->).
  pose proof (devname_for_tun_alloc _ _ _ _ _ H1) as Hname.
  rewrite open_tun_world in H2. cbv zeta in H2. rewrite Hname in H2.
  destruct (tun_available w (requested_devname opts)) eqn:Hav; [|discriminate].
  injection H2 as Hg2 <-.
  assert (Hdev : g_devname g =
                 strtake 15 (snd (sys_tunsetiff w (opened_descriptor w)
                                    (strtake 16 (requested_devname opts))))).
  { pose proof (configure_ipv6_keeps _ g_devname (fun _ _ => eq_refl)
                  (tun_ip6_config l) g3) as K6.
    pose proof (configure_ipv4_keeps _ g_devname (fun _ _ => eq_refl)
                  (tun_ip_config l) g2) as K4.
    rewrite H4 in K6. rewrite H3 in K4. cbn [globals_of fst snd] in K4, K6.
    rewrite K6, K4, <- Hg2. reflexivity. }
  unfold tun_available in Hav. apply andb_true_iff in Hav. destruct Hav as [Hfd _].
  apply Z.leb_le in Hfd.
  repeat split; try assumption.
  rewrite Hdev. apply strtake_length.
Qed.

(** *** The globals after the start-up *)

(** A global that is none of the device name and the two local addresses
    keeps, to the end of [main], the value the option loop left. *)
Lemma run_keeps_after_options {B} (f : globals -> B)
    (w : world) (argv0 : string) (opts : list getopt_hit) t g l :
  (forall v g, f (set_devname v g) = f g) ->
  (forall v g, f (set_local_tun_in v g) = f g) ->
  (forall v g, f (set_local_tun_in6 v g) = f g) ->
  options_loop argv0 opts initial_locals initial_globals = (t, g, Normal l) ->
  f (globals_of (run w argv0 opts)) = f g.
Proof.
  intros Hd H4 H6 H.
  assert (K : keeps f
    (s <- (tunfd <- open_tun w;;
           configure_ipv4 (tun_ip_config l);;;
           configure_ipv6 (tun_ip6_config l);;; bring_up;;; setup_crypto;;; ret (tunfd, l));;
     run_role (fst s) (snd s);;; ret 0)).
  { apply keeps_bind; [|intros s; apply keeps_bind; [now apply run_role_keeps | leaves]].
    apply keeps_bind; [now apply open_tun_keeps|]. intros fd.
    apply keeps_bind; [now apply configure_ipv4_keeps|]. intros _.
    apply keeps_bind; [now apply configure_ipv6_keeps|]. intros _.
    apply keeps_bind; [now apply bring_up_keeps|]. intros _.
    apply keeps_bind; [now apply setup_crypto_keeps | leaves]. }
  specialize (K g).
  unfold run, main, startup.
  rewrite bind_assoc. unfold bind at 1. rewrite H.
  match goal with
  | |- context [let (_, _) := ?x in _] => destruct x as [[t2 g2] r]
  end.
  exact K.
Qed.

Lemma to_unsigned_range (n : Z) : 0 <= to_unsigned n < 2 ^ 32.
Proof. unfold to_unsigned. apply Z.mod_pos_bound. lia. Qed.

(** X8.  When the options are read, the MTU and the keepalive interval are,
    to the end of [main], what strtoul reads from the last --mtu and
    --keepalive arguments, reduced modulo 2^32 (1416 and 13 without the
    option); they are not checked any further, and the reconnect timeout
    stays 60 whatever the options. *)
Theorem tunables_from_options (w : world) (argv0 : string) (opts : list getopt_hit)
    t g l :
  options_loop argv0 opts initial_locals initial_globals = (t, g, Normal l) ->
  g_tun_mtu (globals_of (run w argv0 opts)) = configured_mtu opts /\
  g_keepalive_timeo (globals_of (run w argv0 opts)) = configured_keepalive opts /\
  g_reconnect_timeo (globals_of (run w argv0 opts)) = 60 /\
  0 <= configured_mtu opts < 2 ^ 32 /\
  0 <= configured_keepalive opts < 2 ^ 32.
Proof.
  intros H. destruct (options_loop_globals _ _ _ _ _ H) as (Hm & Hk & _ & _).
  repeat split.
  - rewrite <- Hm.
    apply (run_keeps_after_options g_tun_mtu w argv0 opts t g l);
      (exact H || (intros; reflexivity)).
  - rewrite <- Hk.
    apply (run_keeps_after_options g_keepalive_timeo w argv0 opts t g l);
      (exact H || (intros; reflexivity)).
  - rewrite (run_keeps_after_options g_reconnect_timeo w argv0 opts t g l
               (fun _ _ => eq_refl) (fun _ _ => eq_refl) (fun _ _ => eq_refl) H).
    pose proof (options_loop_keeps g_reconnect_timeo (fun _ => true) argv0 opts
                  (fun _ _ _ => eq_refl)) as K.
    specialize (K (proj2 (forallb_forall _ _) (fun _ _ => eq_refl))
                  initial_locals initial_globals).
    rewrite H in K. exact K.
  - unfold configured_mtu. destruct (last_arg "m" opts); [apply to_unsigned_range | lia].
  - unfold configured_mtu. destruct (last_arg "m" opts); [apply to_unsigned_range | lia].
  - unfold configured_keepalive.
    destruct (last_arg "t" opts); [apply to_unsigned_range | lia].
  - unfold configured_keepalive.
    destruct (last_arg "t" opts); [apply to_unsigned_range | lia].
Qed.

Lemma configure_ipv4_state (cfg : option string) g t g' u :
  configure_ipv4 cfg g = (t, g', Normal u) ->
  match cfg with
  | None => g' = g /\ t = []
  | Some c =>
      exists n vaddr cmd,
        strchr c "/" = Some n /\ (n < 20)%nat /\
        inet_pton4 (strtake n c) = Some vaddr /\
        g' = set_local_tun_in vaddr g /\
        filter is_system t = [ESystem cmd] /\
        ifconfig_command (g_devname g) cmd
  end.
Proof.
  destruct cfg as [c|].
  - rewrite configure_ipv4_eq.
    destruct (strchr c "/") as [n|]; [|discriminate].
    destruct (Nat.leb_spec 20 n); [discriminate|]. cbv zeta.
    destruct (inet_pton4 (strtake n c)) as [v|] eqn:Ev; [|discriminate].
    destruct (inet_pton4 (strtake 19 (strdrop (S n) c))) as [gw|] eqn:Eg.
    + intros Heq. injection Heq as <- <- _. exists n, v. eexists.
      repeat split; try reflexivity; try assumption.
      now apply (cmd_pointopoint _ _ _ v gw).
    + destruct (sscanf_d (strtake 19 (strdrop (S n) c))) as [na|]; [|discriminate].
      destruct (Z.ltb_spec 0 na); [|discriminate].
      destruct (Z.ltb_spec na 31); [|discriminate]. cbn [andb].
      intros Heq. injection Heq as <- <- _. exists n, v. eexists.
      repeat split; try reflexivity; try assumption.
      apply (cmd_netmask _ _ v na); [assumption | lia].
  - intros H. injection H as <- <- _. now split.
Qed.

Lemma configure_ipv6_state (cfg : option string) g t g' u :
  configure_ipv6 cfg g = (t, g', Normal u) ->
  match cfg with
  | None => g' = g /\ t = []
  | Some c =>
      exists n vaddr cmd,
        strchr c "/" = Some n /\ (n < 50)%nat /\
        inet_pton6 (strtake n c) = Some vaddr /\
        g' = set_local_tun_in6 vaddr g /\
        filter is_system t = [ESystem cmd] /\
        ifconfig_command (g_devname g) cmd
  end.
Proof.
  destruct cfg as [c|].
  - rewrite configure_ipv6_eq.
    destruct (strchr c "/") as [n|]; [|discriminate].
    destruct (Nat.leb_spec 50 n); [discriminate|]. cbv zeta.
    destruct (inet_pton6 (strtake n c)) as [v|] eqn:Ev; [|discriminate].
    destruct (sscanf_d (strtake 19 (strdrop (S n) c))) as [na|]; [|discriminate].
    destruct (Z.ltb_spec 0 na); [|discriminate].
    destruct (Z.leb_spec na 128); [|discriminate]. cbn [andb].
    intros Heq. injection Heq as <- <- _. exists n, v. eexists.
    repeat split; try reflexivity; try assumption.
    apply (cmd_ipv6 _ _ v na); [assumption | | lia].
    pose proof (strtake_length c n). lia.
  - intros H. injection H as <- <- _. now split.
Qed.

(** X9.  After a start-up that gets through, [g_local_tun_in] is the address
    inet_pton reads before the slash of the last --ipv4-addr argument (which
    has fewer than 20 characters there), and 0 without --ipv4-addr;
    [g_local_tun_in6] is the same for --ipv6-addr (fewer than 50
    characters). *)
Theorem local_addresses_stored (w : world) (argv0 : string) (opts : list getopt_hit)
    t g s :
  startup w argv0 opts initial_globals = (t, g, Normal s) ->
  match last_arg "a" opts with
  | None => g_local_tun_in g = 0
  | Some cfg =>
      exists n, strchr cfg "/" = Some n /\ (n < 20)%nat /\
                inet_pton4 (strtake n cfg) = Some (g_local_tun_in g)
  end /\
  match last_arg "A" opts with
  | None => g_local_tun_in6 g = 0
  | Some cfg =>
      exists n, strchr cfg "/" = Some n /\ (n < 50)%nat /\
                inet_pton6 (strtake n cfg) = Some (g_local_tun_in6 g)
  end.
Proof.
  intros H. destruct s as [fd l].
  destruct (startup_normal _ _ _ _ _ _ _ H) as (_ & _ & _ & _ & Ha & HA & _).
  apply startup_inv in H.
  destruct H as (t1 & g1 & g2 & t3 & g3 & t4 & H1 & H2 & H3 & H4 & ->).
  assert (Hinit : g_local_tun_in g2 = 0 /\ g_local_tun_in6 g2 = 0).
  { pose proof (open_tun_keeps _ g_local_tun_in (fun _ _ => eq_refl) w g1) as K1.
    pose proof (open_tun_keeps _ g_local_tun_in6 (fun _ _ => eq_refl) w g1) as K2.
    rewrite H2 in K1, K2. cbn [globals_of fst snd] in K1, K2.
    pose proof (options_loop_keeps g_local_tun_in (fun _ => true) argv0 opts
                  (fun _ _ _ => eq_refl)
                  (proj2 (forallb_forall _ _) (fun _ _ => eq_refl))
                  initial_locals initial_globals) as K3.
    pose proof (options_loop_keeps g_local_tun_in6 (fun _ => true) argv0 opts
                  (fun _ _ _ => eq_refl)
                  (proj2 (forallb_forall _ _) (fun _ _ => eq_refl))
                  initial_locals initial_globals) as K4.
    rewrite H1 in K3, K4. cbn [globals_of fst snd] in K3, K4.
    change (g_local_tun_in initial_globals) with 0 in K3.
    change (g_local_tun_in6 initial_globals) with 0 in K4.
    split; congruence. }
  destruct Hinit as [Hi4 Hi6].
  apply configure_ipv4_state in H3. apply configure_ipv6_state in H4.
  rewrite Ha in H3. rewrite HA in H4.
  split.
  - destruct (last_arg "a" opts) as [cfg|].
    + destruct H3 as (n & v & cmd & Hs & Hn & Hv & -> & _).
      exists n. repeat split; try assumption.
      destruct (last_arg "A" opts).
      * destruct H4 as (n6 & v6 & cmd6 & _ & _ & _ & -> & _). exact Hv.
      * destruct H4 as [-> _]. exact Hv.
    + destruct H3 as [-> _].
      destruct (last_arg "A" opts).
      * destruct H4 as (n6 & v6 & cmd6 & _ & _ & _ & -> & _). exact Hi4.
      * destruct H4 as [-> _]. exact Hi4.
  - destruct (last_arg "A" opts) as [cfg|].
    + destruct H4 as (n & v & cmd & Hs & Hn & Hv & -> & _).
      exists n. now repeat split.
    + destruct H4 as [-> _].
      destruct (last_arg "a" opts).
      * destruct H3 as (n4 & v4 & cmd4 & _ & _ & _ & -> & _). exact Hi6.
      * destruct H3 as [-> _]. exact Hi6.
Qed.

(** *** Addresses and masks *)

(** X10.  For an --ipv6-addr argument local/X whose local part, of fewer than
    50 characters, is an IPv6 address, the number sscanf's %d reads from the
    first 19 characters of X is accepted as prefix length when it is from 1 to
    128; the address is stored and the ifconfig command gets the address and
    that number as [main] prints it, so nothing else of X reaches the shell;
    with any other number or none, [main] prints a diagnostic and leaves with
    status 1, the address being stored all the same. *)
Theorem ipv6_prefix_length_range (local X : string) (vaddr : Z) (g : globals) :
  strchr local "/" = None ->
  (String.length local < 50)%nat ->
  inet_pton6 local = Some vaddr ->
  configure_ipv6 (Some (local ++ "/" ++ X)) g =
    match sscanf_d (strtake 19 X) with
    | Some pfx_len =>
        if (1 <=? pfx_len) && (pfx_len <=? 128) then
          ([ESystem ("ifconfig " ++ g_devname g ++ " add " ++ local
                       ++ "/" ++ fmt_d pfx_len)],
           set_local_tun_in6 vaddr g, Normal tt)
        else ([EStderr (ipv6_diag_prefix (strtake 19 X))],
              set_local_tun_in6 vaddr g, Exit 1)
    | None => ([EStderr (ipv6_diag_prefix (strtake 19 X))],
               set_local_tun_in6 vaddr g, Exit 1)
    end.
Proof.
  intros Hl Hlen Ha. rewrite configure_ipv6_eq.
  change (local ++ "/" ++ X) with (local ++ String "/" X).
  rewrite (strchr_append local X "/" Hl), strdrop_append, strtake_append.
  destruct (Nat.leb_spec 50 (String.length local)); [lia|].
  cbv zeta. rewrite Ha.
  destruct (sscanf_d (strtake 19 X)) as [n|]; [|reflexivity].
  replace ((1 <=? n) && (n <=? 128)) with ((0 <? n) && (n <=? 128)); [reflexivity|].
  destruct (Z.ltb_spec 0 n); destruct (Z.leb_spec 1 n); try reflexivity; lia.
Qed.


(** *** The shell commands *)

Lemma string_append_length (a b : string) :
  String.length (a ++ b) = (String.length a + String.length b)%nat.
Proof. induction a as [|x a IH]; simpl; [reflexivity | now rewrite IH]. Qed.

Lemma string_of_uint_length (d : Decimal.uint) :
  String.length (NilEmpty.string_of_uint d) = Decimal.nb_digits d.
Proof. induction d; simpl; congruence. Qed.

(** A numeral read with an accumulator is at least the accumulator shifted
    by its digits. *)
Lemma of_uint_acc_lower (d : Decimal.uint) :
  forall acc,
    (N.pos acc * 10 ^ N.of_nat (Decimal.nb_digits d) <= N.pos (Pos.of_uint_acc d acc))%N.
Proof.
  induction d; intros acc; cbn [Pos.of_uint_acc Decimal.nb_digits];
    try (rewrite Nat2N.inj_succ, N.pow_succ_r';
         eapply N.le_trans; [|apply IHd]; nia).
  cbn. lia.
Qed.

Lemma to_uint_normal (n : N) : Decimal.unorm (N.to_uint n) = N.to_uint n.
Proof.
  rewrite <- (DecimalN.Unsigned.to_of (N.to_uint n)).
  now rewrite DecimalN.Unsigned.of_to.
Qed.

(** A number below 10^k is printed with at most k digits. *)
Lemma digits_bound (n : N) (k : nat) :
  (n < 10 ^ N.of_nat (S k))%N -> (Decimal.nb_digits (N.to_uint n) <= S k)%nat.
Proof.
  intros Hn.
  pose proof (DecimalN.Unsigned.of_to n) as Hof.
  pose proof (to_uint_normal n) as Hnorm.
  assert (Hpow : forall m, (S k <= m)%nat -> (10 ^ N.of_nat (S k) <= 10 ^ N.of_nat m)%N).
  { intros m Hm. apply N.pow_le_mono_r; lia. }
  destruct (N.to_uint n) as [|d|d|d|d|d|d|d|d|d|d] eqn:E;
    try (cbn [Decimal.nb_digits];
         destruct (Nat.le_gt_cases (Decimal.nb_digits d) k) as [Hle|Hgt]; [lia|];
         exfalso; unfold N.of_uint, Pos.of_uint in Hof;
         match type of Hof with
         | N.pos (Pos.of_uint_acc d ?a) = n =>
             pose proof (of_uint_acc_lower d a) as Hlow
         end;
         specialize (Hpow (Decimal.nb_digits d) Hgt);
         rewrite Hof in Hlow; nia).
  - discriminate Hnorm.
  - destruct d as [|d|d|d|d|d|d|d|d|d|d]; try (cbn; lia);
      exfalso;
      match type of Hnorm with
      | Decimal.unorm (Decimal.D0 ?x) = _ =>
          assert (Hx : x <> Decimal.Nil) by discriminate;
          pose proof (DecimalFacts.nb_digits_unorm x Hx) as Hlen;
          change (Decimal.unorm (Decimal.D0 x)) with (Decimal.unorm x) in Hnorm;
          rewrite Hnorm in Hlen; cbn [Decimal.nb_digits] in Hlen; lia
      end.
Qed.

Lemma fmt_u_length (z : Z) (k : nat) :
  0 <= z < 10 ^ Z.of_nat (S k) -> (String.length (fmt_u z) <= S k)%nat.
Proof.
  intros Hz. unfold fmt_u.
  assert (Hn : (Z.to_N z < 10 ^ N.of_nat (S k))%N).
  { apply N2Z.inj_lt. rewrite Z2N.id, N2Z.inj_pow, nat_N_Z by lia. cbn. lia. }
  apply digits_bound in Hn.
  unfold NilZero.string_of_uint.
  destruct (N.to_uint (Z.to_N z)) eqn:E; try (rewrite <- E in *; clear E);
    try (rewrite string_of_uint_length; exact Hn).
  cbn. lia.
Qed.

Lemma fmt_d_positive (z : Z) : 0 < z -> fmt_d z = fmt_u z.
Proof. destruct z; try lia. reflexivity. Qed.

Lemma netmask_range (na : Z) : 0 <= netmask na < 2 ^ 32.
Proof. unfold netmask. apply Z.mod_pos_bound. lia. Qed.

Lemma fmt_netmask_length (mask : Z) :
  0 <= mask < 2 ^ 32 -> (String.length (fmt_netmask mask) <= 15)%nat.
Proof.
  intros H. unfold fmt_netmask. rewrite !string_append_length.
  change 255 with (Z.ones 8). rewrite !Z.land_ones, !Z.shiftr_div_pow2 by lia.
  assert (H3 : 0 <= mask / 2 ^ 24 < 10 ^ Z.of_nat 3).
  { split; [apply Z.div_pos; lia|]. apply Z.div_lt_upper_bound; cbn; lia. }
  pose proof (Z.mod_pos_bound (mask / 2 ^ 16) (2 ^ 8) ltac:(lia)) as H2.
  pose proof (Z.mod_pos_bound (mask / 2 ^ 8) (2 ^ 8) ltac:(lia)) as H1.
  pose proof (Z.mod_pos_bound mask (2 ^ 8) ltac:(lia)) as H0.
  pose proof (fmt_u_length (mask / 2 ^ 24) 2 H3).
  pose proof (fmt_u_length ((mask / 2 ^ 16) mod 2 ^ 8) 2 ltac:(cbn; cbn in H2; lia)).
  pose proof (fmt_u_length ((mask / 2 ^ 8) mod 2 ^ 8) 2 ltac:(cbn; cbn in H1; lia)).
  pose proof (fmt_u_length (mask mod 2 ^ 8) 2 ltac:(cbn; cbn in H0; lia)).
  cbn [String.length]. lia.
Qed.

(** A command of [main] for a device name of at most 15 characters has at
    most 82 characters. *)
Lemma ifconfig_command_length (dev cmd : string) :
  (String.length dev <= 15)%nat ->
  ifconfig_command dev cmd ->
  (String.length cmd <= 82)%nat.
Proof.
  intros Hdev Hcmd. destruct Hcmd as [l r a b Hl Hr | l a na Hl Hna | l a n Hl Hlen Hn | mtu Hm];
    rewrite !string_append_length; cbn [String.length].
  - apply inet_pton4_length in Hl, Hr. lia.
  - apply inet_pton4_length in Hl.
    pose proof (fmt_netmask_length (netmask na) (netmask_range na)). lia.
  - rewrite fmt_d_positive by lia.
    pose proof (fmt_u_length n 2 ltac:(cbn; lia)). lia.
  - pose proof (fmt_u_length mtu 9 ltac:(cbn; lia)). lia.
Qed.

Lemma in_bind_trace {A B} (m : M A) (f : A -> M B) g e :
  In e (trace_of (bind m f g)) ->
  In e (trace_of (m g)) \/
  exists t1 g1 a, m g = (t1, g1, Normal a) /\ In e (trace_of (f a g1)).
Proof.
  unfold bind. destruct (m g) as [[t1 g1] [a|c|]]; cbn [trace_of fst]; auto.
  destruct (f a g1) as [[t2 g2] r] eqn:Ef. cbn [trace_of fst].
  intros H. apply in_app_or in H. destruct H as [H|H]; [now left|].
  right. exists t1, g1, a. rewrite Ef. now split.
Qed.

Lemma silent_not_in (P : event -> bool) (t : list event) (e : event) :
  existsb P t = false -> In e t -> P e = true -> False.
Proof.
  intros Hs Hin HP. assert (existsb P t = true); [|congruence].
  apply existsb_exists. now exists e.
Qed.

Lemma options_loop_no_system (argv0 : string) (opts : list getopt_hit) :
  forall l g, existsb is_system (trace_of (options_loop argv0 opts l g)) = false.
Proof.
  induction opts as [|h rest IH]; intros l g.
  - reflexivity.
  - rewrite options_loop_cons.
    destruct (Ascii.eqb (opt h) "v").
    + destruct (route_expr (optarg h)) as [[[nw p] gw]|]; [apply IH | reflexivity].
    + destruct (Ascii.eqb (opt h) "h").
      { cbn [trace_of fst]. generalize (help_lines argv0 g).
        intros ls. induction ls; [reflexivity | assumption]. }
      destruct (Ascii.eqb (opt h) "?"); [reflexivity | apply IH].
Qed.

Lemma configure_ipv4_commands (cfg : option string) (g : globals) (cmd : string) :
  In (ESystem cmd) (trace_of (configure_ipv4 cfg g)) ->
  ifconfig_command (g_devname g) cmd.
Proof.
  destruct (configure_ipv4 cfg g) as [[t g'] [[]|c|]] eqn:E; cbn [trace_of fst].
  - apply configure_ipv4_state in E. destruct cfg as [c|].
    + destruct E as (n & v & cmd' & _ & _ & _ & _ & Hf & Hc).
      intros Hin.
      assert (Hin' : In (ESystem cmd) (filter is_system t))
        by (apply filter_In; now split).
      rewrite Hf in Hin'. destruct Hin' as [Heq|[]]. now injection Heq as <-.
    + destruct E as [_ ->]. intros [].
  - apply configure_ipv4_exit in E. destruct E as [_ [msg ->]].
    intros [Heq|[]]. discriminate.
  - destruct cfg as [c|]; [|discriminate].
    rewrite configure_ipv4_eq in E.
    destruct (strchr c "/") as [n|]; [|discriminate].
    destruct (20 <=? n)%nat.
    + injection E as <- _. intros [].
    + cbv zeta in E. destruct (inet_pton4 (strtake n c)); [|discriminate].
      destruct (inet_pton4 (strtake 19 (strdrop (S n) c))); [discriminate|].
      destruct (sscanf_d (strtake 19 (strdrop (S n) c))) as [na|]; [|discriminate].
      destruct ((0 <? na) && (na <? 31)); discriminate.
Qed.

Lemma configure_ipv6_commands (cfg : option string) (g : globals) (cmd : string) :
  In (ESystem cmd) (trace_of (configure_ipv6 cfg g)) ->
  ifconfig_command (g_devname g) cmd.
Proof.
  destruct (configure_ipv6 cfg g) as [[t g'] [[]|c|]] eqn:E; cbn [trace_of fst].
  - apply configure_ipv6_state in E. destruct cfg as [c|].
    + destruct E as (n & v & cmd' & _ & _ & _ & _ & Hf & Hc).
      intros Hin.
      assert (Hin' : In (ESystem cmd) (filter is_system t))
        by (apply filter_In; now split).
      rewrite Hf in Hin'. destruct Hin' as [Heq|[]]. now injection Heq as <-.
    + destruct E as [_ ->]. intros [].
  - apply configure_ipv6_exit in E. destruct E as [_ [msg ->]].
    intros [Heq|[]]. discriminate.
  - destruct cfg as [c|]; [|discriminate].
    rewrite configure_ipv6_eq in E.
    destruct (strchr c "/") as [n|]; [|discriminate].
    destruct (50 <=? n)%nat.
    + injection E as <- _. intros [].
    + cbv zeta in E. destruct (inet_pton6 (strtake n c)); [|discriminate].
      destruct (sscanf_d (strtake 19 (strdrop (S n) c))) as [na|]; [|discriminate].
      destruct ((0 <? na) && (na <=? 128)); discriminate.
Qed.

(** Every command of a run, with the device it is for. *)
Lemma system_events (w : world) (argv0 : string) (opts : list getopt_hit)
    (cmd : string) :
  In (ESystem cmd) (trace_of (run w argv0 opts)) ->
  tun_available w (requested_devname opts) = true /\
  ifconfig_command
    (strtake 15 (snd (sys_tunsetiff w (opened_descriptor w)
                        (strtake 16 (requested_devname opts)))))
    cmd.
Proof.
  unfold run, main. intros Hin.
  apply in_bind_trace in Hin. destruct Hin as [Hin|(t & g & [fd l] & Hs & Hin)].
  2:{ exfalso. apply in_bind_trace in Hin. cbn [fst snd] in Hin.
      destruct Hin as [Hin|(t' & g' & [] & _ & [])].
      rewrite run_role_eq in Hin.
      destruct (loc_addr_pair l); [|destruct (peer_addr_pair l)];
        destruct Hin as [Heq|[]]; discriminate. }
  unfold startup in Hin.
  apply in_bind_trace in Hin. destruct Hin as [Hin|(t1 & g1 & l & H1 & Hin)].
  { exfalso. apply (silent_not_in is_system _ _
                      (options_loop_no_system argv0 opts initial_locals initial_globals) Hin).
    reflexivity. }
  apply in_bind_trace in Hin. destruct Hin as [Hin|(t2 & g2 & fd & H2 & Hin)].
  { exfalso. refine (silent_not_in is_system _ _ _ Hin eq_refl).
    now apply open_tun_silent. }
  pose proof (devname_for_tun_alloc _ _ _ _ _ H1) as Hname.
  rewrite open_tun_world in H2. cbv zeta in H2. rewrite Hname in H2.
  destruct (tun_available w (requested_devname opts)) eqn:Hav; [|discriminate].
  injection H2 as _ Hg2 _.
  split; [reflexivity|].
  set (dev := strtake 15 (snd (sys_tunsetiff w (opened_descriptor w)
                                 (strtake 16 (requested_devname opts))))) in *.
  assert (Hd2 : g_devname g2 = dev) by (now rewrite <- Hg2).
  assert (Hm2 : g_tun_mtu g2 = configured_mtu opts).
  { rewrite <- Hg2. cbn [g_tun_mtu set_devname].
    destruct (options_loop_globals _ _ _ _ _ H1) as (Hm & _).
    now destruct (String.length (g_devname g1) =? 0)%nat. }
  apply in_bind_trace in Hin. destruct Hin as [Hin|(t3 & g3 & [] & H3 & Hin)].
  { rewrite <- Hd2. now apply (configure_ipv4_commands (tun_ip_config l)). }
  pose proof (configure_ipv4_keeps _ g_devname (fun _ _ => eq_refl)
                (tun_ip_config l) g2) as Kd3.
  pose proof (configure_ipv4_keeps _ g_tun_mtu (fun _ _ => eq_refl)
                (tun_ip_config l) g2) as Km3.
  rewrite H3 in Kd3, Km3. cbn [globals_of fst snd] in Kd3, Km3.
  apply in_bind_trace in Hin. destruct Hin as [Hin|(t4 & g4 & [] & H4 & Hin)].
  { rewrite <- Hd2, <- Kd3. now apply (configure_ipv6_commands (tun_ip6_config l)). }
  pose proof (configure_ipv6_keeps _ g_devname (fun _ _ => eq_refl)
                (tun_ip6_config l) g3) as Kd4.
  pose proof (configure_ipv6_keeps _ g_tun_mtu (fun _ _ => eq_refl)
                (tun_ip6_config l) g3) as Km4.
  rewrite H4 in Kd4, Km4. cbn [globals_of fst snd] in Kd4, Km4.
  apply in_bind_trace in Hin. destruct Hin as [Hin|(t5 & g5 & [] & H5 & Hin)].
  { rewrite bring_up_eq in Hin. destruct Hin as [Heq|[]]. injection Heq as <-.
    rewrite Kd4, Kd3, Hd2, Km4, Km3, Hm2.
    apply cmd_up. unfold configured_mtu.
    destruct (last_arg "m" opts); [apply to_unsigned_range | lia]. }
  exfalso.
  apply in_bind_trace in Hin. destruct Hin as [Hin|(t6 & g6 & [] & H6 & [])].
  rewrite setup_crypto_eq in Hin.
  destruct (g_crypto_passwd g5); cbn in Hin;
    repeat (destruct Hin as [Hin|Hin]; [discriminate|]); exact Hin.
Qed.

(** X12.  Whatever the command line, every command [main] passes to system
    is one of its four ifconfig commands and is run only once the tunnel
    device is set up.  The device name in it is the one the kernel returned
    for the first 16 characters of the requested name, cut to 15 characters:
    [main] neither checks nor quotes it, so the text of --ifname reaches the
    shell when the kernel answers with it.  Beside that name, a command holds
    of what the user gave only local and remote addresses that inet_pton
    accepts (the IPv6 one of fewer than 50 characters), a netmask or prefix
    length that [main] prints from a number in range, and the MTU as a
    number below 2^32. *)
Theorem commands_are_ifconfig (w : world) (argv0 : string) (opts : list getopt_hit)
    (cmd : string) :
  In (ESystem cmd) (trace_of (run w argv0 opts)) ->
  tun_available w (requested_devname opts) = true /\
  ifconfig_command
    (strtake 15 (snd (sys_tunsetiff w (opened_descriptor w)
                        (strtake 16 (requested_devname opts)))))
    cmd /\
  (String.length
     (strtake 15 (snd (sys_tunsetiff w (opened_descriptor w)
                         (strtake 16 (requested_devname opts))))) <= 15)%nat.
Proof.
  intros Hin. destruct (system_events w argv0 opts cmd Hin) as [Hav Hcmd].
  repeat split; [exact Hav | exact Hcmd | apply strtake_length].
Qed.

(** X13.  Whatever the command line, every command [main] writes with
    sprintf has at most 82 characters: it fits, with its terminator, the 100
    bytes of [cmd]. *)
Theorem commands_fit_buffer (w : world) (argv0 : string) (opts : list getopt_hit)
    (cmd : string) :
  In (ESystem cmd) (trace_of (run w argv0 opts)) ->
  (String.length cmd <= 82)%nat /\ (String.length cmd + 1 <= 100)%nat.
Proof.
  intros Hin. destruct (system_events w argv0 opts cmd Hin) as [_ Hcmd].
  apply ifconfig_command_length in Hcmd; [lia | apply strtake_length].
Qed.

Lemma route_adds_no_system (t : list event) :
  forallb is_route_add t = true -> filter is_system t = [].
Proof.
  induction t as [|e t IH]; [reflexivity|]. cbn.
  destruct e; try discriminate. exact IH.
Qed.

(** The command of the IPv4 block, when it completes. *)
Lemma configure_ipv4_command (cfg : string) g t g' u :
  configure_ipv4 (Some cfg) g = (t, g', Normal u) ->
  exists n,
    strchr cfg "/" = Some n /\
    match inet_pton4 (strtake 19 (strdrop (S n) cfg)) with
    | Some _ =>
        filter is_system t =
          [ESystem ("ifconfig " ++ g_devname g ++ " " ++ strtake n cfg
                      ++ " pointopoint " ++ strtake 19 (strdrop (S n) cfg))]
    | None =>
        exists na,
          sscanf_d (strtake 19 (strdrop (S n) cfg)) = Some na /\ 1 <= na <= 30 /\
          filter is_system t =
            [ESystem ("ifconfig " ++ g_devname g ++ " " ++ strtake n cfg
                        ++ " netmask " ++ fmt_netmask (netmask na))]
    end.
Proof.
  intros Heq. rewrite configure_ipv4_eq in Heq.
  destruct (strchr cfg "/") as [n|]; [|discriminate].
  destruct (Nat.leb_spec 20 n); [discriminate|]. cbv zeta in Heq.
  destruct (inet_pton4 (strtake n cfg)) as [v|]; [|discriminate].
  exists n. split; [reflexivity|].
  destruct (inet_pton4 (strtake 19 (strdrop (S n) cfg))) as [gw|].
  - injection Heq as <- _ _. reflexivity.
  - destruct (sscanf_d (strtake 19 (strdrop (S n) cfg))) as [na|] eqn:Ena; [|discriminate].
    destruct (Z.ltb_spec 0 na); [|discriminate].
    destruct (Z.ltb_spec na 31); [|discriminate]. cbn [andb] in Heq.
    injection Heq as <- _ _. exists na.
    split; [reflexivity|]. split; [lia|reflexivity].
Qed.

(** The command of the IPv6 block, when it completes. *)
Lemma configure_ipv6_command (cfg : string) g t g' u :
  configure_ipv6 (Some cfg) g = (t, g', Normal u) ->
  exists n pfx_len,
    strchr cfg "/" = Some n /\
    sscanf_d (strtake 19 (strdrop (S n) cfg)) = Some pfx_len /\
    1 <= pfx_len <= 128 /\
    filter is_system t =
      [ESystem ("ifconfig " ++ g_devname g ++ " add " ++ strtake n cfg
                  ++ "/" ++ fmt_d pfx_len)].
Proof.
  intros Heq. rewrite configure_ipv6_eq in Heq.
  destruct (strchr cfg "/") as [n|]; [|discriminate].
  destruct (Nat.leb_spec 50 n); [discriminate|]. cbv zeta in Heq.
  destruct (inet_pton6 (strtake n cfg)) as [v|]; [|discriminate].
  destruct (sscanf_d (strtake 19 (strdrop (S n) cfg))) as [na|] eqn:Ena; [|discriminate].
  destruct (Z.ltb_spec 0 na); [|discriminate].
  destruct (Z.leb_spec na 128); [|discriminate]. cbn [andb] in Heq.
  injection Heq as <- _ _. exists n, na.
  split; [reflexivity|]. split; [exact Ena|]. split; [lia|reflexivity].
Qed.

(** X14.  A start-up that gets through has run these commands and no other,
    in this order, all for the device name the kernel returned.  First, when
    --ipv4-addr is given, the IPv4 one: for the last argument local/X, with
    X cut to 19 characters, it is the pointopoint command of local and X when
    X is an IPv4 address, and else the netmask command of local and the
    netmask of the prefix length, from 1 to 30, that sscanf reads from X.
    Then, when --ipv6-addr is given, the IPv6 one: the add command of the
    local part and the prefix length, from 1 to 128, read from the first 19
    characters after the slash.  Last, always, the command that sets the MTU
    of the last --mtu option (1416 by default) and brings the interface
    up. *)
Theorem commands_of_startup (w : world) (argv0 : string) (opts : list getopt_hit)
    t g s :
  startup w argv0 opts initial_globals = (t, g, Normal s) ->
  exists c4 c6,
    filter is_system (trace_of (run w argv0 opts)) =
      (c4 ++ c6 ++
       [ESystem ("ifconfig " ++ g_devname g ++ " mtu " ++ fmt_u (configured_mtu opts)
                   ++ "; ifconfig " ++ g_devname g ++ " up")])%list /\
    match last_arg "a" opts with
    | None => c4 = []
    | Some cfg =>
        exists n,
          strchr cfg "/" = Some n /\
          match inet_pton4 (strtake 19 (strdrop (S n) cfg)) with
          | Some _ =>
              c4 = [ESystem ("ifconfig " ++ g_devname g ++ " " ++ strtake n cfg
                               ++ " pointopoint " ++ strtake 19 (strdrop (S n) cfg))]
          | None =>
              exists na,
                sscanf_d (strtake 19 (strdrop (S n) cfg)) = Some na /\
                1 <= na <= 30 /\
                c4 = [ESystem ("ifconfig " ++ g_devname g ++ " " ++ strtake n cfg
                                 ++ " netmask " ++ fmt_netmask (netmask na))]
          end
    end /\
    match last_arg "A" opts with
    | None => c6 = []
    | Some cfg =>
        exists n pfx_len,
          strchr cfg "/" = Some n /\
          sscanf_d (strtake 19 (strdrop (S n) cfg)) = Some pfx_len /\
          1 <= pfx_len <= 128 /\
          c6 = [ESystem ("ifconfig " ++ g_devname g ++ " add " ++ strtake n cfg
                           ++ "/" ++ fmt_d pfx_len)]
    end.
Proof.
  intros H. destruct s as [fd l].
  destruct (run_trace_normal _ _ _ _ _ _ H) as [e He].
  assert (Hlast : is_system e = false).
  { rewrite run_eq, H in He.
    destruct (loc_addr_pair l); [|destruct (peer_addr_pair l)];
      cbn [trace_of fst] in He; apply app_inj_tail in He; destruct He as [_ <-];
      reflexivity. }
  rewrite He.
  destruct (startup_normal _ _ _ _ _ _ _ H) as (_ & _ & _ & _ & Ha & HA & _).
  apply startup_inv in H.
  destruct H as (t1 & g1 & g2 & t3 & g3 & t4 & H1 & H2 & H3 & H4 & ->).
  pose proof (configure_ipv6_keeps _ g_tun_mtu (fun _ _ => eq_refl)
                (tun_ip6_config l) g3) as K4.
  pose proof (configure_ipv4_keeps _ g_tun_mtu (fun _ _ => eq_refl)
                (tun_ip_config l) g2) as K3.
  pose proof (open_tun_keeps _ g_tun_mtu (fun _ _ => eq_refl) w g1) as K2.
  pose proof (configure_ipv6_keeps _ g_devname (fun _ _ => eq_refl)
                (tun_ip6_config l) g3) as D4.
  pose proof (configure_ipv4_keeps _ g_devname (fun _ _ => eq_refl)
                (tun_ip_config l) g2) as D3.
  rewrite H4 in K4, D4. rewrite H3 in K3, D3. rewrite H2 in K2.
  cbn [globals_of fst snd] in K2, K3, K4, D3, D4.
  assert (Hmtu : g_tun_mtu g = configured_mtu opts).
  { destruct (options_loop_globals _ _ _ _ _ H1) as (Hm & _). congruence. }
  pose proof (options_loop_normal_routes argv0 opts initial_locals initial_globals l) as Hr.
  rewrite H1 in Hr. specialize (Hr eq_refl). cbn [trace_of fst] in Hr.
  rewrite Ha in H3. rewrite HA in H4.
  exists (filter is_system t3), (filter is_system t4).
  rewrite !filter_app, (route_adds_no_system t1 Hr), bring_up_eq, setup_crypto_eq, Hmtu.
  assert (Hcrypto : filter is_system
                      (trace_of match g_crypto_passwd g with
                                | Some passwd => (keygen_events passwd, g, Normal tt)
                                | None => ([EStderr no_encryption_warning], g, Normal tt)
                                end) = [])
    by (now destruct (g_crypto_passwd g)).
  rewrite Hcrypto. cbn [trace_of fst filter is_system app]. rewrite Hlast, !app_nil_r.
  split; [reflexivity|]. split.
  - destruct (last_arg "a" opts) as [cfg|].
    + apply configure_ipv4_command in H3. destruct H3 as (n & Hn & Hc).
      exists n. split; [exact Hn|]. rewrite D4, D3. exact Hc.
    + apply configure_ipv4_state in H3. now destruct H3 as [_ ->].
  - destruct (last_arg "A" opts) as [cfg|].
    + apply configure_ipv6_command in H4. destruct H4 as (n & p & Hn & Hp & Hrange & Hc).
      exists n, p. rewrite D4. now repeat split.
    + apply configure_ipv6_state in H4. now destruct H4 as [_ ->].
Qed.

(** *** --daemon and --pidfile *)

Lemma agree_bind {A B} (m m' : M A) (f : A -> M B) g g' :
  agree (m g) (m' g') ->
  (forall a g1 g1', same_but_daemon g1 g1' -> agree (f a g1) (f a g1')) ->
  agree (bind m f g) (bind m' f g').
Proof.
  unfold agree, bind. intros (Ht & Hr & Hg) Hf.
  destruct (m g) as [[t1 g1] r1], (m' g') as [[t1' g1'] r1'].
  cbn [trace_of result_of globals_of fst snd] in Ht, Hr, Hg. subst t1' r1'.
  destruct r1 as [a|c|]; cbn [trace_of result_of globals_of fst snd]; auto.
  specialize (Hf a g1 g1' Hg).
  destruct (f a g1) as [[t2 g2] r2], (f a g1') as [[t2' g2'] r2'].
  cbn [trace_of result_of globals_of fst snd] in *.
  destruct Hf as (-> & -> & Hg2). auto.
Qed.

Lemma same_but_daemon_refl (g : globals) : same_but_daemon g g.
Proof. now repeat split. Qed.

Lemma open_tun_agree (w : world) g g' :
  same_but_daemon g g' -> agree (open_tun w g) (open_tun w g').
Proof.
  intros (H1 & H2 & H3 & H4 & H5 & H6 & H7). rewrite !open_tun_world. cbv zeta.
  rewrite <- H6.
  destruct (String.length (g_devname g) =? 0)%nat; cbn [g_devname set_devname];
    rewrite <- ?H6;
    match goal with
    | |- context [tun_available w ?n] => destruct (tun_available w n)
    end; unfold agree, same_but_daemon; cbn; repeat split; assumption.
Qed.

Lemma configure_ipv4_agree (cfg : option string) g g' :
  same_but_daemon g g' -> agree (configure_ipv4 cfg g) (configure_ipv4 cfg g').
Proof.
  intros (H1 & H2 & H3 & H4 & H5 & H6 & H7).
  destruct cfg as [c|]; [|unfold agree, same_but_daemon; cbn; now repeat split].
  rewrite !configure_ipv4_eq, <- H6.
  destruct (strchr c "/") as [n|];
    [|unfold agree, same_but_daemon; cbn; now repeat split].
  destruct (20 <=? n)%nat; [unfold agree, same_but_daemon; cbn; now repeat split|].
  cbv zeta.
  destruct (inet_pton4 (strtake n c));
    [|unfold agree, same_but_daemon; cbn; now repeat split].
  destruct (inet_pton4 (strtake 19 (strdrop (S n) c)));
    [unfold agree, same_but_daemon; cbn; now repeat split|].
  destruct (sscanf_d (strtake 19 (strdrop (S n) c))) as [na|];
    [|unfold agree, same_but_daemon; cbn; now repeat split].
  destruct ((0 <? na) && (na <? 31));
    unfold agree, same_but_daemon; cbn; now repeat split.
Qed.

Lemma configure_ipv6_agree (cfg : option string) g g' :
  same_but_daemon g g' -> agree (configure_ipv6 cfg g) (configure_ipv6 cfg g').
Proof.
  intros (H1 & H2 & H3 & H4 & H5 & H6 & H7).
  destruct cfg as [c|]; [|unfold agree, same_but_daemon; cbn; now repeat split].
  rewrite !configure_ipv6_eq, <- H6.
  destruct (strchr c "/") as [n|];
    [|unfold agree, same_but_daemon; cbn; now repeat split].
  destruct (50 <=? n)%nat; [unfold agree, same_but_daemon; cbn; now repeat split|].
  cbv zeta.
  destruct (inet_pton6 (strtake n c));
    [|unfold agree, same_but_daemon; cbn; now repeat split].
  destruct (sscanf_d (strtake 19 (strdrop (S n) c))) as [na|];
    [|unfold agree, same_but_daemon; cbn; now repeat split].
  destruct ((0 <? na) && (na <=? 128));
    unfold agree, same_but_daemon; cbn; now repeat split.
Qed.

Lemma bring_up_agree g g' :
  same_but_daemon g g' -> agree (bring_up g) (bring_up g').
Proof.
  intros (H1 & H2 & H3 & H4 & H5 & H6 & H7). rewrite !bring_up_eq, <- H6, <- H7.
  unfold agree, same_but_daemon; cbn; now repeat split.
Qed.

Lemma setup_crypto_agree g g' :
  same_but_daemon g g' -> agree (setup_crypto g) (setup_crypto g').
Proof.
  intros (H1 & H2 & H3 & H4 & H5 & H6 & H7). rewrite !setup_crypto_eq, <- H3.
  destruct (g_crypto_passwd g) eqn:E; unfold agree, same_but_daemon; cbn;
    repeat split; congruence.
Qed.

Lemma run_role_agree (fd : Z) (l : locals) g g' :
  same_but_daemon g g' -> agree (run_role fd l g) (run_role fd l g').
Proof.
  intros H. rewrite !run_role_eq.
  destruct (loc_addr_pair l); [|destruct (peer_addr_pair l)];
    unfold agree; cbn; auto.
Qed.

Lemma ret_agree {A} (a : A) g g' :
  same_but_daemon g g' -> agree (ret a g) (ret a g').
Proof. intros H. unfold agree; cbn; auto. Qed.

Lemma step_locals_daemon (h : getopt_hit) (l : locals) :
  daemon_option h = true -> step_locals h l = l.
Proof.
  unfold daemon_option, step_locals. intros H. apply orb_true_iff in H.
  destruct l as [c4 c6 la pa]. cbn [tun_ip_config tun_ip6_config loc_addr_pair peer_addr_pair].
  destruct H as [H|H]; apply Ascii.eqb_eq in H; rewrite H; reflexivity.
Qed.

Lemma options_loop_agree (argv0 : string) (opts : list getopt_hit) :
  forall l g g',
    same_but_daemon g g' ->
    agree (options_loop argv0 opts l g)
          (options_loop argv0 (filter (fun h => negb (daemon_option h)) opts) l g').
Proof.
  induction opts as [|h rest IH]; intros l g g' Hg.
  - now apply ret_agree.
  - cbn [filter]. destruct (daemon_option h) eqn:Hd; cbn [negb].
    + rewrite options_loop_cons.
      assert (Hv : Ascii.eqb (opt h) "v" = false /\ Ascii.eqb (opt h) "h" = false /\
                   Ascii.eqb (opt h) "?" = false).
      { unfold daemon_option in Hd. apply orb_true_iff in Hd.
        destruct Hd as [Hd|Hd]; apply Ascii.eqb_eq in Hd; rewrite Hd; now repeat split. }
      destruct Hv as (-> & -> & ->). rewrite step_locals_daemon by exact Hd.
      apply IH.
      destruct Hg as (H1 & H2 & H3 & H4 & H5 & H6 & H7).
      unfold daemon_option in Hd. apply orb_true_iff in Hd.
      unfold same_but_daemon, step_globals, passwd_step.
      cbn [g_keepalive_timeo g_reconnect_timeo g_crypto_passwd g_local_tun_in
             g_local_tun_in6 g_devname g_tun_mtu].
      destruct Hd as [Hd|Hd]; apply Ascii.eqb_eq in Hd; rewrite Hd;
        cbn; now repeat split.
    + rewrite !options_loop_cons.
      destruct (Ascii.eqb (opt h) "v").
      * destruct (route_expr (optarg h)) as [[[nw p] gw]|].
        -- specialize (IH l g g' Hg). destruct IH as (I1 & I2 & I3).
           unfold agree. cbn [trace_of result_of globals_of fst snd] in *.
           split; [now f_equal|]. now split.
        -- unfold agree; cbn; auto.
      * destruct (Ascii.eqb (opt h) "h").
        { unfold agree. cbn [trace_of result_of globals_of fst snd].
          split; [|now split].
          destruct Hg as (H1 & H2 & H3 & H4 & H5 & H6 & H7).
          unfold help_lines. now rewrite H1, H7. }
        destruct (Ascii.eqb (opt h) "?"); [unfold agree; cbn; auto|].
        apply IH.
        destruct Hg as (H1 & H2 & H3 & H4 & H5 & H6 & H7).
        unfold same_but_daemon, step_globals, passwd_step.
        cbn [g_keepalive_timeo g_reconnect_timeo g_crypto_passwd g_local_tun_in
               g_local_tun_in6 g_devname g_tun_mtu].
        rewrite H1, H2, H3, H4, H5, H6, H7. now repeat split.
Qed.

(** X15.  --daemon and --pidfile have no effect on what [main] does: a run
    prints, adds, runs and starts exactly what the run without these options
    does, with the same result, and leaves the same globals but for
    [g_pid_file] and [g_in_background]. *)
Theorem daemon_options_only_recorded (w : world) (argv0 : string)
    (opts : list getopt_hit) :
  trace_of (run w argv0 opts) =
    trace_of (run w argv0 (filter (fun h => negb (daemon_option h)) opts)) /\
  result_of (run w argv0 opts) =
    result_of (run w argv0 (filter (fun h => negb (daemon_option h)) opts)) /\
  same_but_daemon (globals_of (run w argv0 opts))
    (globals_of (run w argv0 (filter (fun h => negb (daemon_option h)) opts))).
Proof.
  change (agree (run w argv0 opts)
            (run w argv0 (filter (fun h => negb (daemon_option h)) opts))).
  unfold run, main.
  apply agree_bind.
  - unfold startup. apply agree_bind.
    + apply options_loop_agree, same_but_daemon_refl.
    + intros l g1 g1' H1. apply agree_bind; [now apply open_tun_agree|].
      intros fd g2 g2' H2. apply agree_bind; [now apply configure_ipv4_agree|].
      intros _ g3 g3' H3. apply agree_bind; [now apply configure_ipv6_agree|].
      intros _ g4 g4' H4. apply agree_bind; [now apply bring_up_agree|].
      intros _ g5 g5' H5. apply agree_bind; [now apply setup_crypto_agree|].
      intros _ g6 g6' H6. now apply ret_agree.
  - intros s g1 g1' H1. apply agree_bind; [now apply run_role_agree|].
    intros _ g2 g2' H2. now apply ret_agree.
Qed.

(** *** The copies of the local addresses *)

(** X16.  The part before the slash of the last --ipv4-addr argument is
    copied into [s_lip], of 20 bytes, without a check of its length.  With
    the options read and the tunnel device set up: when that part has 20
    characters or more, [main] writes past the end of the buffer, having done
    nothing but add the routes; and [main] writes outside a buffer only for
    such an argument, or for an --ipv6-addr argument with 50 characters or
    more before the slash. *)
Theorem local_part_unchecked (w : world) (argv0 : string) (opts : list getopt_hit)
    t g l :
  options_loop argv0 opts initial_locals initial_globals = (t, g, Normal l) ->
  tun_available w (requested_devname opts) = true ->
  (local_part_fits 20 (last_arg "a" opts) = false ->
   result_of (run w argv0 opts) = Undefined /\
   trace_of (run w argv0 opts) = route_events opts) /\
  (result_of (run w argv0 opts) = Undefined ->
   local_part_fits 20 (last_arg "a" opts) = false \/
   local_part_fits 50 (last_arg "A" opts) = false).
Proof.
  intros H Hav. split.
  - intros Hfit.
    pose proof (options_loop_route_events argv0 opts initial_locals initial_globals l) as Hr.
    rewrite H in Hr. destruct (Hr eq_refl) as [Ht _]. cbn [trace_of fst] in Ht.
    pose proof (devname_for_tun_alloc _ _ _ _ _ H) as Hname.
    destruct (options_loop_locals _ _ _ _ _ _ H) as (L1 & _).
    unfold local_part_fits in Hfit.
    destruct (last_arg "a" opts) as [cfg|]; [|discriminate].
    destruct (strchr cfg "/") as [n|] eqn:Hn; [|discriminate].
    apply Nat.ltb_ge in Hfit. apply Nat.leb_le in Hfit.
    assert (Hrun : exists g', run w argv0 opts = (t, g', Undefined)).
    { unfold run, main, startup. rewrite bind_assoc. unfold bind at 1. rewrite H.
      rewrite bind_assoc. unfold bind at 1. rewrite open_tun_world. cbv zeta.
      rewrite Hname, Hav.
      rewrite bind_assoc. unfold bind at 1. rewrite L1, configure_ipv4_eq, Hn, Hfit.
      eexists. rewrite app_nil_r. reflexivity. }
    destruct Hrun as [g' Hrun]. rewrite Hrun. cbn [trace_of result_of fst snd].
    now split.
  - intros Hu. rewrite run_eq in Hu.
    destruct (startup w argv0 opts initial_globals) as [[t0 g0] [[fd l0]|c|]] eqn:Hs.
    + destruct (loc_addr_pair l0); [|destruct (peer_addr_pair l0)]; discriminate.
    + discriminate.
    + eapply startup_undefined; eassumption.
Qed.

End Coverage.

(** ** The packet cipher *)

Module CryptoProofs.
Import CryptoSpec.

Section RoundTrip.
Context {C : BlockCipher}.

Lemma xor_block_cancel (b : list Z) :
  forall prev, List.length prev = List.length b ->
               xor_block (xor_block b prev) prev = b.
Proof.
  induction b as [|x b IH]; intros [|y prev] H; try discriminate; [reflexivity|].
  cbn. rewrite IH by (cbn in H; lia).
  now rewrite Z.lxor_assoc, Z.lxor_nilpotent, Z.lxor_0_r.
Qed.

Lemma xor_block_length (b : list Z) :
  forall prev, List.length prev = List.length b ->
               List.length (xor_block b prev) = List.length b.
Proof.
  induction b as [|x b IH]; intros [|y prev] H; try discriminate; [reflexivity|].
  cbn. f_equal. apply IH. cbn in H. lia.
Qed.

Lemma chunks_blocks (k : nat) :
  forall l, List.length l = (k * block_size)%nat -> Forall is_block (chunks k l).
Proof.
  induction k as [|k IH]; intros l H; cbn; constructor.
  - unfold is_block. rewrite length_firstn. cbn in H. lia.
  - apply IH. rewrite length_skipn. cbn in H. lia.
Qed.

Lemma chunks_length (k : nat) (l : list Z) : List.length (chunks k l) = k.
Proof. revert l. induction k as [|k IH]; intros l; cbn; [reflexivity | now rewrite IH]. Qed.

Lemma concat_chunks (k : nat) :
  forall l, List.length l = (k * block_size)%nat -> List.concat (chunks k l) = l.
Proof.
  induction k as [|k IH]; intros l H; cbn.
  - destruct l; [reflexivity | discriminate].
  - rewrite IH; [apply firstn_skipn|]. rewrite length_skipn. cbn in H. lia.
Qed.

Lemma chunks_concat (bl : list (list Z)) :
  Forall is_block bl -> chunks (List.length bl) (List.concat bl) = bl.
Proof.
  induction 1 as [|b bl Hb _ IH]; cbn; [reflexivity|].
  unfold is_block in Hb.
  rewrite <- Hb at 1. rewrite firstn_app, firstn_all, Nat.sub_diag, firstn_O, app_nil_r.
  f_equal. rewrite <- Hb at 1.
  rewrite skipn_app, skipn_all, Nat.sub_diag, skipn_O. exact IH.
Qed.

Lemma concat_blocks_length (bl : list (list Z)) :
  Forall is_block bl ->
  List.length (List.concat bl) = (List.length bl * block_size)%nat.
Proof.
  induction 1 as [|b bl Hb _ IH]; cbn; [reflexivity|].
  rewrite length_app, IH, Hb. reflexivity.
Qed.

Lemma chain_encrypt_blocks (k : key) (bl : list (list Z)) :
  forall prev, is_block prev -> Forall is_block bl ->
               Forall is_block (chain_encrypt k prev bl) /\
               List.length (chain_encrypt k prev bl) = List.length bl.
Proof.
  induction bl as [|b bl IH]; intros prev Hp Hbl; cbn; [now split|].
  inversion Hbl as [|? ? Hb Hrest]; subst.
  assert (Hc : is_block (encrypt_block k (xor_block b prev))).
  { unfold is_block in *. rewrite encrypt_block_length, xor_block_length; congruence. }
  destruct (IH _ Hc Hrest) as [H1 H2]. split; [now constructor | now rewrite H2].
Qed.

Lemma chain_decrypt_encrypt (passphrase : string) (bl : list (list Z)) :
  forall prev, is_block prev -> Forall is_block bl ->
    chain_decrypt (expand_decrypt_key passphrase) prev
      (chain_encrypt (expand_encrypt_key passphrase) prev bl) = bl.
Proof.
  induction bl as [|b bl IH]; intros prev Hp Hbl; cbn; [reflexivity|].
  inversion Hbl as [|? ? Hb Hrest]; subst.
  unfold is_block in *.
  rewrite decrypt_encrypt_block by (rewrite xor_block_length; congruence).
  rewrite xor_block_cancel by congruence.
  f_equal. apply IH; [|exact Hrest].
  rewrite encrypt_block_length, xor_block_length; congruence.
Qed.

Lemma pad_length (p : list Z) :
  List.length (pad p) = ((List.length p / block_size + 1) * block_size)%nat.
Proof.
  unfold pad. rewrite length_app, repeat_length.
  pose proof block_size_pos as Hpos.
  pose proof (Nat.div_mod_eq (List.length p) block_size) as Hdm.
  pose proof (Nat.mod_upper_bound (List.length p) block_size) as Hub.
  nia.
Qed.

Lemma unpad_pad (p : list Z) : unpad (pad p) = Some p.
Proof.
  pose proof block_size_pos as Hpos.
  pose proof (Nat.mod_upper_bound (List.length p) block_size) as Hub.
  unfold unpad, pad.
  set (n := (block_size - List.length p mod block_size)%nat).
  assert (Hn : (1 <= n <= block_size)%nat) by (unfold n; lia).
  assert (Hlast : last (p ++ repeat (Z.of_nat n) n) 0 = Z.of_nat n).
  { destruct n as [|m]; [lia|].
    cbn [repeat]. rewrite repeat_cons, app_assoc. apply last_last. }
  rewrite Hlast, Nat2Z.id, length_app, repeat_length.
  replace (List.length p + n - n)%nat with (List.length p) by lia.
  rewrite skipn_app, skipn_all, Nat.sub_diag, skipn_O.
  rewrite firstn_app, firstn_all, Nat.sub_diag, firstn_O, app_nil_r.
  assert (Hall : forallb (Z.eqb (Z.of_nat n)) (repeat (Z.of_nat n) n) = true).
  { generalize (Z.of_nat n). intros x. induction n as [|m IH'] in |- *; cbn;
      [reflexivity|]. rewrite Z.eqb_refl. cbn. clear. induction m; cbn;
      [reflexivity | now rewrite Z.eqb_refl]. }
  cbn [app]. rewrite Hall.
  destruct (Nat.ltb_spec 0 n); [|lia].
  destruct (Nat.leb_spec n block_size); [|lia].
  destruct (Nat.leb_spec n (List.length p + n)); [|lia].
  reflexivity.
Qed.

(** C7.  For every packet P, every context derived from a passphrase and
    every initialization vector of one block, decrypting the encryption of P
    gives back exactly P, its length included. *)
Theorem decrypt_encrypt (ctx : CryptoContext) (P iv : list Z) :
  valid_context ctx ->
  valid_iv iv ->
  decrypt ctx (encrypt ctx P iv) iv = Some P.
Proof.
  intros [passphrase ->] [Hiv _]. unfold derive.
  destruct passphrase as [p|]; [|reflexivity].
  destruct (String.length p =? 0)%nat; [reflexivity|].
  pose proof block_size_pos as Hpos.
  cbn [encrypt decrypt]. unfold blocks.
  set (k := (List.length (pad P) / block_size)%nat).
  assert (Hk : List.length (pad P) = (k * block_size)%nat).
  { unfold k. rewrite pad_length, Nat.div_mul by lia. reflexivity. }
  pose proof (chunks_blocks k (pad P) Hk) as Hblocks.
  destruct (chain_encrypt_blocks (expand_encrypt_key p) (chunks k (pad P)) iv Hiv Hblocks)
    as [Henc Hlen].
  rewrite chunks_length in Hlen.
  rewrite (concat_blocks_length _ Henc), Hlen.
  rewrite Nat.Div0.mod_mul, Nat.eqb_refl, Nat.div_mul by lia.
  rewrite <- Hlen at 1. rewrite (chunks_concat _ Henc).
  rewrite (chain_decrypt_encrypt p _ iv Hiv Hblocks).
  rewrite (concat_chunks k _ Hk). apply unpad_pad.
Qed.

End RoundTrip.
End CryptoProofs.

(** ** Concrete command lines *)

Module Examples.
Import RefLibc Samples.

(** C3: minivtun -l 0.0.0.0:1414 -a 10.7.0.1/24 *)
Lemma default_tunables_witness :
  has_option "t" server_opts = false /\
  has_option "m" server_opts = false /\
  g_keepalive_timeo (globals_of (exec server_opts)) = 13 /\
  g_reconnect_timeo (globals_of (exec server_opts)) = 60 /\
  g_tun_mtu (globals_of (exec server_opts)) = 1416.
Proof.
  split; [reflexivity|]. split; [reflexivity|].
  apply (@default_tunables libc test_world "minivtun" server_opts); reflexivity.
Defined.

(** The MTU of that run reaches ifconfig. *)
Example server_run :
  exec server_opts =
    ([ESystem "ifconfig mv0 10.7.0.1 netmask 255.255.255.0";
      ESystem "ifconfig mv0 mtu 1416; ifconfig mv0 up";
      EGenEncryptKey EmptyString; EGenDecryptKey EmptyString; EGenMd5sum EmptyString;
      ERunServer 3 "0.0.0.0:1414"],
     set_local_tun_in 168230913 (set_devname "mv0" initial_globals), Normal 0).
Proof. vm_compute. reflexivity. Qed.

(** C4, amended: --route 192.168.0.0/16=10.7.0.2 *)
Lemma route_added_once_witness :
  strchr "192.168.0.0" "/" = None /\
  strchr "16" "=" = None /\
  inet_pton4 (Libc := libc) "192.168.0.0" = Some 3232235520 /\
  inet_pton4 (Libc := libc) "10.7.0.2" = Some 168230914 /\
  sscanf_u (Libc := libc) "16" = Some 16 /\
  (String.length "192.168.0.0/16=10.7.0.2" <= 79)%nat /\
  @parse_virtual_route libc "192.168.0.0/16=10.7.0.2" initial_globals =
    ([ERouteAdd 3232235520 16 168230914], initial_globals, Normal tt).
Proof.
  assert (Hlen : (String.length "192.168.0.0/16=10.7.0.2" <= 79)%nat)
    by (simpl; lia).
  repeat (split; [reflexivity|]). split; [exact Hlen|].
  exact (@route_added_once libc "192.168.0.0" "16" "10.7.0.2"
           3232235520 16 168230914 initial_globals
           eq_refl eq_refl eq_refl eq_refl eq_refl Hlen).
Defined.

(** C4 as stated fails: in the argument of 88 characters the equals sign is
    the 80th character, so the copy of 79 characters has none and the
    argument is refused. *)
Lemma long_route_refused :
  strchr "1.2.3.4" "/" = None /\
  strchr long_prefix "=" = None /\
  inet_pton4 (Libc := libc) "1.2.3.4" = Some 16909060 /\
  inet_pton4 (Libc := libc) "10.0.0.1" = Some 167772161 /\
  sscanf_u (Libc := libc) long_prefix = Some 8 /\
  String.length ("1.2.3.4" ++ "/" ++ long_prefix ++ "=" ++ "10.0.0.1") = 88%nat /\
  @parse_virtual_route libc ("1.2.3.4" ++ "/" ++ long_prefix ++ "=" ++ "10.0.0.1")
    initial_globals =
    ([EStderr (route_diag long_route)], initial_globals, Exit 1).
Proof. vm_compute. repeat split. Qed.

(** C10: the argument of 80 characters and its first 79 characters; the
    gateway is read from the copy, 10.0.0.1, not from 10.0.0.1x. *)
Lemma route_reads_79_characters_witness :
  String.length cut_route = 80%nat /\
  strtake 79 cut_route = strtake 79 (strtake 79 cut_route) /\
  strtake 79 cut_route = "1.2.3.4" ++ "/" ++ (zeros 61 ++ "8") ++ "=" ++ "10.0.0.1" /\
  @parse_virtual_route libc cut_route initial_globals =
    ([ERouteAdd 16909060 8 167772161], initial_globals, Normal tt) /\
  result_of (@parse_virtual_route libc cut_route initial_globals) =
    result_of (@parse_virtual_route libc (strtake 79 cut_route) initial_globals) /\
  filter is_route_add (trace_of (@parse_virtual_route libc cut_route initial_globals)) =
    filter is_route_add
      (trace_of (@parse_virtual_route libc (strtake 79 cut_route) initial_globals)) /\
  (result_of (@parse_virtual_route libc cut_route initial_globals) = Normal tt ->
   @parse_virtual_route libc cut_route initial_globals =
     @parse_virtual_route libc (strtake 79 cut_route) initial_globals /\
   existsb is_stderr (trace_of (@parse_virtual_route libc cut_route initial_globals))
     = false).
Proof.
  split; [reflexivity|]. split; [reflexivity|]. split; [reflexivity|].
  destruct (@route_reads_79_characters libc cut_route (strtake 79 cut_route)
              initial_globals eq_refl) as (_ & _ & Hparse & Hsame).
  split; [|exact Hsame].
  exact (Hparse "1.2.3.4" (zeros 61 ++ "8") "10.0.0.1" eq_refl eq_refl eq_refl).
Defined.

(** The argument of 80 characters is accepted, the x after the gateway is
    not seen. *)
Example cut_route_accepted :
  String.length cut_route = 80%nat /\
  @parse_virtual_route libc cut_route initial_globals =
    ([ERouteAdd 16909060 8 167772161], initial_globals, Normal tt).
Proof. vm_compute. repeat split. Qed.

(** C1 as stated fails:
    - minivtun -v <cut_route> -l 0.0.0.0:1414: the gateway of the argument,
      10.0.0.1x, does not parse; the route is added from the first 79
      characters and the server runs;
    - minivtun -a nonsense -a 10.7.0.1/24 -l 0.0.0.0:1414: the first
      --ipv4-addr argument has no slash; the second one replaces it and the
      server runs. *)
Lemma invalid_arguments_accepted :
  (strchr cut_route "/" = Some 7%nat /\
   strchr (strdrop 8 cut_route) "=" = Some 62%nat /\
   strdrop 63 (strdrop 8 cut_route) = "10.0.0.1x" /\
   inet_pton4 (Libc := libc) "10.0.0.1x" = None /\
   exec [hit "v" cut_route; hit "l" "0.0.0.0:1414"] =
     ([ERouteAdd 16909060 8 167772161;
       ESystem "ifconfig mv0 mtu 1416; ifconfig mv0 up";
       EGenEncryptKey EmptyString; EGenDecryptKey EmptyString; EGenMd5sum EmptyString;
       ERunServer 3 "0.0.0.0:1414"],
      set_devname "mv0" initial_globals, Normal 0)) /\
  (strchr "nonsense" "/" = None /\
   exec override_opts =
     ([ESystem "ifconfig mv0 10.7.0.1 netmask 255.255.255.0";
       ESystem "ifconfig mv0 mtu 1416; ifconfig mv0 up";
       EGenEncryptKey EmptyString; EGenDecryptKey EmptyString; EGenMd5sum EmptyString;
       ERunServer 3 "0.0.0.0:1414"],
      set_local_tun_in 168230913 (set_devname "mv0" initial_globals), Normal 0)).
Proof. vm_compute. repeat split. Qed.

(** C1, amended: minivtun -a 10.7.0.1/31 -l 0.0.0.0:1414 *)
Lemma config_error_fatal_witness :
  @config_error libc prefix_31_opts = true /\
  existsb is_role (trace_of (exec prefix_31_opts)) = false /\
  (forall status, result_of (exec prefix_31_opts) <> Normal status) /\
  (has_option "h" prefix_31_opts = false ->
   has_option "?" prefix_31_opts = false ->
   local_part_fits 20 (last_arg "a" prefix_31_opts) = true ->
   local_part_fits 50 (last_arg "A" prefix_31_opts) = true ->
   exists t msg g, exec prefix_31_opts = ((t ++ [EStderr msg])%list, g, Exit 1)).
Proof.
  split; [reflexivity|].
  apply (@config_error_fatal libc test_world "minivtun" prefix_31_opts).
  reflexivity.
Defined.

(** The diagnostic of that run. *)
Example prefix_31_run :
  exec prefix_31_opts =
    ([EStderr ("*** Not a legal netmask or prefix length: 31." ++ nl)],
     set_local_tun_in 168230913 (set_devname "mv0" initial_globals), Exit 1).
Proof. vm_compute. reflexivity. Qed.

(** Refused routes and addresses, each with its diagnostic. *)
Example refused_arguments :
  exec [hit "v" "192.168.0.0=10.7.0.2"] =
    ([EStderr (route_diag "192.168.0.0=10.7.0.2")], initial_globals, Exit 1) /\
  exec [hit "v" "192.168.0.0/16"] =
    ([EStderr (route_diag "192.168.0.0/16")], initial_globals, Exit 1) /\
  exec [hit "v" "192.168.0/16=10.7.0.2"] =
    ([EStderr (route_diag "192.168.0/16=10.7.0.2")], initial_globals, Exit 1) /\
  exec [hit "v" "192.168.0.0/x=10.7.0.2"] =
    ([EStderr (route_diag "192.168.0.0/x=10.7.0.2")], initial_globals, Exit 1) /\
  trace_of (exec [hit "a" "10.7.0.1"]) = [EStderr (ipv4_diag_pair "10.7.0.1")] /\
  trace_of (exec [hit "a" "10.7.0/24"]) = [EStderr (ipv4_diag_local "10.7.0")] /\
  trace_of (exec [hit "A" "fd00::1"]) = [EStderr (ipv6_diag_pair "fd00::1")] /\
  trace_of (exec [hit "A" "fd00:::1/64"]) = [EStderr (ipv6_diag_local "fd00:::1")] /\
  trace_of (exec [hit "A" "fd00::1/129"]) = [EStderr (ipv6_diag_prefix "129")] /\
  trace_of (exec [hit "A" "fd00::1/0"]) = [EStderr (ipv6_diag_prefix "0")].
Proof. vm_compute. repeat split. Qed.

(** With --help first the refused address is never looked at and the status
    is 0; a local part of 21 characters is copied past the end of [s_lip]. *)
Example help_and_overflow :
  result_of (exec [hit "h" EmptyString; hit "a" "nonsense"]) = Exit 0 /\
  existsb is_stderr (trace_of (exec [hit "h" EmptyString; hit "a" "nonsense"])) = false /\
  exec [hit "a" "123456789012345678901/24"] =
    ([], set_devname "mv0" initial_globals, Undefined).
Proof. vm_compute. repeat split. Qed.

(** C2 as stated fails: minivtun -l 0.0.0.0:1414 runs with the empty
    passphrase; the keys are derived from it and nothing is printed on
    stderr; the same with an explicit --encryption-key followed by the empty
    string. *)
Lemma empty_passphrase_no_warning :
  configured_passwd [hit "l" "0.0.0.0:1414"] = Some EmptyString /\
  exec [hit "l" "0.0.0.0:1414"] =
    ([ESystem "ifconfig mv0 mtu 1416; ifconfig mv0 up";
      EGenEncryptKey EmptyString; EGenDecryptKey EmptyString; EGenMd5sum EmptyString;
      ERunServer 3 "0.0.0.0:1414"],
     set_devname "mv0" initial_globals, Normal 0) /\
  configured_passwd [hit "e" EmptyString; hit "l" "0.0.0.0:1414"] = Some EmptyString /\
  existsb is_stderr (trace_of (exec [hit "e" EmptyString; hit "l" "0.0.0.0:1414"])) = false /\
  existsb is_role (trace_of (exec [hit "e" EmptyString; hit "l" "0.0.0.0:1414"])) = true.
Proof. vm_compute. repeat split. Qed.

(** C2, amended: minivtun -r 192.0.2.1:1414 -a 10.7.0.2/10.7.0.1 -N *)
Lemma warning_when_disabled_witness :
  @startup libc test_world "minivtun" client_plain_opts initial_globals =
    client_plain_startup /\
  configured_passwd client_plain_opts = None /\
  exists pre e,
    trace_of (exec client_plain_opts) =
      (pre ++ [EStderr no_encryption_warning; e])%list /\
    existsb is_stderr pre = false /\ existsb is_role pre = false.
Proof.
  split; [reflexivity|]. split; [reflexivity|].
  exact (@warning_when_disabled libc test_world "minivtun" client_plain_opts
           _ _ _ (eq_refl client_plain_startup)).
Defined.

(** The whole run of that command line. *)
Example client_plain_run :
  exec client_plain_opts =
    ([ERouteAdd 0 0 168230913;
      ESystem "ifconfig mv0 10.7.0.2 pointopoint 10.7.0.1";
      ESystem "ifconfig mv0 mtu 1416; ifconfig mv0 up";
      EStderr no_encryption_warning;
      ERunClient 3 "192.0.2.1:1414"],
     set_crypto_passwd None
       (set_local_tun_in 168230914 (set_devname "mv0" initial_globals)), Normal 0).
Proof. vm_compute. reflexivity. Qed.

(** C5 as stated fails: minivtun -l 0.0.0.0:1414 -r 192.0.2.1:1414 has a
    peer address and never runs the client role. *)
Lemma peer_given_server_runs :
  last_arg "r" both_opts = Some "192.0.2.1:1414" /\
  existsb is_client (trace_of (exec both_opts)) = false /\
  exec both_opts =
    ([ESystem "ifconfig mv0 mtu 1416; ifconfig mv0 up";
      EGenEncryptKey EmptyString; EGenDecryptKey EmptyString; EGenMd5sum EmptyString;
      ERunServer 3 "0.0.0.0:1414"],
     set_devname "mv0" initial_globals, Normal 0).
Proof. vm_compute. repeat split. Qed.

(** C5, amended: the same command line *)
Lemma role_dispatch_witness :
  @startup libc test_world "minivtun" both_opts initial_globals = both_startup /\
  existsb is_role (trace_of both_startup) = false /\
  exec both_opts =
    ((trace_of both_startup ++ [ERunServer 3 "0.0.0.0:1414"])%list,
     globals_of both_startup, Normal 0).
Proof.
  split; [reflexivity|].
  exact (@role_dispatch libc test_world "minivtun" both_opts
           _ _ _ _ (eq_refl both_startup)).
Defined.

(** With a peer address only the client runs, with neither address the
    process leaves with status 1. *)
Example other_roles :
  exec [hit "r" "192.0.2.1:1414"] =
    ([ESystem "ifconfig mv0 mtu 1416; ifconfig mv0 up";
      EGenEncryptKey EmptyString; EGenDecryptKey EmptyString; EGenMd5sum EmptyString;
      ERunClient 3 "192.0.2.1:1414"],
     set_devname "mv0" initial_globals, Normal 0) /\
  exec [] =
    ([ESystem "ifconfig mv0 mtu 1416; ifconfig mv0 up";
      EGenEncryptKey EmptyString; EGenDecryptKey EmptyString; EGenMd5sum EmptyString;
      EStderr no_address_diag],
     set_devname "mv0" initial_globals, Exit 1).
Proof. vm_compute. repeat split. Qed.

(** C6: minivtun -e secret -l 0.0.0.0:1414 -v 172.16.0.0/24=10.0.0.2 *)
Lemma keys_derived_once_witness :
  configured_passwd secret_opts = Some "secret" /\
  @startup libc test_world "minivtun" secret_opts initial_globals = secret_startup /\
  exists pre e,
    trace_of (exec secret_opts) =
      (pre ++ [EGenEncryptKey "secret"; EGenDecryptKey "secret"; EGenMd5sum "secret"; e])%list /\
    existsb is_keygen pre = false /\
    existsb is_role pre = false /\
    is_keygen e = false /\
    (is_role e = true \/ e = EStderr no_address_diag).
Proof.
  split; [reflexivity|]. split; [reflexivity|].
  exact (@keys_derived_once libc test_world "minivtun" secret_opts "secret"
           _ _ _ eq_refl (eq_refl secret_startup)).
Defined.

(** The whole run of that command line. *)
Example secret_run :
  exec secret_opts =
    ([ERouteAdd 2886729728 24 167772162;
      ESystem "ifconfig mv0 mtu 1416; ifconfig mv0 up";
      EGenEncryptKey "secret"; EGenDecryptKey "secret"; EGenMd5sum "secret";
      ERunServer 3 "0.0.0.0:1414"],
     set_crypto_passwd (Some "secret") (set_devname "mv0" initial_globals), Normal 0).
Proof. vm_compute. reflexivity. Qed.

(** C9: minivtun -v 172.16.0.0/24=10.7.0.9 -a 10.7.0.2/10.7.0.1 -r 192.0.2.1:1414 *)
Lemma default_route_before_role_witness :
  last_arg "a" pair_opts = Some ("10.7.0.2" ++ "/" ++ "10.7.0.1") /\
  strchr "10.7.0.2" "/" = None /\
  inet_pton4 (Libc := libc) "10.7.0.1" = Some 168230913 /\
  @startup libc test_world "minivtun" pair_opts initial_globals = pair_startup /\
  @configure_ipv4 libc (Some ("10.7.0.2" ++ "/" ++ "10.7.0.1"))
    (set_devname "mv0" initial_globals) =
    ([ERouteAdd 0 0 168230913;
      ESystem "ifconfig mv0 10.7.0.2 pointopoint 10.7.0.1"],
     set_local_tun_in 168230914 (set_devname "mv0" initial_globals), Normal tt) /\
  exists pre cmd post,
    trace_of (exec pair_opts) =
      (pre ++ ERouteAdd 0 0 168230913 :: ESystem cmd :: post)%list /\
    forallb is_route_add pre = true /\
    existsb is_role pre = false.
Proof.
  do 4 (split; [reflexivity|]).
  destruct (@default_route_before_role libc test_world "minivtun" pair_opts
              "10.7.0.2" "10.7.0.1" 168230913 eq_refl eq_refl eq_refl)
    as [Hblock Hrun].
  split.
  - exact (Hblock 168230914 (set_devname "mv0" initial_globals) eq_refl).
  - exact (Hrun _ _ _ (eq_refl pair_startup)).
Defined.

(** The whole run of that command line. *)
Example pair_run :
  exec pair_opts =
    ([ERouteAdd 2886729728 24 168230921;
      ERouteAdd 0 0 168230913;
      ESystem "ifconfig mv0 10.7.0.2 pointopoint 10.7.0.1";
      ESystem "ifconfig mv0 mtu 1416; ifconfig mv0 up";
      EGenEncryptKey EmptyString; EGenDecryptKey EmptyString; EGenMd5sum EmptyString;
      ERunClient 3 "192.0.2.1:1414"],
     set_local_tun_in 168230914 (set_devname "mv0" initial_globals), Normal 0).
Proof. vm_compute. reflexivity. Qed.

(** C8 as stated fails: in 10.7.0.1/00000000000000000031 the second part is
    the number 31 written with 20 digits; [main] reads 3 from its first 19
    characters and sets the netmask of a prefix of length 3. *)
Lemma prefix_31_accepted :
  strchr "10.7.0.1" "/" = None /\
  inet_pton4 (Libc := libc) "10.7.0.1" = Some 168230913 /\
  inet_pton4 (Libc := libc) (zeros 18 ++ "31") = None /\
  sscanf_d (Libc := libc) (zeros 18 ++ "31") = Some 31 /\
  @configure_ipv4 libc (Some ("10.7.0.1" ++ "/" ++ zeros 18 ++ "31"))
    (set_devname "mv0" initial_globals) =
    ([ESystem "ifconfig mv0 10.7.0.1 netmask 224.0.0.0"],
     set_local_tun_in 168230913 (set_devname "mv0" initial_globals), Normal tt).
Proof. vm_compute. repeat split. Qed.

(** C8, amended: --ipv4-addr 10.7.0.1/31 *)
Lemma ipv4_prefix_length_range_witness :
  strchr "10.7.0.1" "/" = None /\
  inet_pton4 (Libc := libc) "10.7.0.1" = Some 168230913 /\
  inet_pton4 (Libc := libc) "31" = None /\
  @configure_ipv4 libc (Some ("10.7.0.1" ++ "/" ++ "31")) initial_globals =
    ([EStderr (ipv4_diag_netmask "31")],
     set_local_tun_in 168230913 initial_globals, Exit 1).
Proof.
  repeat (split; [reflexivity|]).
  exact (@ipv4_prefix_length_range libc "10.7.0.1" "31" 168230913 initial_globals
           eq_refl eq_refl eq_refl).
Defined.

(** Prefix lengths 0 and 32 are refused, 1 and 30 are accepted. *)
Example prefix_lengths :
  result_of (@configure_ipv4 libc (Some "10.7.0.1/0") initial_globals) = Exit 1 /\
  result_of (@configure_ipv4 libc (Some "10.7.0.1/32") initial_globals) = Exit 1 /\
  trace_of (@configure_ipv4 libc (Some "10.7.0.1/1") (set_devname "mv0" initial_globals)) =
    [ESystem "ifconfig mv0 10.7.0.1 netmask 128.0.0.0"] /\
  trace_of (@configure_ipv4 libc (Some "10.7.0.1/30") (set_devname "mv0" initial_globals)) =
    [ESystem "ifconfig mv0 10.7.0.1 netmask 255.255.255.252"].
Proof. vm_compute. repeat split. Qed.

Import CryptoSpec.

(** C7: a packet of 20 bytes under the passphrase secret, with the toy
    cipher *)
Lemma decrypt_encrypt_witness :
  @valid_context toy_cipher (@derive toy_cipher (Some "secret")) /\
  @valid_iv toy_cipher sample_iv /\
  @decrypt toy_cipher (@derive toy_cipher (Some "secret"))
    (@encrypt toy_cipher (@derive toy_cipher (Some "secret")) sample_packet sample_iv)
    sample_iv = Some sample_packet.
Proof.
  assert (Hctx : @valid_context toy_cipher (@derive toy_cipher (Some "secret")))
    by (exists (Some "secret"); reflexivity).
  assert (Hiv : @valid_iv toy_cipher sample_iv)
    by (split; [reflexivity | repeat constructor; unfold is_byte; lia]).
  split; [exact Hctx|]. split; [exact Hiv|].
  exact (@CryptoProofs.decrypt_encrypt toy_cipher _ sample_packet sample_iv Hctx Hiv).
Defined.

(** The cipher text of that packet has two blocks and differs from it. *)
Example sample_ciphertext :
  @encrypt toy_cipher (@derive toy_cipher (Some "secret")) sample_packet sample_iv =
    [66; 4; 5; 22; 3; 1; 1; 14; 79; 13; 242; 10; 1; 15; 9; 248;
     78; 5; 3; 18; 9; 11; 11; 4; 69; 7; 248; 0; 11; 5; 3; 242].
Proof. vm_compute. reflexivity. Qed.

End Examples.

(** ** More concrete runs *)

Module MoreExamples.
Import RefLibc Samples MoreSamples.

(** X1: the device of the test host *)
Lemma tun_alloc_outcome_witness :
  tun_alloc test_world "mv%d" = ([], 3, "mv0") /\
  3 = opened_descriptor test_world /\
  @nil event = [] /\
  (String.length "mv0" <= 15)%nat /\
  "mv0" = strtake 15 (snd (sys_tunsetiff test_world 3 (strtake 16 "mv%d"))).
Proof.
  split; [reflexivity|].
  apply (proj1 (tun_alloc_outcome test_world "mv%d")). simpl. lia.
Defined.

(** Without device files nothing is opened, nothing closed. *)
Example tun_alloc_no_device :
  tun_alloc no_tun_world "mv%d" = ([], -1, "mv%d").
Proof. reflexivity. Qed.

(** X2: minivtun -m 1400 -t 7 -v 172.16.0.0/24=10.0.0.2 -h -? *)
Lemma help_stops_everything_witness :
  @options_loop libc "minivtun" tuned_opts initial_locals initial_globals = tuned_loop /\
  @run libc test_world "minivtun" (tuned_opts ++ hit "h" EmptyString :: [hit "?" EmptyString]) =
    ((trace_of tuned_loop ++ map EStdout (help_lines "minivtun" (globals_of tuned_loop)))%list,
     globals_of tuned_loop, Exit 0) /\
  existsb is_stderr
    (trace_of tuned_loop ++ map EStdout (help_lines "minivtun" (globals_of tuned_loop)))
    = false /\
  g_tun_mtu (globals_of tuned_loop) = @configured_mtu libc tuned_opts /\
  g_keepalive_timeo (globals_of tuned_loop) = @configured_keepalive libc tuned_opts.
Proof.
  split; [reflexivity|].
  exact (@help_stops_everything libc test_world "minivtun" tuned_opts
           [hit "?" EmptyString] EmptyString _ _ _ (eq_refl tuned_loop)).
Defined.

(** X3: minivtun -m 1400 -t 7 -v 172.16.0.0/24=10.0.0.2 -? -h *)
Lemma unknown_option_exits_witness :
  @options_loop libc "minivtun" tuned_opts initial_locals initial_globals = tuned_loop /\
  @run libc test_world "minivtun" (tuned_opts ++ hit "?" EmptyString :: [hit "h" EmptyString]) =
    (trace_of tuned_loop, globals_of tuned_loop, Exit 1) /\
  forallb is_route_add (trace_of tuned_loop) = true.
Proof.
  split; [reflexivity|].
  exact (@unknown_option_exits libc test_world "minivtun" tuned_opts
           [hit "h" EmptyString] EmptyString _ _ _ (eq_refl tuned_loop)).
Defined.

(** X4: minivtun -m 1400 -t 7 -v 172.16.0.0/24=10.0.0.2 -v 192.168.0.0=10.7.0.2 -h *)
Lemma refused_route_exits_witness :
  @options_loop libc "minivtun" tuned_opts initial_locals initial_globals = tuned_loop /\
  @route_expr libc "192.168.0.0=10.7.0.2" = None /\
  @run libc test_world "minivtun"
     (tuned_opts ++ hit "v" "192.168.0.0=10.7.0.2" :: [hit "h" EmptyString]) =
    ((trace_of tuned_loop ++ [EStderr (route_diag "192.168.0.0=10.7.0.2")])%list,
     globals_of tuned_loop, Exit 1) /\
  trace_of tuned_loop = @route_events libc tuned_opts.
Proof.
  split; [reflexivity|]. split; [reflexivity|].
  exact (@refused_route_exits libc test_world "minivtun" tuned_opts
           [hit "h" EmptyString] "192.168.0.0=10.7.0.2" _ _ _
           (eq_refl tuned_loop) eq_refl).
Defined.

(** X5: two routes, in the order they are given *)
Lemma routes_in_order_witness :
  @options_loop libc "minivtun" two_routes_opts initial_locals initial_globals =
    two_routes_loop /\
  trace_of two_routes_loop = @route_events libc two_routes_opts /\
  List.length (trace_of two_routes_loop) =
    List.length (filter (fun h => Ascii.eqb (opt h) "v") two_routes_opts) /\
  exists rest,
    trace_of (exec two_routes_opts) = (@route_events libc two_routes_opts ++ rest)%list.
Proof.
  split; [reflexivity|].
  exact (@routes_in_order libc test_world "minivtun" two_routes_opts _ _ _
           (eq_refl two_routes_loop)).
Defined.

Example two_routes_run :
  exec two_routes_opts =
    ([ERouteAdd 2886729728 24 167772162; ERouteAdd 3232235520 16 168230914;
      ESystem "ifconfig mv0 mtu 1400; ifconfig mv0 up";
      EGenEncryptKey EmptyString; EGenDecryptKey EmptyString; EGenMd5sum EmptyString;
      ERunServer 3 "0.0.0.0:1414"],
     set_tun_mtu 1400 (set_devname "mv0" initial_globals), Normal 0).
Proof. vm_compute. reflexivity. Qed.

(** X6: the same command line on a host without device files *)
Lemma device_failure_exits_witness :
  @options_loop libc "minivtun" two_routes_opts initial_locals initial_globals =
    two_routes_loop /\
  tun_available no_tun_world (requested_devname two_routes_opts) = false /\
  trace_of (@run libc no_tun_world "minivtun" two_routes_opts) =
    (@route_events libc two_routes_opts ++ tun_closed no_tun_world
       ++ [EStderr (open_tun_diag no_tun_world)])%list /\
  result_of (@run libc no_tun_world "minivtun" two_routes_opts) = Exit 1 /\
  g_devname (globals_of (@run libc no_tun_world "minivtun" two_routes_opts)) =
    requested_devname two_routes_opts.
Proof.
  split; [reflexivity|]. split; [reflexivity|].
  exact (@device_failure_exits libc no_tun_world "minivtun" two_routes_opts _ _ _
           (eq_refl two_routes_loop) eq_refl).
Defined.

(** X7: minivtun -n tun7 -a 10.7.0.1/24 -A fd00::1/64 -m 1400 -l 0.0.0.0:1414 *)
Lemma device_of_startup_witness :
  @startup libc test_world "minivtun" dual_opts initial_globals = dual_startup /\
  tun_available test_world (requested_devname dual_opts) = true /\
  3 = opened_descriptor test_world /\ 0 <= 3 /\
  g_devname (globals_of dual_startup) =
    strtake 15 (snd (sys_tunsetiff test_world 3 (strtake 16 (requested_devname dual_opts)))) /\
  (String.length (g_devname (globals_of dual_startup)) <= 15)%nat /\
  exists e,
    trace_of (exec dual_opts) = (trace_of dual_startup ++ [e])%list /\
    (e = EStderr no_address_diag \/
     exists a, e = ERunServer 3 a \/ e = ERunClient 3 a).
Proof.
  split; [reflexivity|].
  exact (@device_of_startup libc test_world "minivtun" dual_opts _ _ _ _
           (eq_refl dual_startup)).
Defined.

Example dual_run :
  exec dual_opts =
    ([ESystem "ifconfig tun7 10.7.0.1 netmask 255.255.255.0";
      ESystem "ifconfig tun7 add fd00::1/64";
      ESystem "ifconfig tun7 mtu 1400; ifconfig tun7 up";
      EGenEncryptKey EmptyString; EGenDecryptKey EmptyString; EGenMd5sum EmptyString;
      ERunServer 3 "0.0.0.0:1414"],
     set_tun_mtu 1400
       (set_local_tun_in6 fd00_1
          (set_local_tun_in 168230913 (set_devname "tun7" initial_globals))),
     Normal 0).
Proof. vm_compute. reflexivity. Qed.

(** X8: --mtu 1400 --keepalive 7 *)
Lemma tunables_from_options_witness :
  @options_loop libc "minivtun" tuned_opts initial_locals initial_globals = tuned_loop /\
  g_tun_mtu (globals_of (exec tuned_opts)) = @configured_mtu libc tuned_opts /\
  g_keepalive_timeo (globals_of (exec tuned_opts)) = @configured_keepalive libc tuned_opts /\
  g_reconnect_timeo (globals_of (exec tuned_opts)) = 60 /\
  0 <= @configured_mtu libc tuned_opts < 2 ^ 32 /\
  0 <= @configured_keepalive libc tuned_opts < 2 ^ 32.
Proof.
  split; [reflexivity|].
  exact (@tunables_from_options libc test_world "minivtun" tuned_opts _ _ _
           (eq_refl tuned_loop)).
Defined.

Example tuned_values :
  @configured_mtu libc tuned_opts = 1400 /\ @configured_keepalive libc tuned_opts = 7 /\
  @configured_mtu libc [hit "m" "4294967297"] = 1 /\
  @configured_mtu libc [hit "m" "0"] = 0.
Proof. vm_compute. repeat split. Qed.

(** X9: both local addresses of the dual command line *)
Lemma local_addresses_stored_witness :
  @startup libc test_world "minivtun" dual_opts initial_globals = dual_startup /\
  match last_arg "a" dual_opts with
  | None => g_local_tun_in (globals_of dual_startup) = 0
  | Some cfg =>
      exists n, strchr cfg "/" = Some n /\ (n < 20)%nat /\
                inet_pton4 (Libc := libc) (strtake n cfg) =
                  Some (g_local_tun_in (globals_of dual_startup))
  end /\
  match last_arg "A" dual_opts with
  | None => g_local_tun_in6 (globals_of dual_startup) = 0
  | Some cfg =>
      exists n, strchr cfg "/" = Some n /\ (n < 50)%nat /\
                inet_pton6 (Libc := libc) (strtake n cfg) =
                  Some (g_local_tun_in6 (globals_of dual_startup))
  end.
Proof.
  split; [reflexivity|].
  exact (@local_addresses_stored libc test_world "minivtun" dual_opts _ _ _
           (eq_refl dual_startup)).
Defined.

(** X10: --ipv6-addr fd00::1/64 *)
Lemma ipv6_prefix_length_range_witness :
  strchr "fd00::1" "/" = None /\
  (String.length "fd00::1" < 50)%nat /\
  inet_pton6 (Libc := libc) "fd00::1" = Some fd00_1 /\
  @configure_ipv6 libc (Some ("fd00::1" ++ "/" ++ "64")) initial_globals =
    match sscanf_d (Libc := libc) (strtake 19 "64") with
    | Some pfx_len =>
        if (1 <=? pfx_len) && (pfx_len <=? 128) then
          ([ESystem ("ifconfig " ++ g_devname initial_globals ++ " add " ++ "fd00::1"
                       ++ "/" ++ fmt_d pfx_len)],
           set_local_tun_in6 fd00_1 initial_globals, Normal tt)
        else ([EStderr (ipv6_diag_prefix (strtake 19 "64"))],
              set_local_tun_in6 fd00_1 initial_globals, Exit 1)
    | None => ([EStderr (ipv6_diag_prefix (strtake 19 "64"))],
               set_local_tun_in6 fd00_1 initial_globals, Exit 1)
    end.
Proof.
  assert (Hlen : (String.length "fd00::1" < 50)%nat) by (simpl; lia).
  split; [reflexivity|]. split; [exact Hlen|]. split; [reflexivity|].
  exact (@ipv6_prefix_length_range libc "fd00::1" "64" fd00_1 initial_globals
           eq_refl Hlen eq_refl).
Defined.

Example ipv6_prefix_lengths :
  result_of (@configure_ipv6 libc (Some "fd00::1/128") initial_globals) = Normal tt /\
  result_of (@configure_ipv6 libc (Some "fd00::1/129") initial_globals) = Exit 1 /\
  result_of (@configure_ipv6 libc (Some "fd00::1/0") initial_globals) = Exit 1 /\
  trace_of (@configure_ipv6 libc (Some "fd00::1/64; reboot") initial_globals) =
    [ESystem "ifconfig  add fd00::1/64"].
Proof. vm_compute. repeat split. Qed.


(** X12: the netmask command of minivtun -l 0.0.0.0:1414 -a 10.7.0.1/24 *)
Lemma commands_are_ifconfig_witness :
  In (ESystem "ifconfig mv0 10.7.0.1 netmask 255.255.255.0")
     (trace_of (exec server_opts)) /\
  tun_available test_world (requested_devname server_opts) = true /\
  @ifconfig_command libc
    (strtake 15 (snd (sys_tunsetiff test_world (opened_descriptor test_world)
                        (strtake 16 (requested_devname server_opts)))))
    "ifconfig mv0 10.7.0.1 netmask 255.255.255.0" /\
  (String.length
     (strtake 15 (snd (sys_tunsetiff test_world (opened_descriptor test_world)
                         (strtake 16 (requested_devname server_opts))))) <= 15)%nat.
Proof.
  assert (H : In (ESystem "ifconfig mv0 10.7.0.1 netmask 255.255.255.0")
                (trace_of (exec server_opts))) by (vm_compute; left; reflexivity).
  split; [exact H|].
  exact (@commands_are_ifconfig libc test_world "minivtun" server_opts _ H).
Defined.

(** The device name is not checked: minivtun -n "x;reboot" -l 0.0.0.0:1414 on
    a host whose kernel answers with the name it is asked for. *)
Example ifname_reaches_shell :
  trace_of (exec [hit "n" "x;reboot"; hit "l" "0.0.0.0:1414"]) =
    [ESystem "ifconfig x;reboot mtu 1416; ifconfig x;reboot up";
     EGenEncryptKey EmptyString; EGenDecryptKey EmptyString; EGenMd5sum EmptyString;
     ERunServer 3 "0.0.0.0:1414"].
Proof. vm_compute. reflexivity. Qed.

(** X13: the IPv6 command of the dual command line *)
Lemma commands_fit_buffer_witness :
  In (ESystem "ifconfig tun7 add fd00::1/64") (trace_of (exec dual_opts)) /\
  (String.length "ifconfig tun7 add fd00::1/64" <= 82)%nat /\
  (String.length "ifconfig tun7 add fd00::1/64" + 1 <= 100)%nat.
Proof.
  assert (H : In (ESystem "ifconfig tun7 add fd00::1/64") (trace_of (exec dual_opts)))
    by (vm_compute; right; left; reflexivity).
  split; [exact H|].
  exact (@commands_fit_buffer libc test_world "minivtun" dual_opts _ H).
Defined.

(** X14: the three commands of the dual command line, the IPv4 one first *)
Lemma commands_of_startup_witness :
  @startup libc test_world "minivtun" dual_opts initial_globals = dual_startup /\
  filter is_system (trace_of (exec dual_opts)) =
    [ESystem "ifconfig tun7 10.7.0.1 netmask 255.255.255.0";
     ESystem "ifconfig tun7 add fd00::1/64";
     ESystem "ifconfig tun7 mtu 1400; ifconfig tun7 up"] /\
  exists c4 c6,
    filter is_system (trace_of (exec dual_opts)) =
      (c4 ++ c6 ++
       [ESystem ("ifconfig " ++ g_devname (globals_of dual_startup) ++ " mtu "
                   ++ fmt_u (@configured_mtu libc dual_opts)
                   ++ "; ifconfig " ++ g_devname (globals_of dual_startup) ++ " up")])%list /\
    (exists n,
        strchr "10.7.0.1/24" "/" = Some n /\
        match inet_pton4 (Libc := libc) (strtake 19 (strdrop (S n) "10.7.0.1/24")) with
        | Some _ =>
            c4 = [ESystem ("ifconfig " ++ g_devname (globals_of dual_startup) ++ " "
                             ++ strtake n "10.7.0.1/24" ++ " pointopoint "
                             ++ strtake 19 (strdrop (S n) "10.7.0.1/24"))]
        | None =>
            exists na,
              sscanf_d (Libc := libc) (strtake 19 (strdrop (S n) "10.7.0.1/24")) = Some na /\
              1 <= na <= 30 /\
              c4 = [ESystem ("ifconfig " ++ g_devname (globals_of dual_startup) ++ " "
                               ++ strtake n "10.7.0.1/24" ++ " netmask "
                               ++ fmt_netmask (netmask na))]
        end) /\
    (exists n pfx_len,
        strchr "fd00::1/64" "/" = Some n /\
        sscanf_d (Libc := libc) (strtake 19 (strdrop (S n) "fd00::1/64")) = Some pfx_len /\
        1 <= pfx_len <= 128 /\
        c6 = [ESystem ("ifconfig " ++ g_devname (globals_of dual_startup) ++ " add "
                         ++ strtake n "fd00::1/64" ++ "/" ++ fmt_d pfx_len)]).
Proof.
  split; [reflexivity|]. split; [vm_compute; reflexivity|].
  exact (@commands_of_startup libc test_world "minivtun" dual_opts _ _ _
           (eq_refl dual_startup)).
Defined.

(** X15: -d and -p change nothing that shows. *)
Example daemon_run :
  trace_of (exec (hit "d" EmptyString :: hit "p" "/run/minivtun.pid" :: dual_opts)) =
    trace_of (exec dual_opts) /\
  g_in_background
    (globals_of (exec (hit "d" EmptyString :: hit "p" "/run/minivtun.pid" :: dual_opts)))
    = true.
Proof. vm_compute. split; reflexivity. Qed.

(** X16: minivtun -v 172.16.0.0/24=10.0.0.2 -a 12345678901234567890/24 *)
Lemma local_part_unchecked_witness :
  @options_loop libc "minivtun" long_local_opts initial_locals initial_globals =
    long_local_loop /\
  tun_available test_world (requested_devname long_local_opts) = true /\
  local_part_fits 20 (last_arg "a" long_local_opts) = false /\
  result_of (exec long_local_opts) = Undefined /\
  trace_of (exec long_local_opts) = @route_events libc long_local_opts.
Proof.
  split; [reflexivity|]. split; [reflexivity|]. split; [reflexivity|].
  exact (proj1 (@local_part_unchecked libc test_world "minivtun" long_local_opts _ _ _
                  (eq_refl long_local_loop) eq_refl) eq_refl).
Defined.

End MoreExamples.
